(** * django-ansible-base: query-string filters, JWT key resolution, user mapping

    A shallow embedding of
      - [ansible_base/rest_filters/rest_framework/field_lookup_backend.py]
        ([FieldLookupBackend]), translated from the source;
      - the decryption-key retry protocol and the user field mapping of
        [ansible_base.jwt_consumer.common.auth], whose module is not part of
        the sources at hand: both are modelled from the specification and
        checked against the test-suite in
        [test_app/tests/jwt_consumer/common/test_auth.py]. *)

From Stdlib Require Import String Ascii List ZArith Bool Lia.
From stdpp Require Import base option gmap strings pretty.
Import ListNotations.

Local Open Scope string_scope.
Local Open Scope list_scope.
Set Warnings "-register-all".

(* stdpp keeps [simpl] from unfolding the append of strings *)
#[local] Arguments String.append !s1 s2 : simpl nomatch.

(** ** Python [str] methods used by the sources *)

Module PyStr.

(** [s.startswith(p)] *)
Definition startswith (p s : string) : bool := String.prefix p s.

(** [s[n:]] *)
Fixpoint drop (n : nat) (s : string) : string :=
  match n, s with
  | O, _ => s
  | S _, EmptyString => EmptyString
  | S k, String _ s' => drop k s'
  end.

(** [s[:n]] for a non-negative [n] *)
Fixpoint take (n : nat) (s : string) : string :=
  match n, s with
  | O, _ => EmptyString
  | S _, EmptyString => EmptyString
  | S k, String c s' => String c (take k s')
  end.

(** [s[:-n]] for a positive literal [n] *)
Definition drop_end (n : nat) (s : string) : string :=
  take (String.length s - n) s.

(** [s.endswith(suf)] *)
Definition endswith (suf s : string) : bool :=
  (String.length suf <=? String.length s)%nat
  && String.eqb (drop (String.length s - String.length suf) s) suf.

(** [sub in s] *)
Fixpoint contains (sub s : string) : bool :=
  String.prefix sub s
  || match s with
     | EmptyString => false
     | String _ s' => contains sub s'
     end.

(** [s.replace(old, new)]: every non-overlapping occurrence, leftmost
    first.  [skip] counts the characters of a matched occurrence that are
    still to be passed over. *)
Fixpoint replace_go (old new : string) (skip : nat) (s : string) : string :=
  match s with
  | EmptyString => EmptyString
  | String c s' =>
      match skip with
      | S k => replace_go old new k s'
      | O =>
          if String.prefix old s
          then new +:+ replace_go old new (String.length old - 1) s'
          else String c (replace_go old new 0 s')
      end
  end.

Fixpoint intersperse_str (new s : string) : string :=
  match s with
  | EmptyString => EmptyString
  | String c s' => String c (new +:+ intersperse_str new s')
  end.

Definition replace (old new s : string) : string :=
  match old with
  | EmptyString => new +:+ intersperse_str new s
  | _ => replace_go old new 0 s
  end.

(** [s.split(sep)] for a non-empty separator: [cur] is the segment read
    so far (reversed), [skip] as in [replace_go]. *)
Fixpoint split_go (sep : string) (skip : nat) (cur : string) (s : string)
  : list string :=
  match s with
  | EmptyString => [String.rev cur]
  | String c s' =>
      match skip with
      | S k => split_go sep k cur s'
      | O =>
          if String.prefix sep s
          then String.rev cur :: split_go sep (String.length sep - 1) EmptyString s'
          else split_go sep 0 (String c cur) s'
      end
  end.

Definition split (sep s : string) : list string := split_go sep 0 EmptyString s.

(** The rightmost occurrence of [sep] in [s]: what is before it and what
    is after it ([s.rfind(sep)], as [rsplit] uses it). *)
Fixpoint rfind_split (sep s : string) : option (string * string) :=
  match s with
  | EmptyString => None
  | String c s' =>
      match rfind_split sep s' with
      | Some (p, t) => Some (String c p, t)
      | None =>
          if String.prefix sep s
          then Some (EmptyString, drop (String.length sep) s)
          else None
      end
  end.

(** [s.rsplit(sep, 1)] for a non-empty separator *)
Definition rsplit1 (sep s : string) : list string :=
  match rfind_split sep s with
  | Some (p, t) => [p; t]
  | None => [s]
  end.

(** [sep.join(l)] *)
Fixpoint join (sep : string) (l : list string) : string :=
  match l with
  | [] => EmptyString
  | [x] => x
  | x :: rest => x +:+ sep +:+ join sep rest
  end.

Definition lower_ascii (c : ascii) : ascii :=
  let n := nat_of_ascii c in
  if ((65 <=? n) && (n <=? 90))%nat then ascii_of_nat (n + 32) else c.

(** [s.lower()] on the ASCII letters *)
Fixpoint lower (s : string) : string :=
  match s with
  | EmptyString => EmptyString
  | String c s' => String (lower_ascii c) (lower s')
  end.

(** [s.encode("ascii")] succeeds: every byte is below 128 *)
Fixpoint is_ascii (s : string) : bool :=
  match s with
  | EmptyString => true
  | String c s' => (nat_of_ascii c <? 128)%nat && is_ascii s'
  end.

(** [x in (a, b, ...)] for a tuple of strings *)
Definition in_tuple (x : string) (l : list string) : bool :=
  existsb (String.eqb x) l.

Definition is_empty (s : string) : bool :=
  match s with EmptyString => true | _ => false end.

(** [s[-1]] when there is one *)
Fixpoint last_char (s : string) : option ascii :=
  match s with
  | EmptyString => None
  | String c EmptyString => Some c
  | String _ s' => last_char s'
  end.

End PyStr.

(** ** Python values, exceptions and results *)

Inductive pyval : Type :=
| PyNone
| PyBool (b : bool)
| PyInt (z : Z)
| PyStr (s : string)
| PyList (l : list pyval).

(** The exceptions that the filter backend raises, lets through or converts. *)
Inductive exn : Type :=
| ParseError (detail : string)
| ValueError (msg : string)
| TypeError (msg : string)
| FieldError (msg : string)
| FieldDoesNotExist (msg : string)
| ValidationError (messages : list string)
| PermissionDenied (msg : string)
| ReError (msg : string)
| AssertionError
| IndexError
| AttributeError
| StopIteration
| UnboundLocalError.

Inductive result (A : Type) : Type :=
| Ok (a : A)
| Raise (e : exn).
Arguments Ok {A} a.
Arguments Raise {A} e.

Definition bind {A B : Type} (r : result A) (k : A -> result B) : result B :=
  match r with
  | Ok a => k a
  | Raise e => Raise e
  end.

Notation "'let*' x ':=' r 'in' k" := (bind r (fun x => k))
  (at level 10, x pattern, r at level 100, k at level 200).

(** [for x in l: st = f(st, x)] where the body may raise *)
Fixpoint for_each {A S : Type} (f : S -> A -> result S) (l : list A) (st : S)
  : result S :=
  match l with
  | [] => Ok st
  | x :: rest => let* st' := f st x in for_each f rest st'
  end.

Definition is_ok {A : Type} (r : result A) : bool :=
  match r with Ok _ => true | Raise _ => false end.

(** ** The schema as the backend sees it *)

(** The Django field classes that the backend tests with [isinstance]. *)
Inductive FieldKind : Type :=
| BooleanField | CharField | TextField | IntegerField | JSONField
| ForeignKey | ManyToManyField | ForeignObjectRel | GenericForeignKey
| OtherField.

(** A field with its [name] and [related_model]; a model with
    [_meta.object_name], [_meta.fields] and whether it has the attribute
    [accessible_pk_qs]. *)
Inductive Field : Type :=
| mkField (name : string) (kind : FieldKind) (related_model : option Model)
with Model : Type :=
| mkModel (object_name : string) (fields : list Field) (accessible_pk_qs : bool).

Definition name (f : Field) : string := let '(mkField n _ _) := f in n.
Definition kind (f : Field) : FieldKind := let '(mkField _ k _) := f in k.
Definition related_model (f : Field) : option Model := let '(mkField _ _ r) := f in r.
Definition object_name (m : Model) : string := let '(mkModel n _ _) := m in n.
Definition fields (m : Model) : list Field := let '(mkModel _ fs _) := m in fs.
Definition accessible_pk_qs (m : Model) : bool := let '(mkModel _ _ a) := m in a.

(** [django.db.models.Q]: keyword leaves, [~], [|]; the role constraint
    [Q(pk__in=model.accessible_pk_qs(request.user, role_name))] is kept
    symbolic. *)
Inductive Q : Type :=
| Q_empty
| Q_leaf (k : string) (v : pyval)
| Q_pk_in_accessible (role_name : string)
| Q_not (q : Q)
| Q_or (a b : Q).

(** [a | b]: an empty [Q()] is the unit of [|]. *)
Definition q_or (a b : Q) : Q :=
  match a, b with
  | Q_empty, _ => b
  | _, Q_empty => a
  | _, _ => Q_or a b
  end.

(** The queryset as the record of what the backend asked of it:
    [annotate(alias=Cast(source, TextField()))], each [filter] call with its arguments in
    order, and [distinct()]. *)
Record QuerySet : Type := mkQuerySet {
  qs_model : Model;
  annotations : list (string * string);
  filter_calls : list (list Q);
  is_distinct : bool
}.

Definition qs_annotate (alias source : string) (qs : QuerySet) : QuerySet :=
  {| qs_model := qs_model qs;
     annotations := annotations qs ++ [(alias, source)];
     filter_calls := filter_calls qs;
     is_distinct := is_distinct qs |}.

Definition qs_filter (args : list Q) (qs : QuerySet) : QuerySet :=
  {| qs_model := qs_model qs;
     annotations := annotations qs;
     filter_calls := filter_calls qs ++ [args];
     is_distinct := is_distinct qs |}.

Definition qs_distinct (qs : QuerySet) : QuerySet :=
  {| qs_model := qs_model qs;
     annotations := annotations qs;
     filter_calls := filter_calls qs;
     is_distinct := true |}.

Definition all_objects (m : Model) : QuerySet :=
  {| qs_model := m; annotations := []; filter_calls := []; is_distinct := false |}.

(** A value as the backend receives it: the [str] of a query parameter, or
    the [int] that the [__int] suffix makes of it. *)
Inductive qvalue : Type :=
| QStr (s : string)
| QInt (z : Z).

Definition to_py (v : qvalue) : pyval :=
  match v with
  | QStr s => PyStr s
  | QInt z => PyInt z
  end.

(** What the backend calls but the sources at hand do not define:
    [ansible_base.rest_filters.utils.get_fields_from_path],
    [ansible_base.lib.utils.validation.to_python_boolean], Django's
    [Field.to_python], Python's [int], [re.compile] and [json.dumps], and the
    reserved names of the settings and the view. *)
Record Oracles : Type := mkOracles {
  get_fields_from_path : Model -> string -> bool -> result (list Field * string);
  to_python_boolean : qvalue -> result bool;
  field_to_python : Field -> qvalue -> result pyval;
  py_int : string -> option Z;
  re_compile : qvalue -> result unit;
  json_dumps : list string -> string;
  reserved_names : list string
}.

(** [django.utils.encoding.force_str], also what [%s] prints *)
Definition force_str (v : qvalue) : string :=
  match v with
  | QStr s => s
  | QInt z => pretty z
  end.

(** [not value] *)
Definition falsy (v : qvalue) : bool :=
  match v with
  | QStr s => PyStr.is_empty s
  | QInt z => Z.eqb z 0
  end.

(** The second component of what [value_to_python] returns: one lookup, or
    on a [__search] lookup the list of the lookups to search in. *)
Inductive NewLookup : Type :=
| Single (new_lookup : string)
| Multi (new_lookups : list string).

Inductive Relation : Type := AND | OR.

(** One entry of [and_filters], [or_filters] and [chain_filters]:
    [(negate, field, value)]. *)
Definition LookupExpression : Type := (bool * string * pyval)%type.

(** [d[k] = v] on a [dict], which keeps the place of a key it already has *)
Fixpoint dict_set (k : string) (v : list string) (d : list (string * list string))
  : list (string * list string) :=
  match d with
  | [] => [(k, v)]
  | (k', v') :: rest =>
      if String.eqb k' k then (k', v) :: rest else (k', v') :: dict_set k v rest
  end.

Fixpoint dict_get (k : string) (d : list (string * list string))
  : option (list string) :=
  match d with
  | [] => None
  | (k', v') :: rest => if String.eqb k' k then Some v' else dict_get k rest
  end.

(** ** [FieldLookupBackend] *)

Module FieldLookupBackend.

Definition SUPPORTED_LOOKUPS : list string :=
  [ "exact"; "iexact"; "contains"; "icontains"; "startswith"; "istartswith";
    "endswith"; "iendswith"; "regex"; "iregex"; "gt"; "gte"; "lt"; "lte";
    "in"; "isnull"; "search" ].

(** [isinstance(f, self.NO_DUPLICATES_ALLOW_LIST)] *)
Definition NO_DUPLICATES_ALLOW_LIST (f : Field) : bool :=
  match kind f with
  | CharField | IntegerField | BooleanField | TextField => true
  | _ => false
  end.

Definition TREAT_JSONFIELD_AS_TEXT : bool := true.

(** The names of the related model's fields that a search looks into. *)
Definition SEARCH_FIELD_NAMES : list string :=
  [ "username"; "first_name"; "last_name"; "email"; "name"; "description";
    "playbook" ].

Definition is_related (f : Field) : bool :=
  match kind f with
  | ForeignObjectRel | ManyToManyField | GenericForeignKey | ForeignKey => true
  | _ => false
  end.

Definition is_text (f : Field) : bool :=
  match kind f with
  | CharField | TextField => true
  | _ => false
  end.

Definition is_json (f : Field) : bool :=
  match kind f with
  | JSONField => true
  | _ => false
  end.

Definition is_boolean (f : Field) : bool :=
  match kind f with
  | BooleanField => true
  | _ => false
  end.

(** [field_list[-1]] *)
Definition last_field (field_list : list Field) : result Field :=
  match rev field_list with
  | f :: _ => Ok f
  | [] => Raise IndexError
  end.

Section Backend.

Variable O : Oracles.

Definition get_fields_from_lookup (model : Model) (lookup : string)
  : result (list Field * string) :=
  let* (path, suffix) :=
    if PyStr.contains "__" lookup
       && PyStr.in_tuple (List.last (PyStr.rsplit1 "__" lookup) EmptyString) SUPPORTED_LOOKUPS
    then
      match PyStr.rsplit1 "__" lookup with
      | [path; suffix] => Ok (path, suffix)
      | _ => Raise (ValueError "not enough values to unpack")
      end
    else Ok (lookup, "exact")
  in
  if PyStr.is_empty path
  then Raise (ParseError "Query string field name not provided.")
  else
    let* (field_list, new_path) :=
      get_fields_from_path O model path TREAT_JSONFIELD_AS_TEXT in
    Ok (field_list, PyStr.join "__" [new_path; suffix]).

Definition get_field_from_lookup (model : Model) (lookup : string)
  : result (Field * string) :=
  let* (field_list, new_lookup) := get_fields_from_lookup model lookup in
  let* f := last_field field_list in
  Ok (f, new_lookup).

Definition to_python_related (value : qvalue) : result pyval :=
  let value := force_str value in
  if PyStr.in_tuple (PyStr.lower value) ["none"; "null"]
  then Ok PyNone
  else
    match py_int O value with
    | Some z => Ok (PyInt z)
    | None =>
        Raise (ValueError ("invalid literal for int() with base 10: '" +:+ value +:+ "'"))
    end.

Definition value_to_python_for_field (field : Field) (value : qvalue)
  : result pyval :=
  if is_boolean field then
    let* b := to_python_boolean O value in Ok (PyBool b)
  else if is_related field then
    match to_python_related value with
    | Raise (ValueError _) =>
        Raise (ParseError ("Invalid " +:+ name field +:+ " id: " +:+ force_str value))
    | r => r
    end
  else field_to_python O field value.

(** [for item in value.split(','): items.append(...)] *)
Fixpoint convert_items (field : Field) (items : list string)
  : result (list pyval) :=
  match items with
  | [] => Ok []
  | item :: rest =>
      let* v := value_to_python_for_field field (QStr item) in
      let* vs := convert_items field rest in
      Ok (v :: vs)
  end.

Definition search_lookups (path : string) (related : Model) : list string :=
  map (fun rm_field => path +:+ "__" +:+ name rm_field +:+ "__icontains")
      (List.filter (fun rm_field => PyStr.in_tuple (name rm_field) SEARCH_FIELD_NAMES)
              (fields related)).

Definition value_to_python (model : Model) (lookup : string) (value : qvalue)
  : result (pyval * NewLookup * bool) :=
  if negb (PyStr.is_ascii lookup) then
    Raise (ValueError (lookup +:+ " is not an allowed field name. Must be ascii encodable."))
  else
  let* (field_list, new_lookup) := get_fields_from_lookup model lookup in
  let* field := last_field field_list in
  let needs_distinct := negb (forallb NO_DUPLICATES_ALLOW_LIST field_list) in
  if PyStr.startswith "polymorphic_ctype__model" new_lookup then
    match value with
    | QStr s => Ok (PyStr (PyStr.replace "_" EmptyString s), Single new_lookup, needs_distinct)
    | QInt _ => Raise AttributeError
    end
  else if PyStr.endswith "__isnull" new_lookup then
    let* b := to_python_boolean O value in
    Ok (PyBool b, Single new_lookup, needs_distinct)
  else if PyStr.endswith "__in" new_lookup then
    if falsy value then Raise (ValueError "cannot provide empty value for __in")
    else
      match value with
      | QStr s =>
          let* items := convert_items field (PyStr.split "," s) in
          Ok (PyList items, Single new_lookup, needs_distinct)
      | QInt _ => Raise AttributeError
      end
  else if PyStr.endswith "__regex" new_lookup || PyStr.endswith "__iregex" new_lookup then
    match re_compile O value with
    | Raise (ReError msg) => Raise (ValueError msg)
    | Raise e => Raise e
    | Ok _ => Ok (to_py value, Single new_lookup, needs_distinct)
    end
  else if PyStr.endswith "__iexact" new_lookup then
    if negb (is_text field) && negb (is_json field && negb TREAT_JSONFIELD_AS_TEXT)
    then Raise (ValueError (name field +:+ " is not a text field and cannot be filtered by case-insensitive search"))
    else Ok (to_py value, Single new_lookup, needs_distinct)
  else if PyStr.endswith "__search" new_lookup then
    match related_model field with
    | None => Raise (ValueError (PyStr.drop_end 8 new_lookup +:+ " is not searchable"))
    | Some related =>
        Ok (to_py value, Multi (search_lookups (PyStr.drop_end 8 new_lookup) related),
            needs_distinct)
    end
  else
    let new_lookup :=
      if TREAT_JSONFIELD_AS_TEXT && is_json field
      then PyStr.replace (name field) (name field +:+ "_as_txt") new_lookup
      else new_lookup in
    let* v := value_to_python_for_field field value in
    Ok (v, Single new_lookup, needs_distinct).

(** The local variables of [filter_queryset] that its loop updates. *)
Record State : Type := mkState {
  and_filters : list LookupExpression;
  or_filters : list LookupExpression;
  chain_filters : list LookupExpression;
  role_filters : list string;
  search_filters : list (string * list string);
  needs_distinct : bool;
  search_filter_relation : Relation;
  queryset : QuerySet
}.

Definition initial_state (qs : QuerySet) : State :=
  mkState [] [] [] [] [] false OR qs.

Definition add_and (e : LookupExpression) (st : State) : State :=
  mkState (and_filters st ++ [e]) (or_filters st) (chain_filters st)
    (role_filters st) (search_filters st) (needs_distinct st)
    (search_filter_relation st) (queryset st).

Definition add_or (e : LookupExpression) (st : State) : State :=
  mkState (and_filters st) (or_filters st ++ [e]) (chain_filters st)
    (role_filters st) (search_filters st) (needs_distinct st)
    (search_filter_relation st) (queryset st).

Definition add_chain (e : LookupExpression) (st : State) : State :=
  mkState (and_filters st) (or_filters st) (chain_filters st ++ [e])
    (role_filters st) (search_filters st) (needs_distinct st)
    (search_filter_relation st) (queryset st).

Definition add_role (role_name : string) (st : State) : State :=
  mkState (and_filters st) (or_filters st) (chain_filters st)
    (role_filters st ++ [role_name]) (search_filters st) (needs_distinct st)
    (search_filter_relation st) (queryset st).

Definition set_search (term : string) (new_keys : list string) (st : State) : State :=
  mkState (and_filters st) (or_filters st) (chain_filters st)
    (role_filters st) (dict_set term new_keys (search_filters st))
    (needs_distinct st) (search_filter_relation st) (queryset st).

Definition set_needs_distinct (st : State) : State :=
  mkState (and_filters st) (or_filters st) (chain_filters st)
    (role_filters st) (search_filters st) true
    (search_filter_relation st) (queryset st).

Definition set_relation (r : Relation) (st : State) : State :=
  mkState (and_filters st) (or_filters st) (chain_filters st)
    (role_filters st) (search_filters st) (needs_distinct st) r (queryset st).

Definition set_queryset (qs : QuerySet) (st : State) : State :=
  mkState (and_filters st) (or_filters st) (chain_filters st)
    (role_filters st) (search_filters st) (needs_distinct st)
    (search_filter_relation st) qs.

(** The body of [for value in values] of a [__search] key. *)
Definition search_value (model : Model) (key : string) (st : State)
  (value : string) : result State :=
  let* (found, _) := value_to_python model key (QStr (force_str (QStr value))) in
  let (search_value, new_keys) := (found : pyval * NewLookup) in
  match new_keys with
  | Multi new_keys =>
      (* the search value is the [str] that was passed in *)
      match search_value with
      | PyStr term => Ok (set_search term new_keys st)
      | _ => Raise (TypeError "unhashable type")
      end
  | Single _ => Raise AssertionError
  end.

(** [if q_chain: ... elif q_or: ... else: ...] *)
Definition route (q_chain q_or : bool) (e : LookupExpression) (st : State) : State :=
  if q_chain then add_chain e st
  else if q_or then add_or e st
  else add_and e st.

(** [if '_as_txt' in new_key]: the queryset is annotated with the text
    cast of the JSON field, under the name of the first segment of the
    lookup that ends in [_as_txt]. *)
Definition cast_as_txt (new_key : string) (st : State) : result State :=
  if PyStr.contains "_as_txt" new_key then
    match find (PyStr.endswith "_as_txt") (PyStr.split "__" new_key) with
    | Some fname =>
        Ok (set_queryset (qs_annotate fname (PyStr.drop_end 7 fname) (queryset st)) st)
    | None => Raise StopIteration
    end
  else Ok st.

(** The body of [for value in values] of any other key. *)
Definition convert_value (model : Model) (key : string)
  (q_int q_chain q_or q_not : bool) (st : State) (value : string)
  : result State :=
  let* value :=
    if q_int then
      match py_int O value with
      | Some z => Ok (QInt z)
      | None =>
          Raise (ValueError ("invalid literal for int() with base 10: '" +:+ value +:+ "'"))
      end
    else Ok (QStr value) in
  let* (found, distinct) := value_to_python model key value in
  let (value, new_key) := (found : pyval * NewLookup) in
  let st := if distinct then set_needs_distinct st else st in
  match new_key with
  | Single new_key =>
      let* st := cast_as_txt new_key st in
      Ok (route q_chain q_or (q_not, new_key, value) st)
  | Multi new_keys =>
      (* only a [__search] lookup gives a list, and those keys never get
         here; a list can be no keyword of [Q] *)
      if PyStr.in_tuple "_as_txt" new_keys then Raise AttributeError
      else Raise (TypeError "unhashable type")
  end.

(** One turn of [for key, values in request.query_params.lists()]. *)
Definition process_param (model : Model) (st : State)
  (param : string * list string) : result State :=
  let (key, values) := param in
  if PyStr.in_tuple key (reserved_names O) then Ok st
  else
    let key :=
      if String.eqb (object_name model) "User" && PyStr.startswith "created" key
      then PyStr.replace "created" "date_joined" key
      else key in
    let (key, st) :=
      if String.eqb (object_name model) "JobEvent" && PyStr.startswith "hosts__name" key
      then (PyStr.replace "hosts__name" "or__host__name" key,
            add_or (false, "host__name__isnull", PyBool true) st)
      else (key, st) in
    let (key, q_int) :=
      if PyStr.endswith "__int" key then (PyStr.drop_end 5 key, true)
      else (key, false) in
    if String.eqb key "role_level" then
      match values with
      | v0 :: _ => Ok (add_role v0 st)
      | [] => Raise IndexError
      end
    else if PyStr.endswith "__search" key then
      let (values, st) :=
        match values with
        | v0 :: _ =>
            if PyStr.contains "," v0
            then (flat_map (PyStr.split ",") values, set_relation AND st)
            else (values, st)
        | [] => (values, st)
        end in
      let* st := for_each (search_value model key) values st in
      Ok (set_needs_distinct st)
    else
      let '(key, q_chain, q_or) :=
        if PyStr.startswith "chain__" key then (PyStr.drop 7 key, true, false)
        else if PyStr.startswith "or__" key then (PyStr.drop 4 key, false, true)
        else (key, false, false) in
      let (key, q_not) :=
        if PyStr.startswith "not__" key then (PyStr.drop 5 key, true)
        else (key, false) in
      for_each (convert_value model key q_int q_chain q_or q_not) values st.

(** The keyword leaf [Q] of [k] and [v], negated with [~] when [n] *)
Definition q_of (e : LookupExpression) : Q :=
  let '(n, k, v) := e in
  if n then Q_not (Q_leaf k v) else Q_leaf k v.

Definition q_any (qs : list Q) : Q := fold_left q_or qs Q_empty.

(** The empty [Q] or-ed with the leaf of each constraint and the term *)
Definition q_term (term : string) (constrains : list string) : Q :=
  q_any (map (fun constrain => Q_leaf constrain (PyStr term)) constrains).

Definition is_nil {A : Type} (l : list A) : bool :=
  match l with [] => true | _ => false end.

(** The name [_] inside [filter_queryset].  The unpacking
    [search_value, new_keys, _ = self.value_to_python(...)] of the search
    loop assigns it, so it is a local variable of the whole function and
    not the module's [gettext_lazy].  Each assignment is followed by the
    entry [search_filters[search_value] = new_keys], and a failure in
    between ends the request: when the loop over the parameters is over,
    [_] is bound exactly when [search_filters] is not empty, and it then
    holds the boolean that [value_to_python] returned last.  Calling it
    where the role error is to be raised gives [UnboundLocalError] when it
    is not bound, and the [TypeError] of calling a boolean when it is. *)
Definition call_underscore (st : State) (text : string) : result string :=
  if is_nil (search_filters st) then Raise UnboundLocalError
  else Raise (TypeError "'bool' object is not callable").

(** "Now build Q objects for database query filter." *)
Definition build (st : State) : result QuerySet :=
  let queryset := queryset st in
  if negb (is_nil (and_filters st)) || negb (is_nil (or_filters st))
     || negb (is_nil (chain_filters st)) || negb (is_nil (role_filters st))
     || negb (is_nil (search_filters st))
  then
    let args := map q_of (and_filters st) in
    let* args :=
      if negb (is_nil (role_filters st)) && negb (accessible_pk_qs (qs_model queryset))
      then
        let* detail := call_underscore st "Cannot apply role_level filter to this list because its model does not use roles for access control." in
        Raise (ParseError detail)
      else Ok (args ++ map Q_pk_in_accessible (role_filters st)) in
    let args :=
      if negb (is_nil (or_filters st))
      then args ++ [q_any (map q_of (or_filters st))]
      else args in
    let (args, queryset) :=
      if negb (is_nil (search_filters st)) then
        match search_filter_relation st with
        | OR =>
            (args ++ [q_any (flat_map
                               (fun '(term, constrains) =>
                                  map (fun constrain => Q_leaf constrain (PyStr term))
                                      constrains)
                               (search_filters st))],
             queryset)
        | AND =>
            (args,
             fold_left (fun qs '(term, constrains) => qs_filter [q_term term constrains] qs)
                       (search_filters st) queryset)
        end
      else (args, queryset) in
    let queryset :=
      fold_left (fun qs e => qs_filter [q_of e] qs) (chain_filters st) queryset in
    let queryset := qs_filter args queryset in
    Ok (if needs_distinct st then qs_distinct queryset else queryset)
  else Ok queryset.

(** [except (FieldError, FieldDoesNotExist, ValueError, TypeError)] and
    [except ValidationError] *)
Definition handle (e : exn) : exn :=
  match e with
  | FieldError msg | FieldDoesNotExist msg | ValueError msg | TypeError msg =>
      ParseError msg
  | ValidationError messages => ParseError (json_dumps O messages)
  | _ => e
  end.

Definition compile_params (queryset : QuerySet)
  (query_params : list (string * list string)) : result State :=
  for_each (process_param (qs_model queryset)) query_params (initial_state queryset).

Definition filter_queryset (query_params : list (string * list string))
  (queryset : QuerySet) : result QuerySet :=
  match (let* st := compile_params queryset query_params in build st) with
  | Ok qs => Ok qs
  | Raise e => Raise (handle e)
  end.

End Backend.

End FieldLookupBackend.

(** ** A small schema and concrete oracles to run the backend on *)

Module Toy.

Definition find_field (n : string) (fs : list Field) : option Field :=
  find (fun f => String.eqb (name f) n) fs.

(** Modelled from the spec: [get_fields_from_path] of
    [ansible_base.rest_filters.utils] is not among the sources.  The
    SchemaResolver, "given a model and a dotted field path, returns the
    chain of fields traversed and the canonical resolved path"; a path
    that does not resolve is a failure. *)
Fixpoint walk (model : option Model) (names : list string) : result (list Field) :=
  match names with
  | [] => Ok []
  | n :: rest =>
      match model with
      | None => Raise (ParseError ("No related model for field " +:+ n +:+ "."))
      | Some m =>
          match find_field n (fields m) with
          | None =>
              Raise (FieldDoesNotExist ("The model has no field named '" +:+ n +:+ "'"))
          | Some f =>
              let* fl := walk (related_model f) rest in
              Ok (f :: fl)
          end
      end
  end.

Definition get_fields_from_path (model : Model) (path : string) (_ : bool)
  : result (list Field * string) :=
  let* fl := walk (Some model) (PyStr.split "__" path) in
  Ok (fl, path).

(** Modelled from the spec: [to_python_boolean] of
    [ansible_base.lib.utils.validation] is not among the sources; the
    "boolean-string parser". *)
Definition to_python_boolean (v : qvalue) : result bool :=
  let s := PyStr.lower (force_str v) in
  if PyStr.in_tuple s ["true"; "1"; "t"] then Ok true
  else if PyStr.in_tuple s ["false"; "0"; "f"] then Ok false
  else Raise (ValueError ("Unable to convert '" +:+ force_str v +:+ "' to boolean")).

Fixpoint digits (s : string) (acc : Z) : option Z :=
  match s with
  | EmptyString => Some acc
  | String c s' =>
      let n := nat_of_ascii c in
      if ((48 <=? n) && (n <=? 57))%nat
      then digits s' (acc * 10 + Z.of_nat (n - 48))%Z
      else None
  end.

(** [int(s)] on plain decimal literals with an optional minus sign *)
Definition py_int (s : string) : option Z :=
  match s with
  | EmptyString => None
  | String "-" EmptyString => None
  | String "-" s' => option_map Z.opp (digits s' 0)
  | _ => digits s 0
  end.

(** Django's [to_python]: [IntegerField] parses an integer, the others
    keep the value. *)
Definition field_to_python (f : Field) (v : qvalue) : result pyval :=
  match kind f, v with
  | IntegerField, QStr s =>
      match py_int s with
      | Some z => Ok (PyInt z)
      | None => Raise (ValidationError ["value must be an integer."])
      end
  | _, _ => Ok (to_py v)
  end.

Definition re_compile (v : qvalue) : result unit :=
  match v with
  | QStr _ => Ok tt
  | QInt _ => Raise (TypeError "first argument must be string or compiled pattern")
  end.

Definition oracles : Oracles :=
  mkOracles get_fields_from_path to_python_boolean field_to_python py_int
    re_compile (PyStr.join ", ") ["page"; "page_size"; "order_by"; "search"].

Definition content_type : Model :=
  mkModel "ContentType"
    [ mkField "id" IntegerField None; mkField "model" CharField None ] false.

Definition organization : Model :=
  mkModel "Organization"
    [ mkField "id" IntegerField None; mkField "name" CharField None;
      mkField "description" TextField None; mkField "max_hosts" IntegerField None ]
    true.

Definition team_fields : list Field :=
  [ mkField "id" IntegerField None;
    mkField "name" CharField None;
    mkField "count" IntegerField None;
    mkField "created" CharField None;
    mkField "date_joined" CharField None;
    mkField "organization" ForeignKey (Some organization);
    mkField "polymorphic_ctype" ForeignKey (Some content_type);
    mkField "secret" OtherField None ].

(** Models with the same fields but another name; [log_entry] has no
    [accessible_pk_qs]. *)
Definition team : Model := mkModel "Team" team_fields true.
Definition squad : Model := mkModel "Squad" team_fields true.
Definition user : Model := mkModel "User" team_fields true.
Definition log_entry : Model := mkModel "LogEntry" team_fields false.

(** A model with a [JSONField], and a model called [JobEvent]. *)
Definition host : Model :=
  mkModel "Host"
    [ mkField "id" IntegerField None; mkField "name" CharField None;
      mkField "variables" JSONField None ] true.

Definition job_event : Model :=
  mkModel "JobEvent"
    [ mkField "id" IntegerField None; mkField "event" CharField None;
      mkField "host" ForeignKey (Some host) ] true.

End Toy.

(** ** The decryption-key retry protocol *)

Module KeyResolution.

Definition Key : Type := string.
Definition Token : Type := string.
Definition SourceId : Type := string.
Definition Claims : Type := list (string * string).

(** Why the TokenValidator rejects a token: the token or its signature
    does not decode under the key, or the content of a claim is refused
    (missing, expired, issuer, audience). *)
Inductive ValidationFailure : Type :=
| DecodeFailure (msg : string)
| ClaimFailure (msg : string).

Definition failure_message (f : ValidationFailure) : string :=
  match f with
  | DecodeFailure msg => msg
  | ClaimFailure msg => msg
  end.

Inductive Outcome : Type :=
| Skipped
| Authenticated (claims : Claims)
| AuthenticationFailed (msg : string).

(** The states of the protocol; [TRY_FRESH] remembers the cached key that
    failed, if there was one. *)
Inductive PState : Type :=
| INIT
| TRY_CACHED (key : Key)
| TRY_FRESH (cached : option Key)
| SUCCESS (claims : Claims)
| FAILED (msg : string)
| NOT_CONFIGURED.

(** The protocol state with the KeyCache and what was done so far: the
    keys fetched from the source and the keys the token was validated
    with, latest first. *)
Record Machine : Type := mkMachine {
  state : PState;
  cache : gmap SourceId Key;
  fetched : list Key;
  validated : list Key
}.

Definition NOT_CACHED_MESSAGE : string :=
  "key was not cached, check your key and generated token".

Definition CACHED_CORRECT_MESSAGE : string :=
  "cached key was correct, but new key also failed — check your key and generated token".

Section Protocol.

(** [TokenValidator.validate] and the fetch of the key from its source
    ([None]: the fetch failed). *)
Variable validate : Token -> Key -> ValidationFailure + Claims.
Variable fetch : SourceId -> option Key.

(** Modelled from the spec: [JWTCommonAuth.parse_jwt_token] and [JWTCert]
    of [ansible_base.jwt_consumer.common] are not among the sources.  One
    transition of the KeyResolutionProtocol: a cached key is tried first; a
    cache miss or a decode failure of the cached key leads to [TRY_FRESH],
    where the key is fetched ignoring the cache, stored, and tried once; a
    failure of the fresh key is final.  When the token does not decode
    under the fresh key either, the message is the one of the case: nothing
    was cached, or the cached key was the right one.  The spec names no
    message for a fresh key that differs from the cached one and fails too:
    the validator's message is kept.  A claim failure (missing claim,
    expiry, issuer, audience) is the validator's own error under either
    key: it is final at once and keeps the validator's message. *)
Definition step (token : Token) (source : option SourceId) (m : Machine) : Machine :=
  match state m with
  | INIT =>
      match source with
      | None => mkMachine NOT_CONFIGURED (cache m) (fetched m) (validated m)
      | Some src =>
          match cache m !! src with
          | Some key => mkMachine (TRY_CACHED key) (cache m) (fetched m) (validated m)
          | None => mkMachine (TRY_FRESH None) (cache m) (fetched m) (validated m)
          end
      end
  | TRY_CACHED key =>
      match validate token key with
      | inr claims => mkMachine (SUCCESS claims) (cache m) (fetched m) (key :: validated m)
      | inl (DecodeFailure _) =>
          mkMachine (TRY_FRESH (Some key)) (cache m) (fetched m) (key :: validated m)
      | inl (ClaimFailure msg) =>
          mkMachine (FAILED msg) (cache m) (fetched m) (key :: validated m)
      end
  | TRY_FRESH cached =>
      match source with
      | None => mkMachine NOT_CONFIGURED (cache m) (fetched m) (validated m)
      | Some src =>
          match fetch src with
          | None => mkMachine (FAILED "could not resolve the decryption key") (cache m) (fetched m) (validated m)
          | Some fresh =>
              let cache' := <[src := fresh]> (cache m) in
              match validate token fresh with
              | inr claims =>
                  mkMachine (SUCCESS claims) cache' (fresh :: fetched m) (fresh :: validated m)
              | inl (DecodeFailure msg) =>
                  let msg :=
                    match cached with
                    | None => NOT_CACHED_MESSAGE
                    | Some old =>
                        if String.eqb old fresh then CACHED_CORRECT_MESSAGE
                        else msg
                    end in
                  mkMachine (FAILED msg) cache' (fresh :: fetched m) (fresh :: validated m)
              | inl (ClaimFailure msg) =>
                  mkMachine (FAILED msg) cache' (fresh :: fetched m) (fresh :: validated m)
              end
          end
      end
  | SUCCESS _ | FAILED _ | NOT_CONFIGURED => m
  end.

Fixpoint run (fuel : nat) (token : Token) (source : option SourceId) (m : Machine)
  : Machine :=
  match fuel with
  | O => m
  | S n => run n token source (step token source m)
  end.

Definition is_final (m : Machine) : bool :=
  match state m with
  | SUCCESS _ | FAILED _ | NOT_CONFIGURED => true
  | _ => false
  end.

(** [resolve]: from [INIT], three transitions reach a final state. *)
Definition resolve (token : Token) (source : option SourceId)
  (key_cache : gmap SourceId Key) : Machine :=
  run 3 token source (mkMachine INIT key_cache [] []).

Definition outcome (m : Machine) : option Outcome :=
  match state m with
  | SUCCESS claims => Some (Authenticated claims)
  | FAILED msg => Some (AuthenticationFailed msg)
  | NOT_CONFIGURED => Some Skipped
  | _ => None
  end.

End Protocol.

End KeyResolution.

(** ** Mapping the claims of a token onto the user *)

Module UserProvisioner.

Inductive Value : Type :=
| VStr (s : string)
| VBool (b : bool)
| VMock.

Global Instance Value_eq_dec : EqDecision Value.
Proof. solve_decision. Defined.

(** The user record: its attributes, the calls of [save] and the log. *)
Record Principal : Type := mkPrincipal {
  username : string;
  attrs : gmap string Value;
  saves : nat;
  log : list string
}.

Definition default_mapped_user_fields : list string :=
  [ "first_name"; "last_name"; "email"; "is_superuser"; "is_system_auditor" ].

(** The field is in the user and in the claims, with another value. *)
Definition differs (user_attrs claims : gmap string Value) (field : string) : bool :=
  match user_attrs !! field, claims !! field with
  | Some old, Some new => negb (bool_decide (old = new))
  | _, _ => false
  end.

Definition update_field (claims : gmap string Value)
  (user_attrs : gmap string Value) (field : string) : gmap string Value :=
  match user_attrs !! field, claims !! field with
  | Some _, Some new => <[field := new]> user_attrs
  | _, _ => user_attrs
  end.

(** Modelled from the spec: [JWTCommonAuth.map_user_fields] of
    [ansible_base.jwt_consumer.common.auth] is not among the sources.
    "For each field in the configured mapped-field list present in both
    principal and claims: compare current value to claim value; if any
    differs, update all mapped fields from claims and persist once; log the
    save with the principal's identifier.  If none differ, no persistence
    call is made." *)
Definition map_user_fields (mapped_user_fields : list string)
  (user : Principal) (claims : gmap string Value) : Principal :=
  if existsb (differs (attrs user) claims) mapped_user_fields then
    mkPrincipal (username user)
      (fold_left (update_field claims) mapped_user_fields (attrs user))
      (S (saves user))
      (log user ++ ["Saving user " +:+ username user])
  else user.

(** The claims of the token of [test_map_user_fields]. *)
Definition cindy_lou : gmap string Value :=
  {[ "first_name" := VStr "Cindy"; "last_name" := VStr "Lou" ]}.

(** The user of the tests is a [mock.Mock]: it has every attribute, with
    a value of its own where the test gives none. *)
Definition mock_user (user_fields : list (string * Value)) : Principal :=
  mkPrincipal "Bob"
    (list_to_map user_fields
       ∪ list_to_map (map (fun f => (f, VMock)) default_mapped_user_fields))
    0 [].

End UserProvisioner.

(** ** Notions used in the statements *)

Module Notions.

Import FieldLookupBackend.

(** What follows the last [__] of a lookup (the whole lookup when it has
    none): [lookup.rsplit('__', 1)[-1]]. *)
Definition last_segment (lookup : string) : string :=
  List.last (PyStr.rsplit1 "__" lookup) EmptyString.

Definition FIELD_NAME_NOT_PROVIDED : string :=
  "Query string field name not provided.".

(** The field path [path] is resolved and the operator [suffix] is put
    back behind the resolved path; an empty path is refused. *)
Definition resolve_with (O : Oracles) (model : Model) (path suffix : string)
  : result (list Field * string) :=
  if PyStr.is_empty path then Raise (ParseError FIELD_NAME_NOT_PROVIDED)
  else
    let* (field_list, new_path) :=
      get_fields_from_path O model path TREAT_JSONFIELD_AS_TEXT in
    Ok (field_list, new_path +:+ "__" +:+ suffix).

(** The lookups with an empty field path: the empty one, and [__] with a
    supported operator behind it. *)
Definition EMPTY_LOOKUPS : list string :=
  EmptyString :: map (fun op => "__" +:+ op) SUPPORTED_LOOKUPS.

(** The key once the rewrites for the models [User] and [JobEvent] and
    the strip of the [__int] suffix are done. *)
Definition effective_key (model : Model) (key : string) : string :=
  let key :=
    if String.eqb (object_name model) "User" && PyStr.startswith "created" key
    then PyStr.replace "created" "date_joined" key
    else key in
  let key :=
    if String.eqb (object_name model) "JobEvent" && PyStr.startswith "hosts__name" key
    then PyStr.replace "hosts__name" "or__host__name" key
    else key in
  if PyStr.endswith "__int" key then PyStr.drop_end 5 key else key.

(** A key that none of the rewrites, the [__int] strip, the [role_level]
    test and the [__search] test applies to. *)
Definition plain_key (O : Oracles) (model : Model) (key : string) : bool :=
  negb (PyStr.in_tuple key (reserved_names O))
  && negb (String.eqb (object_name model) "User" && PyStr.startswith "created" key)
  && negb (String.eqb (object_name model) "JobEvent" && PyStr.startswith "hosts__name" key)
  && negb (PyStr.endswith "__int" key)
  && negb (String.eqb key "role_level")
  && negb (PyStr.endswith "__search" key).

(** The part of [plain_key] that the key alone decides. *)
Definition static_plain (key : string) : bool :=
  negb (PyStr.startswith "created" key)
  && negb (PyStr.startswith "hosts__name" key)
  && negb (PyStr.endswith "__int" key)
  && negb (String.eqb key "role_level")
  && negb (PyStr.endswith "__search" key).

(** The prefixes as the loop strips them: [chain__] or else [or__], and
    then [not__]. *)
Definition strip_chain_or (key : string) : string * bool * bool :=
  if PyStr.startswith "chain__" key then (PyStr.drop 7 key, true, false)
  else if PyStr.startswith "or__" key then (PyStr.drop 4 key, false, true)
  else (key, false, false).

Definition strip_not (key : string) : string * bool :=
  if PyStr.startswith "not__" key then (PyStr.drop 5 key, true)
  else (key, false).

Definition PREFIXES : list string :=
  [ EmptyString; "not__"; "chain__"; "chain__not__"; "or__"; "or__not__" ].

(** The keys that leave an empty field path: a prefix in the order that
    the loop strips and, behind it, nothing or [__] and an operator; a
    [__search] key has its prefix left in place, so [__search] itself is the
    only one of those. *)
Definition EMPTY_PATH_KEYS : list string :=
  "__search"
  :: flat_map
       (fun pre =>
          map (fun lookup => pre +:+ lookup)
              (List.filter (fun lookup => negb (String.eqb lookup "__search")) EMPTY_LOOKUPS))
       PREFIXES.




(** The terms of a [__search] parameter and the relation it leaves. *)
Definition search_terms (values : list string) : list string :=
  match values with
  | v0 :: _ =>
      if PyStr.contains "," v0 then flat_map (PyStr.split ",") values else values
  | [] => []
  end.

Definition search_state (values : list string) (st : State) : State :=
  match values with
  | v0 :: _ => if PyStr.contains "," v0 then set_relation AND st else st
  | [] => st
  end.

(** Each term gets the same list of lookups in [search_filters]. *)
Definition register_terms (lookups : list string) (terms : list string)
  (st : State) : State :=
  fold_left (fun acc term => set_search term lookups acc) terms st.

Definition search_relation (values : list string) (old : Relation) : Relation :=
  match values with
  | v0 :: _ => if PyStr.contains "," v0 then AND else old
  | [] => old
  end.

(** The role names that the parameters give: the first value of each key
    that is [role_level] once rewritten. *)
Definition role_values (O : Oracles) (model : Model)
  (query_params : list (string * list string)) : list string :=
  flat_map
    (fun '(key, values) =>
       if PyStr.in_tuple key (reserved_names O) then []
       else if String.eqb (effective_key model key) "role_level" then firstn 1 values
       else [])
    query_params.

(** The keys of a dict, in the order of [items()], once the keys [terms]
    were assigned one after the other: a key that is there keeps its place,
    a new key goes to the end. *)
Definition keys_after (terms keys : list string) : list string :=
  fold_left (fun keys term => if PyStr.in_tuple term keys then keys else keys ++ [term])
            terms keys.

(** What the backend asks of the queryset, without the model it is about. *)
Definition filter_tree (qs : QuerySet) : list (string * string) * list (list Q) * bool :=
  (annotations qs, filter_calls qs, is_distinct qs).

Definition result_map {A B : Type} (f : A -> B) (r : result A) : result B :=
  match r with
  | Ok a => Ok (f a)
  | Raise e => Raise e
  end.

(** The same queryset and the same state of the loop, about another model. *)
Definition retarget_qs (m : Model) (qs : QuerySet) : QuerySet :=
  mkQuerySet m (annotations qs) (filter_calls qs) (is_distinct qs).

Definition retarget (m : Model) (st : State) : State :=
  set_queryset (retarget_qs m (queryset st)) st.

(** The key once the rewrites for the models [User] and [JobEvent] are
    done, and the state that the [JobEvent] rewrite leaves. *)
Definition rewritten_key (model : Model) (key : string) : string :=
  let key :=
    if String.eqb (object_name model) "User" && PyStr.startswith "created" key
    then PyStr.replace "created" "date_joined" key
    else key in
  if String.eqb (object_name model) "JobEvent" && PyStr.startswith "hosts__name" key
  then PyStr.replace "hosts__name" "or__host__name" key
  else key.

Definition rewritten_state (model : Model) (key : string) (st : State) : State :=
  let key :=
    if String.eqb (object_name model) "User" && PyStr.startswith "created" key
    then PyStr.replace "created" "date_joined" key
    else key in
  if String.eqb (object_name model) "JobEvent" && PyStr.startswith "hosts__name" key
  then add_or (false, "host__name__isnull", PyBool true) st
  else st.

(** What a turn of the loop does with the key it is left with: the role,
    the search, or the prefixes and the conversion of each value. *)
Definition dispatch (O : Oracles) (model : Model) (key : string) (q_int : bool)
  (values : list string) (st : State) : result State :=
  if String.eqb key "role_level" then
    match values with
    | v0 :: _ => Ok (add_role v0 st)
    | [] => Raise IndexError
    end
  else if PyStr.endswith "__search" key then
    let* st' := for_each (search_value O model key) (search_terms values)
                  (search_state values st) in
    Ok (set_needs_distinct st')
  else
    let '(k1, q_chain, q_or) := strip_chain_or key in
    let (k2, q_not) := strip_not k1 in
    for_each (convert_value O model k2 q_int q_chain q_or q_not) values st.

(** A property of the state that every update of the loop keeps. *)
Definition stable (P : State -> Prop) : Prop :=
  (forall e st, P st -> P (add_and e st))
  /\ (forall e st, P st -> P (add_or e st))
  /\ (forall e st, P st -> P (add_chain e st))
  /\ (forall r st, P st -> P (add_role r st))
  /\ (forall term new_keys st, P st -> P (set_search term new_keys st))
  /\ (forall st, P st -> P (set_needs_distinct st))
  /\ (forall st, P st -> P (set_relation AND st))
  /\ (forall source st,
        P st ->
        P (set_queryset (qs_annotate (source +:+ "_as_txt") source (queryset st)) st)).

(** An exception of the kinds that [filter_queryset] catches. *)
Definition caught (e : exn) : bool :=
  match e with
  | FieldError _ | FieldDoesNotExist _ | ValueError _ | TypeError _
  | ValidationError _ => true
  | _ => false
  end.

(** The arguments of the last [filter] call. *)
Definition final_args (st : State) : list Q :=
  map q_of (and_filters st)
  ++ map Q_pk_in_accessible (role_filters st)
  ++ (if is_nil (or_filters st) then [] else [q_any (map q_of (or_filters st))])
  ++ (if is_nil (search_filters st) then []
      else match search_filter_relation st with
           | OR =>
               [q_any (flat_map
                         (fun '(term, constrains) =>
                            map (fun constrain => Q_leaf constrain (PyStr term))
                                constrains)
                         (search_filters st))]
           | AND => []
           end).

(** The [filter] calls that come before the last one: one for each search
    term when the relation is AND, then one for each chain filter. *)
Definition earlier_calls (st : State) : list (list Q) :=
  (match search_filter_relation st with
   | AND => map (fun '(term, constrains) => [q_term term constrains]) (search_filters st)
   | OR => []
   end)
  ++ map (fun e => [q_of e]) (chain_filters st).

(** The operators under which the value is converted by the field. *)
Definition FIELD_OPERATORS : list string :=
  [ "exact"; "contains"; "icontains"; "startswith"; "istartswith"; "endswith";
    "iendswith"; "gt"; "gte"; "lt"; "lte" ].

(** The list that the prefixes of a key send its values to. *)
Definition bucket_of (q_chain q_or : bool) (st : State) : list LookupExpression :=
  if q_chain then chain_filters st
  else if q_or then or_filters st
  else and_filters st.

Definition no_filters (st : State) : bool :=
  is_nil (and_filters st) && is_nil (or_filters st) && is_nil (chain_filters st)
  && is_nil (role_filters st) && is_nil (search_filters st).

End Notions.

(** * Properties *)

(** ** The string functions *)

Example rsplit1_triple_underscore : PyStr.rsplit1 "__" "a___b" = ["a_"; "b"].
Proof. reflexivity. Qed.

Example rsplit1_no_sep : PyStr.rsplit1 "__" "name" = ["name"].
Proof. reflexivity. Qed.

Example split_commas : PyStr.split "," "1,2,,3" = ["1"; "2"; EmptyString; "3"].
Proof. reflexivity. Qed.

Example split_dunder : PyStr.split "__" "a__b___c" = ["a"; "b"; "_c"].
Proof. reflexivity. Qed.

Example replace_created :
  PyStr.replace "created" "date_joined" "created__gt" = "date_joined__gt".
Proof. reflexivity. Qed.

Example replace_underscores : PyStr.replace "_" EmptyString "job_template_x" = "jobtemplatex".
Proof. reflexivity. Qed.

Example endswith_search : PyStr.endswith "__search" "tags__search" = true.
Proof. reflexivity. Qed.

Example drop_end_int : PyStr.drop_end 5 "count__int" = "count".
Proof. reflexivity. Qed.

Section StringFacts.

Import PyStr.

Lemma prefix_split (p s : string) :
  String.prefix p s = true -> s = p +:+ drop (String.length p) s.
Proof.
  revert s. induction p as [|c p IH]; intros s H.
  - reflexivity.
  - destruct s as [|d s]; simpl in H; [discriminate|].
    destruct (ascii_dec c d) as [E|E]; [subst d|discriminate].
    simpl. f_equal. now apply IH.
Qed.

Lemma prefix_app (p t : string) : String.prefix p (p +:+ t) = true.
Proof.
  induction p as [|c p IH]; simpl.
  - now destruct t.
  - destruct (ascii_dec c c); [exact IH|congruence].
Qed.

Lemma drop_app (p t : string) : drop (String.length p) (p +:+ t) = t.
Proof. induction p; simpl; auto. Qed.

(** [rfind_split] cuts the string at an occurrence of the separator. *)
Lemma rfind_split_some (sep s p t : string) :
  rfind_split sep s = Some (p, t) -> s = p +:+ sep +:+ t.
Proof.
  revert p t. induction s as [|c s IH]; intros p t H; cbn [rfind_split] in H.
  - discriminate.
  - destruct (rfind_split sep s) as [[p' t']|] eqn:E.
    + inversion H; subst. simpl. f_equal. now apply IH.
    + destruct (String.prefix sep (String c s)) eqn:Hp; [|discriminate].
      inversion H; subst. simpl. now apply prefix_split.
Qed.

(** It finds an occurrence exactly when [sep in s]. *)
Lemma rfind_split_none (c : ascii) (sep s : string) :
  rfind_split (String c sep) s = None <-> contains (String c sep) s = false.
Proof.
  induction s as [|d s IH].
  - simpl. split; auto.
  - cbn [rfind_split contains].
    destruct (rfind_split (String c sep) s) as [[p t]|] eqn:E.
    + split; [discriminate|]. intros H.
      apply orb_false_iff in H as [_ H]. apply IH in H. discriminate.
    + destruct (String.prefix (String c sep) (String d s)) eqn:Hp.
      * split; [discriminate|]. intros H. discriminate.
      * split; auto. intros _. simpl. now apply IH.
Qed.

(** The occurrence is the rightmost one: nothing after it starts another. *)
Lemma rfind_split_app (c : ascii) (sep p t : string) :
  contains (String c sep) (sep +:+ t) = false ->
  rfind_split (String c sep) (p +:+ String c sep +:+ t) = Some (p, t).
Proof.
  intros H. induction p as [|d p IH].
  - change (EmptyString +:+ String c sep +:+ t) with (String c (sep +:+ t)).
    cbn [rfind_split].
    apply (rfind_split_none c sep) in H. rewrite H.
    change (String c (sep +:+ t)) with (String c sep +:+ t).
    rewrite prefix_app, drop_app. reflexivity.
  - change (String d p +:+ String c sep +:+ t)
      with (String d (p +:+ String c sep +:+ t)).
    cbn [rfind_split]. rewrite IH. reflexivity.
Qed.

Lemma is_empty_true (s : string) : is_empty s = true <-> s = EmptyString.
Proof. destruct s; simpl; split; congruence. Qed.

Lemma in_tuple_In (x : string) (l : list string) :
  in_tuple x l = true <-> In x l.
Proof.
  unfold in_tuple. rewrite existsb_exists. split.
  - intros (y & Hy & E). apply String.eqb_eq in E. now subst.
  - intros H. exists x. split; [assumption|apply String.eqb_refl].
Qed.

End StringFacts.

(** ** Lookups: field path and operator *)

Section LookupFacts.

Import PyStr FieldLookupBackend Notions.

Variable O : Oracles.

Lemma supported_has_no_separator (op : string) :
  In op SUPPORTED_LOOKUPS -> contains "__" ("_" +:+ op) = false.
Proof.
  intros H. unfold SUPPORTED_LOOKUPS in H. simpl in H.
  repeat (destruct H as [<-|H]; [reflexivity|]). contradiction.
Qed.

Lemma rsplit1_operator (path op : string) :
  In op SUPPORTED_LOOKUPS ->
  rfind_split "__" (path +:+ "__" +:+ op) = Some (path, op).
Proof.
  intros H. apply (rfind_split_app "_" "_" path op).
  now apply supported_has_no_separator.
Qed.

(** The last [__] before a supported operator is where the lookup is cut. *)
Lemma lookup_with_operator (model : Model) (path op : string) :
  In op SUPPORTED_LOOKUPS ->
  get_fields_from_lookup O model (path +:+ "__" +:+ op) = resolve_with O model path op.
Proof.
  intros Hop. unfold get_fields_from_lookup, resolve_with, rsplit1.
  pose proof (rsplit1_operator path op Hop) as Hr. rewrite Hr.
  destruct (contains "__" (path +:+ "__" +:+ op)) eqn:Hc.
  - cbn [List.last]. apply in_tuple_In in Hop. rewrite Hop. reflexivity.
  - apply (rfind_split_none "_" "_") in Hc. congruence.
Qed.

(** C6: a lookup whose last segment is no supported operator is a field
    path as a whole, with the operator [exact]; and whatever stands before
    the last [__] and a supported operator is the field path, also when it
    ends in the name of an operator itself: the last segment alone is read
    as the operator. *)
Theorem unsupported_suffix_is_field_path (model : Model) (lookup : string) :
  (in_tuple (last_segment lookup) SUPPORTED_LOOKUPS = false ->
   get_fields_from_lookup O model lookup = resolve_with O model lookup "exact")
  /\ (forall path op : string,
        In op SUPPORTED_LOOKUPS ->
        lookup = path +:+ "__" +:+ op ->
        get_fields_from_lookup O model lookup = resolve_with O model path op).
Proof.
  split.
  - intros H. unfold get_fields_from_lookup, resolve_with.
    unfold last_segment in H. rewrite H, andb_false_r. reflexivity.
  - intros path op Hop ->. now apply lookup_with_operator.
Qed.

(** A lookup with an empty field path is refused before the schema is
    asked. *)
Lemma empty_lookup_refused (model : Model) (lookup : string) :
  In lookup EMPTY_LOOKUPS ->
  get_fields_from_lookup O model lookup = Raise (ParseError FIELD_NAME_NOT_PROVIDED).
Proof.
  intros H. unfold EMPTY_LOOKUPS, SUPPORTED_LOOKUPS in H. simpl in H.
  repeat (destruct H as [<-|H]; [reflexivity|]). contradiction.
Qed.

End LookupFacts.

(** ** Conversion of the values *)

Section ValueFacts.

Import PyStr FieldLookupBackend Notions.

Variable O : Oracles.

Lemma prefix_empty (s : string) : String.prefix EmptyString s = true.
Proof. now destruct s. Qed.

(** [value.replace('_', '')] leaves no underscore. *)
Lemma replace_underscore_none (s : string) :
  contains "_" (replace "_" EmptyString s) = false.
Proof.
  unfold replace. induction s as [|c s IH]; [reflexivity|].
  cbn [replace_go String.prefix String.length Nat.sub].
  destruct (ascii_dec "_" c) as [E|E].
  - rewrite prefix_empty. exact IH.
  - cbn [contains String.prefix].
    destruct (ascii_dec "_" c) as [E'|_]; [contradiction|]. exact IH.
Qed.

(** What [value_to_python] does once the lookup is resolved, on a lookup
    that is no [polymorphic_ctype__model] lookup. *)
Lemma value_to_python_resolved (model : Model) (lookup : string)
  (field_list : list Field) (new_lookup : string) (field : Field) (value : qvalue) :
  is_ascii lookup = true ->
  get_fields_from_lookup O model lookup = Ok (field_list, new_lookup) ->
  last_field field_list = Ok field ->
  value_to_python O model lookup value =
    let needs_distinct := negb (forallb NO_DUPLICATES_ALLOW_LIST field_list) in
    if startswith "polymorphic_ctype__model" new_lookup then
      match value with
      | QStr s => Ok (PyStr (replace "_" EmptyString s), Single new_lookup, needs_distinct)
      | QInt _ => Raise AttributeError
      end
    else if endswith "__isnull" new_lookup then
      let* b := to_python_boolean O value in
      Ok (PyBool b, Single new_lookup, needs_distinct)
    else if endswith "__in" new_lookup then
      if falsy value then Raise (ValueError "cannot provide empty value for __in")
      else
        match value with
        | QStr s =>
            let* items := convert_items O field (split "," s) in
            Ok (PyList items, Single new_lookup, needs_distinct)
        | QInt _ => Raise AttributeError
        end
    else if endswith "__regex" new_lookup || endswith "__iregex" new_lookup then
      match re_compile O value with
      | Raise (ReError msg) => Raise (ValueError msg)
      | Raise e => Raise e
      | Ok _ => Ok (to_py value, Single new_lookup, needs_distinct)
      end
    else if endswith "__iexact" new_lookup then
      if negb (is_text field) && negb (is_json field && negb TREAT_JSONFIELD_AS_TEXT)
      then Raise (ValueError (name field +:+ " is not a text field and cannot be filtered by case-insensitive search"))
      else Ok (to_py value, Single new_lookup, needs_distinct)
    else if endswith "__search" new_lookup then
      match related_model field with
      | None => Raise (ValueError (drop_end 8 new_lookup +:+ " is not searchable"))
      | Some related =>
          Ok (to_py value, Multi (search_lookups (drop_end 8 new_lookup) related),
              needs_distinct)
      end
    else
      let new_lookup' :=
        if TREAT_JSONFIELD_AS_TEXT && is_json field
        then replace (name field) (name field +:+ "_as_txt") new_lookup
        else new_lookup in
      let* v := value_to_python_for_field O field value in
      Ok (v, Single new_lookup', needs_distinct).
Proof.
  intros Ha Hg Hl. unfold value_to_python.
  rewrite Ha, Hg. cbn [negb bind]. rewrite Hl. reflexivity.
Qed.

(** C10: on a lookup whose resolved path starts with
    [polymorphic_ctype__model] the value is used with every underscore
    removed; on any other lookup the value that comes out is the value as it
    was given, or what a converter made of the value as it was given. *)
Theorem underscores_removed_only_for_polymorphic
  (model : Model) (lookup : string) (field_list : list Field)
  (new_lookup : string) (field : Field) (s : string) :
  is_ascii lookup = true ->
  get_fields_from_lookup O model lookup = Ok (field_list, new_lookup) ->
  last_field field_list = Ok field ->
  (startswith "polymorphic_ctype__model" new_lookup = true ->
   value_to_python O model lookup (QStr s) =
     Ok (PyStr (replace "_" EmptyString s), Single new_lookup,
         negb (forallb NO_DUPLICATES_ALLOW_LIST field_list))
   /\ contains "_" (replace "_" EmptyString s) = false)
  /\ (startswith "polymorphic_ctype__model" new_lookup = false ->
      forall (value : pyval) (new_key : NewLookup) (distinct : bool),
        value_to_python O model lookup (QStr s) = Ok (value, new_key, distinct) ->
        value = PyStr s
        \/ (exists b, to_python_boolean O (QStr s) = Ok b /\ value = PyBool b)
        \/ (exists items,
              convert_items O field (split "," s) = Ok items /\ value = PyList items)
        \/ value_to_python_for_field O field (QStr s) = Ok value).
Proof.
  intros Ha Hg Hl.
  rewrite (value_to_python_resolved model lookup field_list new_lookup field (QStr s) Ha Hg Hl).
  cbv zeta. split.
  - intros ->. split; [reflexivity|apply replace_underscore_none].
  - intros ->. intros value new_key distinct H.
    destruct (endswith "__isnull" new_lookup).
    { destruct (to_python_boolean O (QStr s)) as [b|e] eqn:Eb; [|discriminate].
      cbn [bind] in H. inversion H; subst. right; left. now exists b. }
    destruct (endswith "__in" new_lookup).
    { destruct (falsy (QStr s)); [discriminate|].
      destruct (convert_items O field (split "," s)) as [items|e] eqn:Ei; [|discriminate].
      cbn [bind] in H. inversion H; subst. right; right; left. now exists items. }
    destruct (endswith "__regex" new_lookup || endswith "__iregex" new_lookup).
    { destruct (re_compile O (QStr s)) as [u|e].
      - inversion H; subst. now left.
      - destruct e; discriminate. }
    destruct (endswith "__iexact" new_lookup).
    { destruct (negb (is_text field) && negb (is_json field && negb TREAT_JSONFIELD_AS_TEXT));
        [discriminate|]. inversion H; subst. now left. }
    destruct (endswith "__search" new_lookup).
    { destruct (related_model field); [|discriminate]. inversion H; subst. now left. }
    destruct (value_to_python_for_field O field (QStr s)) as [v|e] eqn:Ev; [|discriminate].
    cbn [bind] in H. inversion H; subst. right; right; right. reflexivity.
Qed.

End ValueFacts.

(** ** The loop over the query parameters *)

Section LoopFacts.

Import PyStr FieldLookupBackend Notions.

Variable O : Oracles.

Lemma for_each_app {A S : Type} (f : S -> A -> result S) (l1 l2 : list A) (st : S) :
  for_each f (l1 ++ l2) st = let* st' := for_each f l1 st in for_each f l2 st'.
Proof.
  revert st. induction l1 as [|x l1 IH]; intros st; simpl; [reflexivity|].
  destruct (f st x); simpl; auto.
Qed.

(** The first element that raises ends the loop. *)
Lemma for_each_raises {A S : Type} (f : S -> A -> result S)
  (l1 l2 : list A) (x : A) (st st1 : S) (e : exn) :
  for_each f l1 st = Ok st1 -> f st1 x = Raise e ->
  for_each f (l1 ++ x :: l2) st = Raise e.
Proof.
  intros H1 H2. rewrite for_each_app, H1. simpl. now rewrite H2.
Qed.

(** What all turns leave unchanged, the loop leaves unchanged. *)
Lemma for_each_preserves {A S B : Type} (f : S -> A -> result S) (proj : S -> B) :
  (forall st x st', f st x = Ok st' -> proj st' = proj st) ->
  forall l st st', for_each f l st = Ok st' -> proj st' = proj st.
Proof.
  intros Hf l. induction l as [|x l IH]; intros st st' H; simpl in H.
  - now inversion H.
  - destruct (f st x) as [st1|e] eqn:E; simpl in H; [|discriminate].
    rewrite (IH _ _ H). eauto.
Qed.

Lemma filter_queryset_raises (queryset : QuerySet)
  (before after : list (string * list string)) (param : string * list string)
  (st : State) (e : exn) :
  compile_params O queryset before = Ok st ->
  process_param O (qs_model queryset) st param = Raise e ->
  filter_queryset O (before ++ param :: after) queryset = Raise (handle O e).
Proof.
  intros H1 H2. unfold filter_queryset, compile_params in *.
  now rewrite (for_each_raises _ before after param _ st e H1 H2).
Qed.

(** A plain key: its prefixes are stripped and each value is converted. *)
Lemma process_param_plain (model : Model) (st : State) (key : string)
  (values : list string) :
  plain_key O model key = true ->
  process_param O model st (key, values) =
    let '(k1, q_chain, q_or) := strip_chain_or key in
    let (k2, q_not) := strip_not k1 in
    for_each (convert_value O model k2 false q_chain q_or q_not) values st.
Proof.
  unfold plain_key. intros H.
  repeat (apply andb_prop in H as [H ?]).
  repeat match goal with
         | X : negb _ = true |- _ => apply negb_true_iff in X
         end.
  unfold process_param, strip_chain_or, strip_not.
  repeat match goal with X : _ = false |- _ => rewrite X end.
  destruct (startswith "chain__" key); [|destruct (startswith "or__" key)];
    match goal with
    | |- context [startswith "not__" ?k] => destruct (startswith "not__" k)
    end; reflexivity.
Qed.

End LoopFacts.

(** ** Keys with an empty field path *)

Section EmptyPathFacts.

Import PyStr FieldLookupBackend Notions.

Variable O : Oracles.

Lemma value_to_python_empty (model : Model) (lookup : string) (value : qvalue) :
  In lookup EMPTY_LOOKUPS ->
  value_to_python O model lookup value = Raise (ParseError FIELD_NAME_NOT_PROVIDED).
Proof.
  intros H. unfold value_to_python.
  rewrite (empty_lookup_refused O model lookup H).
  assert (Ha : is_ascii lookup = true).
  { unfold EMPTY_LOOKUPS, SUPPORTED_LOOKUPS in H. simpl in H.
    repeat (destruct H as [<-|H]; [reflexivity|]). contradiction. }
  rewrite Ha. reflexivity.
Qed.

Lemma split_go_nonempty (sep : string) (skip : nat) (cur s : string) :
  exists x l, split_go sep skip cur s = x :: l.
Proof.
  revert skip cur. induction s as [|c s IH]; intros skip cur.
  - simpl. eauto.
  - cbn [split_go]. destruct skip as [|k]; [|apply IH].
    destruct (String.prefix sep (String c s)); [eauto|apply IH].
Qed.

Lemma static_plain_key (model : Model) (key : string) :
  in_tuple key (reserved_names O) = false ->
  static_plain key = true ->
  plain_key O model key = true.
Proof.
  unfold static_plain, plain_key. intros Hr H.
  repeat (apply andb_prop in H as [H ?]).
  repeat match goal with
         | X : negb _ = true |- _ => apply negb_true_iff in X
         end.
  repeat match goal with X : _ = false |- _ => rewrite X end.
  now rewrite !andb_false_r.
Qed.

Lemma empty_path_keys_static :
  forallb
    (fun key =>
       static_plain key
       && in_tuple (fst (strip_not (fst (fst (strip_chain_or key))))) EMPTY_LOOKUPS)
    (tl EMPTY_PATH_KEYS) = true.
Proof. vm_compute. reflexivity. Qed.

Lemma process_param_empty_path (model : Model) (st : State) (key v : string)
  (vs : list string) :
  In key EMPTY_PATH_KEYS ->
  in_tuple key (reserved_names O) = false ->
  process_param O model st (key, v :: vs) = Raise (ParseError FIELD_NAME_NOT_PROVIDED).
Proof.
  intros Hin Hr.
  change EMPTY_PATH_KEYS with ("__search" :: tl EMPTY_PATH_KEYS) in Hin.
  destruct Hin as [<-|Hin].
  - unfold process_param. rewrite Hr.
    cbn [startswith String.prefix]. rewrite !andb_false_r.
    change (endswith "__int" "__search") with false.
    change (String.eqb "__search" "role_level") with false.
    change (endswith "__search" "__search") with true. cbv iota.
    assert (Hv : forall st' x l, for_each (search_value O model "__search") (x :: l) st'
                               = Raise (ParseError FIELD_NAME_NOT_PROVIDED)).
    { intros st' x l. cbn [for_each]. unfold search_value.
      rewrite value_to_python_empty; [reflexivity|]. vm_compute. tauto. }
    destruct (contains "," v).
    + cbn [flat_map].
      destruct (split_go_nonempty "," 0 EmptyString v) as (x & l & E).
      unfold split. rewrite E. cbn [app]. rewrite Hv. reflexivity.
    + rewrite Hv. reflexivity.
  - pose proof empty_path_keys_static as Hs.
    rewrite forallb_forall in Hs. specialize (Hs key Hin).
    apply andb_prop in Hs as [Hp He].
    rewrite (process_param_plain O model st key (v :: vs) (static_plain_key model key Hr Hp)).
    destruct (strip_chain_or key) as [[k1 q_chain] q_or]. cbn [fst] in He.
    destruct (strip_not k1) as [k2 q_not]. cbn [fst] in He.
    apply in_tuple_In in He.
    cbn [for_each]. unfold convert_value. cbn [bind].
    rewrite (value_to_python_empty model k2 (QStr v) He). reflexivity.
Qed.

(** C9, as the code has it: a parameter with a value whose key is empty
    once its prefixes ([chain__] or else [or__], then [not__]) and its
    operator are taken off makes the compilation fail with "Query string
    field name not provided.", whatever the schema says: the schema is not
    asked.  A [__search] key keeps its prefixes. *)
Theorem empty_field_path_not_provided (queryset : QuerySet)
  (before after : list (string * list string)) (st : State)
  (key v : string) (vs : list string) :
  In key EMPTY_PATH_KEYS ->
  in_tuple key (reserved_names O) = false ->
  compile_params O queryset before = Ok st ->
  filter_queryset O (before ++ (key, v :: vs) :: after) queryset
  = Raise (ParseError FIELD_NAME_NOT_PROVIDED).
Proof.
  intros Hin Hr Hb.
  now rewrite (filter_queryset_raises O queryset before after (key, v :: vs) st _ Hb
                 (process_param_empty_path (qs_model queryset) st key v vs Hin Hr)).
Qed.

End EmptyPathFacts.

(** ** The prefixes [chain__], [or__] and [not__] *)

Section PrefixFacts.

Import PyStr FieldLookupBackend Notions.

Variable O : Oracles.





End PrefixFacts.

(** ** Suffixes *)

Section SuffixFacts.

Import PyStr.

Lemma length_app (a b : string) :
  String.length (a +:+ b) = (String.length a + String.length b)%nat.
Proof. induction a; simpl; auto. Qed.

Lemma take_app (p t : string) : take (String.length p) (p +:+ t) = p.
Proof. induction p; simpl; [now destruct t|congruence]. Qed.

Lemma take_drop (n : nat) (s : string) : take n s +:+ drop n s = s.
Proof.
  revert s. induction n as [|n IH]; intros s; [reflexivity|].
  destruct s as [|c s]; simpl; [reflexivity|]. now rewrite IH.
Qed.

Lemma endswith_app (p suf : string) : endswith suf (p +:+ suf) = true.
Proof.
  unfold endswith. rewrite length_app.
  replace (String.length p + String.length suf - String.length suf)%nat
    with (String.length p) by lia.
  rewrite drop_app, String.eqb_refl, andb_true_r.
  apply Nat.leb_le. lia.
Qed.

Lemma endswith_split (suf s : string) :
  endswith suf s = true -> exists p, s = p +:+ suf.
Proof.
  unfold endswith. intros H. apply andb_prop in H as [_ H].
  apply String.eqb_eq in H.
  exists (take (String.length s - String.length suf) s).
  transitivity (take (String.length s - String.length suf) s
                +:+ drop (String.length s - String.length suf) s).
  - symmetry. apply take_drop.
  - now rewrite H.
Qed.

Lemma drop_end_app (p suf : string) : drop_end (String.length suf) (p +:+ suf) = p.
Proof.
  unfold drop_end. rewrite length_app.
  replace (String.length p + String.length suf - String.length suf)%nat
    with (String.length p) by lia.
  apply take_app.
Qed.

Lemma last_char_app (p : string) (c : ascii) (t : string) :
  last_char (p +:+ String c t) = last_char (String c t).
Proof.
  induction p as [|d p IH]; [reflexivity|].
  change (String d p +:+ String c t) with (String d (p +:+ String c t)).
  cbn [last_char]. destruct (p +:+ String c t) eqn:E.
  - destruct p; discriminate.
  - exact IH.
Qed.

(** Two suffixes of a string end in the same character. *)
Lemma endswith_exclusive (c1 c2 : ascii) (t1 t2 s : string) :
  endswith (String c1 t1) s = true ->
  last_char (String c1 t1) <> last_char (String c2 t2) ->
  endswith (String c2 t2) s = false.
Proof.
  intros H1 Hne. destruct (endswith (String c2 t2) s) eqn:H2; [|reflexivity].
  apply endswith_split in H1 as [p1 E1]. apply endswith_split in H2 as [p2 E2].
  exfalso. apply Hne.
  rewrite <- (last_char_app p1), <- (last_char_app p2). congruence.
Qed.

End SuffixFacts.

(** ** [__in] lookups *)

Section InFacts.

Import PyStr FieldLookupBackend Notions.

Variable O : Oracles.

Lemma resolve_with_ok (model : Model) (path op : string)
  (field_list : list Field) (new_path : string) :
  is_empty path = false ->
  get_fields_from_path O model path TREAT_JSONFIELD_AS_TEXT = Ok (field_list, new_path) ->
  resolve_with O model path op = Ok (field_list, new_path +:+ "__" +:+ op).
Proof. intros He Hg. unfold resolve_with. now rewrite He, Hg. Qed.

Lemma value_to_python_in (model : Model) (path : string)
  (field_list : list Field) (new_path : string) (field : Field) (value : qvalue) :
  is_empty path = false ->
  is_ascii (path +:+ "__in") = true ->
  get_fields_from_path O model path TREAT_JSONFIELD_AS_TEXT = Ok (field_list, new_path) ->
  last_field field_list = Ok field ->
  startswith "polymorphic_ctype__model" (new_path +:+ "__in") = false ->
  value_to_python O model (path +:+ "__in") value =
    if falsy value then Raise (ValueError "cannot provide empty value for __in")
    else
      match value with
      | QStr s =>
          let* items := convert_items O field (split "," s) in
          Ok (PyList items, Single (new_path +:+ "__in"),
              negb (forallb NO_DUPLICATES_ALLOW_LIST field_list))
      | QInt _ => Raise AttributeError
      end.
Proof.
  intros He Ha Hg Hl Hp.
  assert (Hgl : get_fields_from_lookup O model (path +:+ "__in")
                = Ok (field_list, new_path +:+ "__in")).
  { change (path +:+ "__in") with (path +:+ "__" +:+ "in").
    rewrite lookup_with_operator by (simpl; tauto).
    now apply resolve_with_ok. }
  rewrite (value_to_python_resolved O model _ field_list _ field value Ha Hgl Hl).
  cbv zeta. rewrite Hp.
  rewrite (endswith_exclusive "_" "_" "_in" "_isnull" (new_path +:+ "__in"));
    [|apply endswith_app|discriminate].
  now rewrite endswith_app.
Qed.



End InFacts.

(** ** [__search] parameters *)

Section SearchFacts.

Import PyStr FieldLookupBackend Notions.

Variable O : Oracles.

Lemma value_to_python_search (model : Model) (path : string)
  (field_list : list Field) (new_path : string) (field : Field) (value : qvalue) :
  is_empty path = false ->
  is_ascii (path +:+ "__search") = true ->
  get_fields_from_path O model path TREAT_JSONFIELD_AS_TEXT = Ok (field_list, new_path) ->
  last_field field_list = Ok field ->
  startswith "polymorphic_ctype__model" (new_path +:+ "__search") = false ->
  value_to_python O model (path +:+ "__search") value =
    match related_model field with
    | None => Raise (ValueError (new_path +:+ " is not searchable"))
    | Some related =>
        Ok (to_py value, Multi (search_lookups new_path related),
            negb (forallb NO_DUPLICATES_ALLOW_LIST field_list))
    end.
Proof.
  intros He Ha Hg Hl Hp.
  assert (Hgl : get_fields_from_lookup O model (path +:+ "__search")
                = Ok (field_list, new_path +:+ "__search")).
  { change (path +:+ "__search") with (path +:+ "__" +:+ "search").
    rewrite lookup_with_operator by (simpl; tauto).
    now apply resolve_with_ok. }
  rewrite (value_to_python_resolved O model _ field_list _ field value Ha Hgl Hl).
  cbv zeta. rewrite Hp.
  pose proof (endswith_app new_path "__search") as Hs.
  rewrite (endswith_exclusive "_" "_" "_search" "_isnull" _ Hs) by discriminate.
  rewrite (endswith_exclusive "_" "_" "_search" "_in" _ Hs) by discriminate.
  rewrite (endswith_exclusive "_" "_" "_search" "_regex" _ Hs) by discriminate.
  rewrite (endswith_exclusive "_" "_" "_search" "_iregex" _ Hs) by discriminate.
  rewrite (endswith_exclusive "_" "_" "_search" "_iexact" _ Hs) by discriminate.
  rewrite Hs. cbn [orb].
  change 8 with (String.length "__search"). rewrite drop_end_app. reflexivity.
Qed.

Lemma dict_get_set_eq (k : string) (v : list string) (d : list (string * list string)) :
  dict_get k (dict_set k v d) = Some v.
Proof.
  induction d as [|[k' v'] d IH]; simpl.
  - now rewrite String.eqb_refl.
  - destruct (String.eqb k' k) eqn:E; simpl; now rewrite E.
Qed.

Lemma dict_get_set_ne (k k0 : string) (v : list string) (d : list (string * list string)) :
  k0 <> k -> dict_get k (dict_set k0 v d) = dict_get k d.
Proof.
  intros Hne. induction d as [|[k' v'] d IH]; simpl.
  - apply String.eqb_neq in Hne. now rewrite Hne.
  - destruct (String.eqb k' k0) eqn:E; simpl.
    + apply String.eqb_eq in E. subst k'.
      apply String.eqb_neq in Hne. now rewrite Hne.
    + destruct (String.eqb k' k); auto.
Qed.

Lemma register_terms_keeps (lookups : list string) (terms : list string)
  (st : State) (term : string) :
  dict_get term (search_filters st) = Some lookups ->
  dict_get term (search_filters (register_terms lookups terms st)) = Some lookups.
Proof.
  revert st. induction terms as [|t terms IH]; intros st H; [exact H|].
  apply IH. cbn [set_search search_filters].
  destruct (String.eqb_spec t term) as [->|Hne].
  - apply dict_get_set_eq.
  - now rewrite dict_get_set_ne.
Qed.

Lemma register_terms_get (lookups : list string) (terms : list string)
  (st : State) (term : string) :
  In term terms ->
  dict_get term (search_filters (register_terms lookups terms st)) = Some lookups.
Proof.
  revert st. induction terms as [|t terms IH]; intros st H; [contradiction|].
  change (register_terms lookups (t :: terms) st)
    with (register_terms lookups terms (set_search t lookups st)).
  destruct H as [->|H].
  - apply register_terms_keeps. apply dict_get_set_eq.
  - now apply IH.
Qed.

Lemma register_terms_relation (lookups : list string) (terms : list string) (st : State) :
  search_filter_relation (register_terms lookups terms st) = search_filter_relation st.
Proof.
  revert st. induction terms as [|t terms IH]; intros st; [reflexivity|].
  unfold register_terms in *. cbn [fold_left]. now rewrite IH.
Qed.

Lemma search_lookups_spec (new_path : string) (related : Model) (l : string) :
  In l (search_lookups new_path related) <->
  exists f, In f (fields related) /\ In (name f) SEARCH_FIELD_NAMES
            /\ l = new_path +:+ "__" +:+ name f +:+ "__icontains".
Proof.
  unfold search_lookups. rewrite in_map_iff. split.
  - intros (f & <- & Hf). apply filter_In in Hf as [Hf Ha].
    apply in_tuple_In in Ha. now exists f.
  - intros (f & Hf & Ha & ->). exists f. split; [reflexivity|].
    apply filter_In. split; [assumption|]. now apply in_tuple_In.
Qed.

(** How the loop enters the [__search] branch on such a key. *)
Lemma process_param_search (model : Model) (st : State) (path : string)
  (values : list string) :
  in_tuple (path +:+ "__search") (reserved_names O) = false ->
  (String.eqb (object_name model) "User" && startswith "created" (path +:+ "__search")) = false ->
  (String.eqb (object_name model) "JobEvent" && startswith "hosts__name" (path +:+ "__search")) = false ->
  process_param O model st (path +:+ "__search", values) =
    let* st' := for_each (search_value O model (path +:+ "__search"))
                  (search_terms values) (search_state values st) in
    Ok (set_needs_distinct st').
Proof.
  intros Hr Hu Hj. unfold process_param. rewrite Hr, Hu, Hj.
  pose proof (endswith_app path "__search") as Hs.
  rewrite (endswith_exclusive "_" "_" "_search" "_int" _ Hs) by discriminate.
  rewrite Hs.
  destruct (String.eqb_spec (path +:+ "__search") "role_level") as [E|_].
  - rewrite E in Hs. discriminate.
  - unfold search_terms, search_state.
    destruct values as [|v0 vs]; [reflexivity|].
    destruct (contains "," v0); reflexivity.
Qed.

Lemma for_each_search_value (model : Model) (key : string) (lookups : list string)
  (terms : list string) (st : State) :
  (forall term, exists nd,
      value_to_python O model key (QStr term) = Ok (PyStr term, Multi lookups, nd)) ->
  for_each (search_value O model key) terms st = Ok (register_terms lookups terms st).
Proof.
  intros Hv. revert st. induction terms as [|t terms IH]; intros st; [reflexivity|].
  cbn [for_each]. unfold search_value at 1. cbn [force_str].
  destruct (Hv t) as [nd E]. rewrite E. cbn [bind]. apply IH.
Qed.

(** C2, as the code has it: on a [__search] parameter whose resolved path
    does not start with [polymorphic_ctype__model], the values are split on
    the commas and the relation becomes AND when the first value has a
    comma, and else the values and the relation are left as they are; each
    term gets the [icontains] lookups over the fields of the related model
    whose names are in the allow-list, and no others; a field with no
    related model makes the parameter fail; the flag [needs_distinct] is set. *)
Theorem search_parameter (model : Model) (st : State) (path : string)
  (values : list string) (field_list : list Field) (new_path : string)
  (field : Field) :
  in_tuple (path +:+ "__search") (reserved_names O) = false ->
  (String.eqb (object_name model) "User" && startswith "created" (path +:+ "__search")) = false ->
  (String.eqb (object_name model) "JobEvent" && startswith "hosts__name" (path +:+ "__search")) = false ->
  is_empty path = false ->
  is_ascii (path +:+ "__search") = true ->
  get_fields_from_path O model path TREAT_JSONFIELD_AS_TEXT = Ok (field_list, new_path) ->
  last_field field_list = Ok field ->
  startswith "polymorphic_ctype__model" (new_path +:+ "__search") = false ->
  (related_model field = None ->
   search_terms values <> [] ->
   process_param O model st (path +:+ "__search", values)
   = Raise (ValueError (new_path +:+ " is not searchable"))
   /\ handle O (ValueError (new_path +:+ " is not searchable"))
      = ParseError (new_path +:+ " is not searchable"))
  /\ (forall related : Model,
        related_model field = Some related ->
        exists st' : State,
          process_param O model st (path +:+ "__search", values) = Ok st'
          /\ st' = set_needs_distinct
                     (register_terms (search_lookups new_path related)
                        (search_terms values) (search_state values st))
          /\ needs_distinct st' = true
          /\ search_filter_relation st'
             = search_relation values (search_filter_relation st)
          /\ (forall term : string,
                In term (search_terms values) ->
                dict_get term (search_filters st')
                = Some (search_lookups new_path related)))
  /\ (forall (related : Model) (l : string),
        In l (search_lookups new_path related) <->
        exists f, In f (fields related) /\ In (name f) SEARCH_FIELD_NAMES
                  /\ l = new_path +:+ "__" +:+ name f +:+ "__icontains").
Proof.
  intros Hr Hu Hj He Ha Hg Hl Hp.
  pose proof (fun v => value_to_python_search model path field_list new_path field v
                         He Ha Hg Hl Hp) as Hv.
  rewrite (process_param_search model st path values Hr Hu Hj).
  split; [|split].
  - intros Hn Hne. split; [|reflexivity].
    destruct (search_terms values) as [|t terms]; [contradiction|].
    cbn [for_each]. unfold search_value. rewrite Hv, Hn. reflexivity.
  - intros related Hrel.
    rewrite (for_each_search_value model _ (search_lookups new_path related)).
    + cbn [bind]. eexists. split; [reflexivity|]. split; [reflexivity|].
      split; [reflexivity|]. split.
      * cbn [set_needs_distinct search_filter_relation].
        rewrite register_terms_relation. unfold search_state, search_relation.
        destruct values as [|v0 vs]; [reflexivity|].
        destruct (contains "," v0); reflexivity.
      * intros term Hin. cbn [set_needs_distinct search_filters].
        now apply register_terms_get.
    + intros term. eexists. rewrite Hv, Hrel. reflexivity.
  - intros related l. apply search_lookups_spec.
Qed.

End SearchFacts.

(** ** The [role_level] parameter *)

Section RoleFacts.

Import PyStr FieldLookupBackend Notions.

Variable O : Oracles.

(** The case analysis of one turn of a loop over the values. *)
Ltac split_turn H :=
  repeat match type of H with
         | context [match ?x with _ => _ end] =>
             let E := fresh "E" in destruct x eqn:E; cbn [bind] in H; try discriminate H
         | context [if ?x then _ else _] =>
             let E := fresh "E" in destruct x eqn:E; cbn [bind] in H; try discriminate H
         end.

Lemma cast_as_txt_frame (new_key : string) (st st' : State) :
  cast_as_txt new_key st = Ok st' ->
  role_filters st' = role_filters st
  /\ qs_model (queryset st') = qs_model (queryset st).
Proof.
  unfold cast_as_txt. intros H. split_turn H; inversion H; subst; now split.
Qed.

Lemma convert_value_frame (model : Model) (key : string)
  (q_int q_chain q_or q_not : bool) (st : State) (v : string) (st' : State) :
  convert_value O model key q_int q_chain q_or q_not st v = Ok st' ->
  role_filters st' = role_filters st
  /\ qs_model (queryset st') = qs_model (queryset st).
Proof.
  unfold convert_value. intros H.
  destruct (if q_int
            then match py_int O v with
                 | Some z => Ok (QInt z)
                 | None => Raise (ValueError ("invalid literal for int() with base 10: '" +:+ v +:+ "'"))
                 end
            else Ok (QStr v)) as [value|e]; cbn [bind] in H; [|discriminate].
  destruct (value_to_python O model key value) as [[[pv new_key] distinct]|e];
    cbn [bind] in H; [|discriminate].
  destruct new_key as [new_key|new_keys].
  - destruct (cast_as_txt new_key (if distinct then set_needs_distinct st else st))
      as [st1|e] eqn:Ec; cbn [bind] in H; [|discriminate].
    apply cast_as_txt_frame in Ec as [Er Em].
    inversion H; subst. unfold route.
    destruct q_chain, q_or, distinct; cbn in *; now split.
  - destruct (in_tuple "_as_txt" new_keys); discriminate.
Qed.

Lemma search_value_frame (model : Model) (key : string) (st : State)
  (v : string) (st' : State) :
  search_value O model key st v = Ok st' ->
  role_filters st' = role_filters st
  /\ qs_model (queryset st') = qs_model (queryset st).
Proof.
  unfold search_value. intros H.
  destruct (value_to_python O model key (QStr (force_str (QStr v))))
    as [[[pv new_key] distinct]|e]; cbn [bind] in H; [|discriminate].
  destruct new_key as [new_key|new_keys]; [discriminate|].
  destruct pv; try discriminate. inversion H; subst. now split.
Qed.

Lemma for_each_frame {A : Type} (f : State -> A -> result State) :
  (forall st x st', f st x = Ok st' ->
     role_filters st' = role_filters st
     /\ qs_model (queryset st') = qs_model (queryset st)) ->
  forall l st st', for_each f l st = Ok st' ->
     role_filters st' = role_filters st
     /\ qs_model (queryset st') = qs_model (queryset st).
Proof.
  intros Hf l. induction l as [|x l IH]; intros st st' H; simpl in H.
  - inversion H. now split.
  - destruct (f st x) as [st1|e] eqn:E; simpl in H; [|discriminate].
    destruct (IH _ _ H) as [-> ->]. eauto.
Qed.

(** One turn of the loop adds the first value of a [role_level] key to
    [role_filters] and leaves them alone on any other key. *)
Lemma process_param_role (model : Model) (st : State) (key : string)
  (values : list string) (st' : State) :
  process_param O model st (key, values) = Ok st' ->
  role_filters st' =
    role_filters st ++ role_values O model [(key, values)]
  /\ qs_model (queryset st') = qs_model (queryset st).
Proof.
  unfold role_values, effective_key, process_param. cbn [flat_map]. rewrite app_nil_r.
  destruct (in_tuple key (reserved_names O)).
  { intros H. inversion H; subst. now rewrite app_nil_r. }
  set (key1 := if String.eqb (object_name model) "User" && startswith "created" key
               then replace "created" "date_joined" key else key).
  assert (Hst : exists st2 key2,
             (if String.eqb (object_name model) "JobEvent" && startswith "hosts__name" key1
              then (replace "hosts__name" "or__host__name" key1,
                    add_or (false, "host__name__isnull", PyBool true) st)
              else (key1, st)) = (key2, st2)
             /\ key2 = (if String.eqb (object_name model) "JobEvent"
                           && startswith "hosts__name" key1
                        then replace "hosts__name" "or__host__name" key1 else key1)
             /\ role_filters st2 = role_filters st
             /\ qs_model (queryset st2) = qs_model (queryset st)).
  { destruct (String.eqb (object_name model) "JobEvent" && startswith "hosts__name" key1);
      eexists; eexists; repeat split. }
  destruct Hst as (st2 & key2 & -> & <- & Hr2 & Hm2).
  rewrite <- Hr2, <- Hm2. clear Hr2 Hm2.
  destruct (endswith "__int" key2).
  - destruct (String.eqb (drop_end 5 key2) "role_level").
    + destruct values as [|v0 vs]; [discriminate|].
      intros H. inversion H; subst. now split.
    + rewrite app_nil_r. destruct (endswith "__search" (drop_end 5 key2)).
      * destruct (match values with
                  | [] => (values, st2)
                  | v0 :: _ => if contains "," v0
                               then (flat_map (split ",") values, set_relation AND st2)
                               else (values, st2)
                  end) as [values' st3] eqn:Ev.
        assert (H3 : role_filters st3 = role_filters st2
                     /\ qs_model (queryset st3) = qs_model (queryset st2)).
        { destruct values as [|v0 vs]; [inversion Ev; now split|].
          destruct (contains "," v0); inversion Ev; now split. }
        destruct H3 as [<- <-]. intros H.
        destruct (for_each (search_value O model (drop_end 5 key2)) values' st3)
          as [st4|e] eqn:Ef; cbn [bind] in H; [|discriminate].
        inversion H; subst.
        apply (for_each_frame _ (search_value_frame model _)) in Ef. exact Ef.
      * destruct (if startswith "chain__" (drop_end 5 key2)
                  then (drop 7 (drop_end 5 key2), true, false)
                  else if startswith "or__" (drop_end 5 key2)
                       then (drop 4 (drop_end 5 key2), false, true)
                       else (drop_end 5 key2, false, false)) as [[k q_chain] q_or].
        destruct (if startswith "not__" k then (drop 5 k, true) else (k, false))
          as [k' q_not].
        intros H.
        apply (for_each_frame _ (convert_value_frame model _ _ _ _ _)) in H. exact H.
  - destruct (String.eqb key2 "role_level").
    + destruct values as [|v0 vs]; [discriminate|].
      intros H. inversion H; subst. now split.
    + rewrite app_nil_r. destruct (endswith "__search" key2).
      * destruct (match values with
                  | [] => (values, st2)
                  | v0 :: _ => if contains "," v0
                               then (flat_map (split ",") values, set_relation AND st2)
                               else (values, st2)
                  end) as [values' st3] eqn:Ev.
        assert (H3 : role_filters st3 = role_filters st2
                     /\ qs_model (queryset st3) = qs_model (queryset st2)).
        { destruct values as [|v0 vs]; [inversion Ev; now split|].
          destruct (contains "," v0); inversion Ev; now split. }
        destruct H3 as [<- <-]. intros H.
        destruct (for_each (search_value O model key2) values' st3)
          as [st4|e] eqn:Ef; cbn [bind] in H; [|discriminate].
        inversion H; subst.
        apply (for_each_frame _ (search_value_frame model _)) in Ef. exact Ef.
      * destruct (if startswith "chain__" key2
                  then (drop 7 key2, true, false)
                  else if startswith "or__" key2
                       then (drop 4 key2, false, true)
                       else (key2, false, false)) as [[k q_chain] q_or].
        destruct (if startswith "not__" k then (drop 5 k, true) else (k, false))
          as [k' q_not].
        intros H.
        apply (for_each_frame _ (convert_value_frame model _ _ _ _ _)) in H. exact H.
Qed.

End RoleFacts.

Section RoleTheorem.

Import PyStr FieldLookupBackend Notions.

Variable O : Oracles.

Lemma role_values_app (model : Model) (l1 l2 : list (string * list string)) :
  role_values O model (l1 ++ l2) = role_values O model l1 ++ role_values O model l2.
Proof. unfold role_values. apply flat_map_app. Qed.

Lemma loop_role_values (model : Model) (query_params : list (string * list string))
  (st st' : State) :
  for_each (process_param O model) query_params st = Ok st' ->
  role_filters st' = role_filters st ++ role_values O model query_params
  /\ qs_model (queryset st') = qs_model (queryset st).
Proof.
  revert st. induction query_params as [|[key values] rest IH]; intros st H.
  - simpl in H. inversion H; subst. unfold role_values. simpl.
    now rewrite app_nil_r.
  - cbn [for_each] in H.
    destruct (process_param O model st (key, values)) as [st1|e] eqn:E;
      cbn [bind] in H; [|discriminate].
    apply process_param_role in E as [Er Em]. apply IH in H as [Hr Hm].
    rewrite Hr, Er, Hm, Em.
    change ((key, values) :: rest) with ([(key, values)] ++ rest).
    rewrite role_values_app, app_assoc. now split.
Qed.

Lemma effective_role_level (model : Model) :
  effective_key model "role_level" = "role_level".
Proof.
  unfold effective_key. cbn [startswith String.prefix].
  destruct (String.eqb (object_name model) "User");
    destruct (String.eqb (object_name model) "JobEvent"); reflexivity.
Qed.

Lemma role_level_first_value (model : Model)
  (query_params : list (string * list string)) (v0 : string) (vs : list string) :
  In ("role_level", v0 :: vs) query_params ->
  in_tuple "role_level" (reserved_names O) = false ->
  In v0 (role_values O model query_params).
Proof.
  intros Hin Hr. unfold role_values. apply in_flat_map.
  exists ("role_level", v0 :: vs). split; [assumption|].
  rewrite Hr, effective_role_level. simpl. now left.
Qed.

Lemma last_filter_call (args : list Q) (qs : QuerySet) (distinct : bool) :
  List.last (filter_calls (if distinct then qs_distinct (qs_filter args qs)
                           else qs_filter args qs)) [] = args.
Proof. destruct distinct; cbn; apply last_last. Qed.

(** With a role in [role_filters] and a model without [accessible_pk_qs],
    the build reaches the call of the local [_] and raises what that call
    raises. *)
Lemma build_without_capability (st : State) :
  role_filters st <> [] ->
  accessible_pk_qs (qs_model (queryset st)) = false ->
  build st = Raise (if is_nil (search_filters st) then UnboundLocalError
                    else TypeError "'bool' object is not callable").
Proof.
  intros Hne Ha. unfold build, call_underscore.
  destruct (role_filters st) as [|r rs] eqn:Er; [contradiction|].
  cbn [is_nil negb]. rewrite orb_true_r. cbn [orb andb]. rewrite Ha.
  cbn [negb]. now destruct (search_filters st).
Qed.

(** With a role in [role_filters] and a model with [accessible_pk_qs], the
    build gives the roles, behind the AND filters, to the last [filter]
    call. *)
Lemma build_roles (st : State) :
  role_filters st <> [] ->
  accessible_pk_qs (qs_model (queryset st)) = true ->
  exists qs' rest,
    build st = Ok qs'
    /\ List.last (filter_calls qs') []
       = map q_of (and_filters st) ++ map Q_pk_in_accessible (role_filters st) ++ rest.
Proof.
  intros Hne Ha. unfold build.
  destruct (role_filters st) as [|r rs] eqn:Er; [contradiction|].
  cbn [is_nil negb]. rewrite orb_true_r. cbn [orb andb].
  rewrite Ha; cbn [negb bind].
  destruct (or_filters st) as [|o os]; destruct (search_filters st) as [|t ts];
    cbn [is_nil negb]; try destruct (search_filter_relation st);
    eexists; eexists; (split; [reflexivity|]);
    rewrite last_filter_call; rewrite <- ?app_assoc;
    first [reflexivity | f_equal; symmetry; apply app_nil_r].
Qed.

(** C4, as the code has it by design: when the parameters compile, the
    roles of [role_filters] are the first value of each [role_level] key,
    and on a model with [accessible_pk_qs] each role is one [pk__in]
    constraint of the last [filter] call, next to the AND filters. *)
Theorem role_level_filter (queryset : QuerySet)
  (query_params : list (string * list string)) (st : State) :
  compile_params O queryset query_params = Ok st ->
  role_filters st = role_values O (qs_model queryset) query_params
  /\ (forall (v0 : string) (vs : list string),
        In ("role_level", v0 :: vs) query_params ->
        in_tuple "role_level" (reserved_names O) = false ->
        In v0 (role_values O (qs_model queryset) query_params))
  /\ (role_values O (qs_model queryset) query_params <> [] ->
      accessible_pk_qs (qs_model queryset) = true ->
      exists (qs' : QuerySet) (rest : list Q),
        filter_queryset O query_params queryset = Ok qs'
        /\ List.last (filter_calls qs') []
           = map q_of (and_filters st)
             ++ map Q_pk_in_accessible (role_values O (qs_model queryset) query_params)
             ++ rest).
Proof.
  intros Hc. pose proof Hc as Hc'. unfold compile_params in Hc'.
  apply loop_role_values in Hc' as [Hr Hm]. cbn in Hr, Hm.
  split; [exact Hr|]. split; [intros v0 vs H1 H2; exact (role_level_first_value _ _ v0 vs H1 H2)|].
  unfold filter_queryset. rewrite Hc. cbn [bind]. rewrite <- Hr, <- Hm.
  intros Hne Ha.
  destruct (build_roles st Hne Ha) as (qs' & rest & E & L).
  rewrite E. now exists qs', rest.
Qed.

(** X22: a [role_level] parameter on a model without [accessible_pk_qs]
    does not give the parse error that the code writes down: building its
    message calls the local [_].  When the parameters compile with a role
    and no search term, [UnboundLocalError] leaves [filter_queryset]; with
    a search term, the [TypeError] of calling a boolean is caught and the
    result is the parse error with that message. *)
Theorem role_level_without_capability_raises (queryset : QuerySet)
  (query_params : list (string * list string)) (st : State) :
  compile_params O queryset query_params = Ok st ->
  role_values O (qs_model queryset) query_params <> [] ->
  accessible_pk_qs (qs_model queryset) = false ->
  filter_queryset O query_params queryset
  = Raise (if is_nil (search_filters st) then UnboundLocalError
           else ParseError "'bool' object is not callable").
Proof.
  intros Hc Hne Ha. pose proof Hc as Hc'. unfold compile_params in Hc'.
  apply loop_role_values in Hc' as [Hr Hm]. cbn in Hr, Hm.
  unfold filter_queryset. rewrite Hc. cbn [bind].
  rewrite <- Hr in Hne. rewrite <- Hm in Ha.
  rewrite (build_without_capability st Hne Ha).
  now destruct (is_nil (search_filters st)).
Qed.

End RoleTheorem.

(** ** The name of the model *)

Section ModelNameFacts.

Import PyStr FieldLookupBackend Notions.

Variable O : Oracles.
Variables m1 m2 : Model.

(** The two models have the same schema: the resolver answers alike, and
    both have [accessible_pk_qs] or neither has. *)
Hypothesis same_paths :
  forall (path : string) (t : bool),
    get_fields_from_path O m1 path t = get_fields_from_path O m2 path t.
Hypothesis same_capability : accessible_pk_qs m1 = accessible_pk_qs m2.

(** Both are called [User] or neither is, and likewise for [JobEvent]. *)
Hypothesis same_user :
  String.eqb (object_name m1) "User" = String.eqb (object_name m2) "User".
Hypothesis same_job_event :
  String.eqb (object_name m1) "JobEvent" = String.eqb (object_name m2) "JobEvent".

Lemma get_fields_from_lookup_same (lookup : string) :
  get_fields_from_lookup O m1 lookup = get_fields_from_lookup O m2 lookup.
Proof.
  unfold get_fields_from_lookup.
  destruct (if contains "__" lookup
               && in_tuple (List.last (rsplit1 "__" lookup) EmptyString) SUPPORTED_LOOKUPS
            then match rsplit1 "__" lookup with
                 | [path; suffix] => Ok (path, suffix)
                 | _ => Raise (ValueError "not enough values to unpack")
                 end
            else Ok (lookup, "exact")) as [[path suffix]|e]; cbn [bind]; [|reflexivity].
  destruct (is_empty path); [reflexivity|]. now rewrite same_paths.
Qed.

Lemma value_to_python_same (lookup : string) (value : qvalue) :
  value_to_python O m1 lookup value = value_to_python O m2 lookup value.
Proof. unfold value_to_python. now rewrite get_fields_from_lookup_same. Qed.

Lemma for_each_retarget {A : Type} (f1 f2 : State -> A -> result State) :
  (forall st x, f2 (retarget m2 st) x = result_map (retarget m2) (f1 st x)) ->
  forall l st,
    for_each f2 l (retarget m2 st) = result_map (retarget m2) (for_each f1 l st).
Proof.
  intros Hf l. induction l as [|x l IH]; intros st; [reflexivity|].
  cbn [for_each]. rewrite Hf. destruct (f1 st x); cbn [result_map bind]; auto.
Qed.

Lemma cast_as_txt_retarget (new_key : string) (st : State) :
  cast_as_txt new_key (retarget m2 st)
  = result_map (retarget m2) (cast_as_txt new_key st).
Proof.
  unfold cast_as_txt. destruct (contains "_as_txt" new_key); [|reflexivity].
  destruct (find (endswith "_as_txt") (split "__" new_key)); reflexivity.
Qed.

Lemma convert_value_retarget (key : string) (q_int q_chain q_or q_not : bool)
  (st : State) (v : string) :
  convert_value O m2 key q_int q_chain q_or q_not (retarget m2 st) v
  = result_map (retarget m2) (convert_value O m1 key q_int q_chain q_or q_not st v).
Proof.
  unfold convert_value.
  destruct (if q_int
            then match py_int O v with
                 | Some z => Ok (QInt z)
                 | None => Raise (ValueError ("invalid literal for int() with base 10: '" +:+ v +:+ "'"))
                 end
            else Ok (QStr v)) as [value|e]; cbn [bind]; [|reflexivity].
  rewrite <- value_to_python_same.
  destruct (value_to_python O m1 key value) as [[[pv new_key] distinct]|e];
    cbn [bind]; [|reflexivity].
  destruct new_key as [new_key|new_keys].
  - assert (Hd : (if distinct then set_needs_distinct (retarget m2 st) else retarget m2 st)
                 = retarget m2 (if distinct then set_needs_distinct st else st))
      by now destruct distinct.
    rewrite Hd, cast_as_txt_retarget.
    destruct (cast_as_txt new_key (if distinct then set_needs_distinct st else st));
      cbn [bind result_map]; [|reflexivity].
    destruct q_chain, q_or; reflexivity.
  - destruct (in_tuple "_as_txt" new_keys); reflexivity.
Qed.

Lemma search_value_retarget (key : string) (st : State) (v : string) :
  search_value O m2 key (retarget m2 st) v
  = result_map (retarget m2) (search_value O m1 key st v).
Proof.
  unfold search_value. rewrite <- value_to_python_same.
  destruct (value_to_python O m1 key (QStr (force_str (QStr v))))
    as [[[pv new_key] distinct]|e]; cbn [bind]; [|reflexivity].
  destruct new_key; [reflexivity|]. destruct pv; reflexivity.
Qed.

Lemma process_param_retarget (st : State) (param : string * list string) :
  process_param O m2 (retarget m2 st) param
  = result_map (retarget m2) (process_param O m1 st param).
Proof.
  destruct param as [key values]. unfold process_param.
  rewrite <- same_user, <- same_job_event.
  destruct (in_tuple key (reserved_names O)); [reflexivity|].
  set (key1 := if String.eqb (object_name m1) "User" && startswith "created" key
               then replace "created" "date_joined" key else key).
  destruct (String.eqb (object_name m1) "JobEvent" && startswith "hosts__name" key1).
  - set (key2 := replace "hosts__name" "or__host__name" key1).
    change (add_or (false, "host__name__isnull", PyBool true) (retarget m2 st))
      with (retarget m2 (add_or (false, "host__name__isnull", PyBool true) st)).
    generalize (add_or (false, "host__name__isnull", PyBool true) st). intros st2.
    destruct (endswith "__int" key2).
    + destruct (String.eqb (drop_end 5 key2) "role_level").
      { destruct values; reflexivity. }
      destruct (endswith "__search" (drop_end 5 key2)).
      * destruct values as [|v0 vs].
        { reflexivity. }
        destruct (contains "," v0).
        -- change (set_relation AND (retarget m2 st2))
             with (retarget m2 (set_relation AND st2)).
           rewrite (for_each_retarget _ _ (search_value_retarget _)).
           destruct (for_each (search_value O m1 (drop_end 5 key2))
                       (flat_map (split ",") (v0 :: vs)) (set_relation AND st2));
             reflexivity.
        -- rewrite (for_each_retarget _ _ (search_value_retarget _)).
           destruct (for_each (search_value O m1 (drop_end 5 key2)) (v0 :: vs) st2);
             reflexivity.
      * destruct (if startswith "chain__" (drop_end 5 key2)
                  then (drop 7 (drop_end 5 key2), true, false)
                  else if startswith "or__" (drop_end 5 key2)
                       then (drop 4 (drop_end 5 key2), false, true)
                       else (drop_end 5 key2, false, false)) as [[k q_chain] q_or].
        destruct (if startswith "not__" k then (drop 5 k, true) else (k, false))
          as [k' q_not].
        apply (for_each_retarget _ _ (convert_value_retarget _ _ _ _ _)).
    + destruct (String.eqb key2 "role_level").
      { destruct values; reflexivity. }
      destruct (endswith "__search" key2).
      * destruct values as [|v0 vs].
        { reflexivity. }
        destruct (contains "," v0).
        -- change (set_relation AND (retarget m2 st2))
             with (retarget m2 (set_relation AND st2)).
           rewrite (for_each_retarget _ _ (search_value_retarget _)).
           destruct (for_each (search_value O m1 key2)
                       (flat_map (split ",") (v0 :: vs)) (set_relation AND st2));
             reflexivity.
        -- rewrite (for_each_retarget _ _ (search_value_retarget _)).
           destruct (for_each (search_value O m1 key2) (v0 :: vs) st2); reflexivity.
      * destruct (if startswith "chain__" key2
                  then (drop 7 key2, true, false)
                  else if startswith "or__" key2
                       then (drop 4 key2, false, true)
                       else (key2, false, false)) as [[k q_chain] q_or].
        destruct (if startswith "not__" k then (drop 5 k, true) else (k, false))
          as [k' q_not].
        apply (for_each_retarget _ _ (convert_value_retarget _ _ _ _ _)).
  - generalize key1. intros key2. generalize st. intros st2.
    destruct (endswith "__int" key2).
    + destruct (String.eqb (drop_end 5 key2) "role_level").
      { destruct values; reflexivity. }
      destruct (endswith "__search" (drop_end 5 key2)).
      * destruct values as [|v0 vs].
        { reflexivity. }
        destruct (contains "," v0).
        -- change (set_relation AND (retarget m2 st2))
             with (retarget m2 (set_relation AND st2)).
           rewrite (for_each_retarget _ _ (search_value_retarget _)).
           destruct (for_each (search_value O m1 (drop_end 5 key2))
                       (flat_map (split ",") (v0 :: vs)) (set_relation AND st2));
             reflexivity.
        -- rewrite (for_each_retarget _ _ (search_value_retarget _)).
           destruct (for_each (search_value O m1 (drop_end 5 key2)) (v0 :: vs) st2);
             reflexivity.
      * destruct (if startswith "chain__" (drop_end 5 key2)
                  then (drop 7 (drop_end 5 key2), true, false)
                  else if startswith "or__" (drop_end 5 key2)
                       then (drop 4 (drop_end 5 key2), false, true)
                       else (drop_end 5 key2, false, false)) as [[k q_chain] q_or].
        destruct (if startswith "not__" k then (drop 5 k, true) else (k, false))
          as [k' q_not].
        apply (for_each_retarget _ _ (convert_value_retarget _ _ _ _ _)).
    + destruct (String.eqb key2 "role_level").
      { destruct values; reflexivity. }
      destruct (endswith "__search" key2).
      * destruct values as [|v0 vs].
        { reflexivity. }
        destruct (contains "," v0).
        -- change (set_relation AND (retarget m2 st2))
             with (retarget m2 (set_relation AND st2)).
           rewrite (for_each_retarget _ _ (search_value_retarget _)).
           destruct (for_each (search_value O m1 key2)
                       (flat_map (split ",") (v0 :: vs)) (set_relation AND st2));
             reflexivity.
        -- rewrite (for_each_retarget _ _ (search_value_retarget _)).
           destruct (for_each (search_value O m1 key2) (v0 :: vs) st2); reflexivity.
      * destruct (if startswith "chain__" key2
                  then (drop 7 key2, true, false)
                  else if startswith "or__" key2
                       then (drop 4 key2, false, true)
                       else (key2, false, false)) as [[k q_chain] q_or].
        destruct (if startswith "not__" k then (drop 5 k, true) else (k, false))
          as [k' q_not].
        apply (for_each_retarget _ _ (convert_value_retarget _ _ _ _ _)).
Qed.

Lemma chain_fold_retarget (l : list LookupExpression) (qs : QuerySet) :
  fold_left (fun q e => qs_filter [q_of e] q) l (retarget_qs m2 qs)
  = retarget_qs m2 (fold_left (fun q e => qs_filter [q_of e] q) l qs).
Proof.
  revert qs. induction l as [|e l IH]; intros qs; [reflexivity|].
  cbn [fold_left]. rewrite <- IH. reflexivity.
Qed.

Lemma search_fold_retarget (l : list (string * list string)) (qs : QuerySet) :
  fold_left (fun q '(term, constrains) => qs_filter [q_term term constrains] q)
            l (retarget_qs m2 qs)
  = retarget_qs m2
      (fold_left (fun q '(term, constrains) => qs_filter [q_term term constrains] q) l qs).
Proof.
  revert qs. induction l as [|[t c] l IH]; intros qs; [reflexivity|].
  cbn [fold_left]. rewrite <- IH. reflexivity.
Qed.

Lemma build_retarget (st : State) :
  accessible_pk_qs (qs_model (queryset st)) = accessible_pk_qs m2 ->
  build (retarget m2 st) = result_map (retarget_qs m2) (build st).
Proof.
  intros Ha. unfold build.
  change (and_filters (retarget m2 st)) with (and_filters st).
  change (or_filters (retarget m2 st)) with (or_filters st).
  change (chain_filters (retarget m2 st)) with (chain_filters st).
  change (role_filters (retarget m2 st)) with (role_filters st).
  change (search_filters (retarget m2 st)) with (search_filters st).
  change (needs_distinct (retarget m2 st)) with (needs_distinct st).
  change (search_filter_relation (retarget m2 st)) with (search_filter_relation st).
  change (queryset (retarget m2 st)) with (retarget_qs m2 (queryset st)).
  change (qs_model (retarget_qs m2 (queryset st))) with m2. rewrite Ha.
  destruct (negb (is_nil (and_filters st)) || negb (is_nil (or_filters st))
            || negb (is_nil (chain_filters st)) || negb (is_nil (role_filters st))
            || negb (is_nil (search_filters st))); [|reflexivity].
  destruct (negb (is_nil (role_filters st)) && negb (accessible_pk_qs m2));
    cbn [bind result_map].
  { unfold call_underscore.
    change (search_filters (retarget m2 st)) with (search_filters st).
    now destruct (is_nil (search_filters st)). }
  destruct (negb (is_nil (or_filters st)));
    destruct (negb (is_nil (search_filters st)));
    try destruct (search_filter_relation st);
    rewrite ?search_fold_retarget, ?chain_fold_retarget;
    destruct (needs_distinct st); reflexivity.
Qed.

Lemma filter_tree_retarget (qs : QuerySet) :
  filter_tree (retarget_qs m2 qs) = filter_tree qs.
Proof. reflexivity. Qed.

(** C8, as the code has it: for two models with the same schema that
    are both called [User] or both not, and both called [JobEvent] or both
    not, the same parameters give the same annotations, the same [filter]
    calls and the same [distinct], or the same failure. *)
Theorem same_filters_unless_user_or_job_event
  (query_params : list (string * list string)) :
  result_map filter_tree (filter_queryset O query_params (all_objects m1))
  = result_map filter_tree (filter_queryset O query_params (all_objects m2)).
Proof.
  unfold filter_queryset, compile_params.
  change (initial_state (all_objects m2))
    with (retarget m2 (initial_state (all_objects m1))).
  change (qs_model (all_objects m1)) with m1.
  change (qs_model (all_objects m2)) with m2.
  rewrite (for_each_retarget _ _ process_param_retarget).
  destruct (for_each (process_param O m1) query_params (initial_state (all_objects m1)))
    as [st|e] eqn:E; cbn [bind result_map]; [|reflexivity].
  apply loop_role_values in E as [_ Hm]. cbn in Hm.
  rewrite build_retarget by (now rewrite Hm).
  destruct (build st); reflexivity.
Qed.

End ModelNameFacts.

(** ** The user field mapping *)

Section UserFacts.

Import UserProvisioner.

Lemma update_field_lookup (claims user_attrs : gmap string Value) (g f : string) :
  update_field claims user_attrs g !! f =
    if decide (g = f) then
      match user_attrs !! g, claims !! g with
      | Some _, Some new => Some new
      | _, _ => user_attrs !! f
      end
    else user_attrs !! f.
Proof.
  unfold update_field.
  destruct (user_attrs !! g) as [old|] eqn:Eu; destruct (claims !! g) as [new|] eqn:Ec;
    destruct (decide (g = f)) as [->|Hne]; try reflexivity.
  - apply lookup_insert_eq.
  - now apply lookup_insert_ne.
Qed.

(** A field that already has the value of its claim keeps it. *)
Lemma mapped_fields_keep (claims : gmap string Value) (mapped : list string)
  (user_attrs : gmap string Value) (f : string) (new : Value) :
  user_attrs !! f = Some new -> claims !! f = Some new ->
  fold_left (update_field claims) mapped user_attrs !! f = Some new.
Proof.
  revert user_attrs. induction mapped as [|g mapped IH]; intros user_attrs Hu Hc; [exact Hu|].
  cbn [fold_left]. apply IH; [|exact Hc].
  rewrite update_field_lookup. destruct (decide (g = f)) as [->|_]; [|exact Hu].
  now rewrite Hu, Hc.
Qed.

(** A mapped field that the user and the claims both have ends with the
    value of the claim. *)
Lemma mapped_fields_updated (claims : gmap string Value) (mapped : list string)
  (user_attrs : gmap string Value) (f : string) (new : Value) :
  In f mapped -> is_Some (user_attrs !! f) -> claims !! f = Some new ->
  fold_left (update_field claims) mapped user_attrs !! f = Some new.
Proof.
  revert user_attrs. induction mapped as [|g mapped IH]; intros user_attrs Hin Hu Hc;
    [contradiction|].
  cbn [fold_left]. destruct Hin as [->|Hin].
  - apply mapped_fields_keep; [|exact Hc].
    rewrite update_field_lookup. destruct (decide (f = f)); [|congruence].
    destruct Hu as [old Hu]. now rewrite Hu, Hc.
  - apply IH; [exact Hin| |exact Hc].
    rewrite update_field_lookup. destruct (decide (g = f)) as [->|_]; [|exact Hu].
    destruct Hu as [old Hu]. rewrite Hu, Hc. eauto.
Qed.

(** The mapping makes no field appear. *)
Lemma mapped_fields_presence (claims : gmap string Value) (mapped : list string)
  (user_attrs : gmap string Value) (f : string) :
  is_Some (fold_left (update_field claims) mapped user_attrs !! f) ->
  is_Some (user_attrs !! f).
Proof.
  revert user_attrs. induction mapped as [|g mapped IH]; intros user_attrs H; [exact H|].
  cbn [fold_left] in H. apply IH in H.
  rewrite update_field_lookup in H. destruct (decide (g = f)) as [->|_]; [|exact H].
  destruct (user_attrs !! f); [eauto|]. destruct (claims !! f); exact H.
Qed.

Lemma differs_true (user_attrs claims : gmap string Value) (f : string) :
  differs user_attrs claims f = true <->
  exists old new, user_attrs !! f = Some old /\ claims !! f = Some new /\ old <> new.
Proof.
  unfold differs. destruct (user_attrs !! f) as [old|]; destruct (claims !! f) as [new|].
  - rewrite negb_true_iff, bool_decide_eq_false. split.
    + intros H. now exists old, new.
    + intros (o & n & Ho & Hn & Hne). congruence.
  - split; [discriminate|]. intros (o & n & _ & Hn & _). discriminate.
  - split; [discriminate|]. intros (o & n & Ho & _ & _). discriminate.
  - split; [discriminate|]. intros (o & n & Ho & _ & _). discriminate.
Qed.

Lemma no_field_differs (mapped : list string) (user_attrs claims : gmap string Value) :
  (forall f old new, In f mapped -> user_attrs !! f = Some old ->
                     claims !! f = Some new -> old = new) ->
  existsb (differs user_attrs claims) mapped = false.
Proof.
  intros H. destruct (existsb (differs user_attrs claims) mapped) eqn:E; [|reflexivity].
  apply existsb_exists in E as (f & Hin & Hd).
  apply differs_true in Hd as (old & new & Ho & Hn & Hne).
  exfalso. apply Hne. eauto.
Qed.

(** C7: when a mapped field that the user and the claims both have
    differs, the user is saved once and every such field has the value of
    its claim afterwards; when none differs nothing is saved and the user is
    as before; mapping the same claims again saves nothing more. *)
Theorem map_user_fields_saves_once (mapped : list string) (user : Principal)
  (claims : gmap string Value) :
  ((exists f old new, In f mapped /\ attrs user !! f = Some old
                      /\ claims !! f = Some new /\ old <> new) ->
   saves (map_user_fields mapped user claims) = S (saves user)
   /\ (forall f new, In f mapped -> is_Some (attrs user !! f) ->
                     claims !! f = Some new ->
                     attrs (map_user_fields mapped user claims) !! f = Some new))
  /\ ((forall f old new, In f mapped -> attrs user !! f = Some old ->
                         claims !! f = Some new -> old = new) ->
      map_user_fields mapped user claims = user)
  /\ saves (map_user_fields mapped (map_user_fields mapped user claims) claims)
     = saves (map_user_fields mapped user claims).
Proof.
  split; [|split].
  - intros (f & old & new & Hin & Ho & Hn & Hne).
    assert (E : existsb (differs (attrs user) claims) mapped = true).
    { apply existsb_exists. exists f. split; [exact Hin|].
      apply differs_true. now exists old, new. }
    unfold map_user_fields. rewrite E. cbn. split; [reflexivity|].
    intros g c Hg Hu Hc. now apply mapped_fields_updated.
  - intros H. unfold map_user_fields. now rewrite (no_field_differs _ _ _ H).
  - unfold map_user_fields at 1.
    rewrite no_field_differs; [reflexivity|].
    intros f old new Hin Ho Hn. unfold map_user_fields in Ho.
    destruct (existsb (differs (attrs user) claims) mapped) eqn:E.
    + cbn in Ho.
      assert (Hp : is_Some (attrs user !! f)).
      { apply (mapped_fields_presence claims mapped). rewrite Ho. eauto. }
      rewrite (mapped_fields_updated claims mapped (attrs user) f new Hin Hp Hn) in Ho.
      congruence.
    + destruct (decide (old = new)) as [|Hne]; [assumption|].
      assert (Hd : existsb (differs (attrs user) claims) mapped = true).
      { apply existsb_exists. exists f. split; [exact Hin|].
        apply differs_true. now exists old, new. }
      congruence.
Qed.

End UserFacts.

(** ** The key resolution protocol *)

Section KeyFacts.

Import KeyResolution.

Variable validate : Token -> Key -> ValidationFailure + Claims.
Variable fetch : SourceId -> option Key.

(** Three transitions always reach a final state: there is no loop. *)
Lemma resolve_is_final (token : Token) (source : option SourceId)
  (key_cache : gmap SourceId Key) :
  is_final (resolve validate fetch token source key_cache) = true.
Proof.
  unfold resolve, run, step. cbn [state cache fetched validated].
  destruct source as [src|]; [|reflexivity].
  destruct (key_cache !! src) as [key|]; cbn [state cache fetched validated].
  - destruct (validate token key) as [[m|m]|claims];
      cbn [state cache fetched validated]; try reflexivity.
    destruct (fetch src) as [fresh|]; [|reflexivity].
    destruct (validate token fresh) as [[m'|m']|claims]; reflexivity.
  - destruct (fetch src) as [fresh|]; [|reflexivity].
    destruct (validate token fresh) as [[m'|m']|claims]; reflexivity.
Qed.

(** C1, as the model of the spec has it: when the token does not decode
    under the fresh key, after no key was cached or after the cached key
    failed to decode the token, the authentication fails after one fetch of
    the key and one validation with it; the message is the one for a key
    that was not cached in the first case, and the one for a cached key
    that was correct when the fresh key is the cached one. *)
Theorem fresh_key_failure_message (token : Token) (src : SourceId)
  (key_cache : gmap SourceId Key) (fresh : Key) (reason : string) :
  fetch src = Some fresh ->
  validate token fresh = inl (DecodeFailure reason) ->
  (key_cache !! src = None
   \/ exists old m, key_cache !! src = Some old
                    /\ validate token old = inl (DecodeFailure m)) ->
  exists msg : string,
    outcome (resolve validate fetch token (Some src) key_cache)
    = Some (AuthenticationFailed msg)
    /\ fetched (resolve validate fetch token (Some src) key_cache) = [fresh]
    /\ List.hd_error (validated (resolve validate fetch token (Some src) key_cache))
       = Some fresh
    /\ (key_cache !! src = None ->
        validated (resolve validate fetch token (Some src) key_cache) = [fresh]
        /\ msg = NOT_CACHED_MESSAGE
        /\ PyStr.contains "check your key and generated token" msg = true
        /\ PyStr.contains "cached key was correct" msg = false)
    /\ (key_cache !! src = Some fresh ->
        validated (resolve validate fetch token (Some src) key_cache) = [fresh; fresh]
        /\ msg = CACHED_CORRECT_MESSAGE
        /\ PyStr.contains "check your key and generated token" msg = true
        /\ PyStr.contains "cached key was correct" msg = true).
Proof.
  intros Hf Hv Hc. unfold resolve, run, step. cbn [state cache fetched validated].
  destruct Hc as [Hn|(old & m & Ho & Hd)].
  - rewrite Hn. cbn [state cache fetched validated]. rewrite Hf, Hv.
    cbn [state cache fetched validated outcome].
    exists NOT_CACHED_MESSAGE.
    split; [reflexivity|]. split; [reflexivity|]. split; [reflexivity|]. split.
    + intros _. repeat split.
    + intros E. congruence.
  - rewrite Ho. cbn [state cache fetched validated]. rewrite Hd.
    cbn [state cache fetched validated]. rewrite Hf, Hv.
    cbn [state cache fetched validated outcome].
    eexists.
    split; [reflexivity|]. split; [reflexivity|]. split; [reflexivity|]. split.
    + intros E. congruence.
    + intros E. assert (old = fresh) as -> by congruence.
      rewrite String.eqb_refl. repeat split.
Qed.

End KeyFacts.

(** * The backend on a small schema *)

Section Runs.

Import PyStr FieldLookupBackend Notions.

(** "[compile] for input [name__icontains=bob] on a text field [name]
    yields one AND leaf, [needsDistinct=false]." *)
Example name_icontains_bob :
  compile_params Toy.oracles (all_objects Toy.team) [("name__icontains", ["bob"])]
  = Ok (mkState [(false, "name__icontains", PyStr "bob")] [] [] [] [] false OR
          (all_objects Toy.team)).
Proof. vm_compute. reflexivity. Qed.

Example count_in_one_two_three :
  result_map filter_tree
    (filter_queryset Toy.oracles [("count__in", ["1,2,3"])] (all_objects Toy.team))
  = Ok ([], [[Q_leaf "count__in" (PyList [PyInt 1; PyInt 2; PyInt 3])]], false).
Proof. vm_compute. reflexivity. Qed.

Example count_in_empty :
  filter_queryset Toy.oracles [("count__in", [EmptyString])] (all_objects Toy.team)
  = Raise (ParseError "cannot provide empty value for __in").
Proof. vm_compute. reflexivity. Qed.

Example tags_search_with_comma :
  result_map filter_tree
    (filter_queryset Toy.oracles [("organization__search", ["x,y"])] (all_objects Toy.team))
  = Ok ([],
        [ [Q_or (Q_leaf "organization__name__icontains" (PyStr "x"))
                (Q_leaf "organization__description__icontains" (PyStr "x"))];
          [Q_or (Q_leaf "organization__name__icontains" (PyStr "y"))
                (Q_leaf "organization__description__icontains" (PyStr "y"))];
          [] ],
        true).
Proof. vm_compute. reflexivity. Qed.

Example chain_then_not :
  compile_params Toy.oracles (all_objects Toy.team) [("chain__not__name", ["bob"])]
  = Ok (mkState [] [] [(true, "name__exact", PyStr "bob")] [] [] false OR
          (all_objects Toy.team)).
Proof. vm_compute. reflexivity. Qed.

(** [or__] behind [chain__] is taken for the name of a field. *)
Example chain_then_or :
  filter_queryset Toy.oracles [("chain__or__name", ["bob"])] (all_objects Toy.team)
  = Raise (ParseError "The model has no field named 'or'").
Proof. vm_compute. reflexivity. Qed.

(** The role error on a model without [accessible_pk_qs]: the call of the
    local [_] fails before the error is made. *)
Example role_level_without_capability :
  filter_queryset Toy.oracles [("role_level", ["admin"])] (all_objects Toy.log_entry)
  = Raise UnboundLocalError.
Proof. vm_compute. reflexivity. Qed.

Example role_level_without_capability_after_search :
  filter_queryset Toy.oracles
    [("organization__search", ["x"]); ("role_level", ["admin"])]
    (all_objects Toy.log_entry)
  = Raise (ParseError "'bool' object is not callable").
Proof. vm_compute. reflexivity. Qed.

Example polymorphic_type_name :
  result_map filter_tree
    (filter_queryset Toy.oracles [("polymorphic_ctype__model", ["job_template"])]
       (all_objects Toy.team))
  = Ok ([], [[Q_leaf "polymorphic_ctype__model__exact" (PyStr "jobtemplate")]], true).
Proof. vm_compute. reflexivity. Qed.

(** A key that is a supported operator and nothing else is a field name. *)
Example bare_operator_is_a_field :
  get_fields_from_lookup Toy.oracles Toy.team "in"
  = resolve_with Toy.oracles Toy.team "in" "exact".
Proof. reflexivity. Qed.

End Runs.

(** * Where the code departs from a statement *)

Section Departures.

Import PyStr FieldLookupBackend Notions.

(** C2: a comma in a value that is not the first one is not looked at:
    the value is one term and the relation stays OR. *)
Lemma comma_in_later_value_not_split :
  exists st : State,
    compile_params Toy.oracles (all_objects Toy.team)
      [("organization__search", ["a"; "b,c"])] = Ok st
    /\ search_filter_relation st = OR
    /\ map fst (search_filters st) = ["a"; "b,c"].
Proof. eexists. split; [vm_compute; reflexivity|]. split; reflexivity. Qed.


(** C4: of two values of [role_level] the second one is no constraint. *)
Lemma second_role_level_value_dropped :
  exists qs : QuerySet,
    filter_queryset Toy.oracles [("role_level", ["admin"; "member"])]
      (all_objects Toy.team) = Ok qs
    /\ filter_calls qs = [[Q_pk_in_accessible "admin"]]
    /\ ~ In (Q_pk_in_accessible "member") (concat (filter_calls qs)).
Proof.
  eexists. split; [vm_compute; reflexivity|]. split; [reflexivity|].
  cbn. intros [H|[]]. discriminate.
Qed.


(** C8: two models with the same fields, one of them called [User]: the
    key [created] is rewritten for that one alone. *)
Lemma user_model_rewrites_created :
  fields Toy.team = fields Toy.user
  /\ accessible_pk_qs Toy.team = accessible_pk_qs Toy.user
  /\ result_map filter_tree
       (filter_queryset Toy.oracles [("created", ["x"])] (all_objects Toy.team))
     <> result_map filter_tree
          (filter_queryset Toy.oracles [("created", ["x"])] (all_objects Toy.user)).
Proof.
  split; [reflexivity|]. split; [reflexivity|].
  vm_compute. intros H. discriminate.
Qed.

(** C9: a key made of the prefixes [not__] and [chain__] in this order
    leaves the path [chain__], which goes to the schema. *)
Lemma not_chain_prefixes_are_resolved :
  filter_queryset Toy.oracles [("not__chain__", ["x"])] (all_objects Toy.team)
  = Raise (ParseError "The model has no field named 'chain'")
  /\ filter_queryset Toy.oracles [("not__chain__", ["x"])] (all_objects Toy.team)
     <> Raise (ParseError FIELD_NAME_NOT_PROVIDED).
Proof. split; [vm_compute; reflexivity|]. vm_compute. intros H. discriminate. Qed.

End Departures.

(** C1: nothing is cached and the token has expired.  The key is
    fetched once and the token fails under it, and the failure is the
    validator's expiry error: its message is neither of the two messages
    about the key. *)
Lemma expired_token_keeps_expiry_message :
  KeyResolution.fetched
    (KeyResolution.resolve
       (fun _ _ => inl (KeyResolution.ClaimFailure "JWT has expired"))
       (fun _ => Some "key") "token" (Some "src") ∅)
  = ["key"]
  /\ KeyResolution.validated
       (KeyResolution.resolve
          (fun _ _ => inl (KeyResolution.ClaimFailure "JWT has expired"))
          (fun _ => Some "key") "token" (Some "src") ∅)
     = ["key"]
  /\ KeyResolution.outcome
       (KeyResolution.resolve
          (fun _ _ => inl (KeyResolution.ClaimFailure "JWT has expired"))
          (fun _ => Some "key") "token" (Some "src") ∅)
     = Some (KeyResolution.AuthenticationFailed "JWT has expired")
  /\ PyStr.contains "check your key and generated token" "JWT has expired" = false.
Proof. repeat split; vm_compute; reflexivity. Qed.

(** * The test-suite on the models *)

Section Tests.

Import KeyResolution UserProvisioner.

(** [test_raise_an_exception_if_the_key_is_not_cached] *)
Example key_not_cached :
  outcome (resolve (fun _ _ => inl (DecodeFailure "Signature verification failed"))
             (fun _ => Some "random") "token" (Some "src") ∅)
  = Some (AuthenticationFailed NOT_CACHED_MESSAGE).
Proof. vm_compute. reflexivity. Qed.

(** [test_raise_an_exception_if_the_key_is_cached_but_the_new_key_is_the_same] *)
Example key_cached_and_new_key_the_same :
  outcome (resolve (fun _ _ => inl (DecodeFailure "Signature verification failed"))
             (fun _ => Some "random") "token" (Some "https://example.com")
             {[ "https://example.com" := "random" ]})
  = Some (AuthenticationFailed CACHED_CORRECT_MESSAGE).
Proof. vm_compute. reflexivity. Qed.

(** [test_correctly_authenticate_if_the_cached_key_is_invalid_but_the_new_key_is_correct] *)
Example cached_key_invalid_new_key_correct :
  outcome (resolve (fun _ key => if String.eqb key "good"
                                 then inr [("sub", "bob")]
                                 else inl (DecodeFailure "Signature verification failed"))
             (fun _ => Some "good") "token" (Some "https://example.com")
             {[ "https://example.com" := "random" ]})
  = Some (Authenticated [("sub", "bob")]).
Proof. vm_compute. reflexivity. Qed.

(** A token that the cached key decodes but whose claims are refused
    fails at once: no key is fetched. *)
Example claim_failure_under_cached_key :
  fetched (resolve (fun _ _ => inl (ClaimFailure "JWT has expired"))
             (fun _ => Some "key") "token" (Some "src") {[ "src" := "key" ]})
  = []
  /\ outcome (resolve (fun _ _ => inl (ClaimFailure "JWT has expired"))
                (fun _ => Some "key") "token" (Some "src") {[ "src" := "key" ]})
     = Some (AuthenticationFailed "JWT has expired").
Proof. split; vm_compute; reflexivity. Qed.

(** [test_parse_jwt_no_jwt_key] *)
Example no_key_source :
  outcome (resolve (fun _ _ => inl (DecodeFailure "Not enough segments"))
             (fun _ => None) "token" None ∅)
  = Some Skipped.
Proof. vm_compute. reflexivity. Qed.

(** [test_map_user_fields], in the order of its parameters: the number
    of saves is [1] where [should_save] is [True] and [0] where it is
    [False]. *)
Example map_user_fields_everything_the_same :
  saves (map_user_fields default_mapped_user_fields
           (mock_user [("first_name", VStr "Cindy"); ("last_name", VStr "Lou")])
           cindy_lou) = 0.
Proof. vm_compute. reflexivity. Qed.

Example map_user_fields_old_data :
  saves (map_user_fields default_mapped_user_fields
           (mock_user [("first_name", VStr "Cindy"); ("last_name", VStr "Liu")])
           cindy_lou) = 1.
Proof. vm_compute. reflexivity. Qed.

Example map_user_fields_multiple_properties :
  saves (map_user_fields default_mapped_user_fields
           (mock_user [("first_name", VStr "Billy"); ("last_name", VStr "Bob")])
           cindy_lou) = 1.
Proof. vm_compute. reflexivity. Qed.

Example map_user_fields_extra_in_user :
  saves (map_user_fields default_mapped_user_fields
           (mock_user [("first_name", VStr "Cindy"); ("last_name", VStr "Lou");
                       ("email", VStr "test")])
           cindy_lou) = 0.
Proof. vm_compute. reflexivity. Qed.

Example map_user_fields_extra_in_user_and_old_data :
  saves (map_user_fields default_mapped_user_fields
           (mock_user [("first_name", VStr "Billy"); ("last_name", VStr "Bob");
                       ("email", VStr "test")])
           cindy_lou) = 1.
Proof. vm_compute. reflexivity. Qed.

Example map_user_fields_new_in_token :
  saves (map_user_fields default_mapped_user_fields
           (mock_user [("first_name", VStr "Cindy"); ("last_name", VStr "Lou")])
           (<["email" := VStr "test"]> cindy_lou)) = 1.
Proof. vm_compute. reflexivity. Qed.

End Tests.

(** * The theorems at concrete inputs *)

Section Instances.

Import PyStr FieldLookupBackend Notions.

Lemma fresh_key_failure_message_witness :
  exists msg : string,
    KeyResolution.outcome
      (KeyResolution.resolve
         (fun _ _ => inl (KeyResolution.DecodeFailure "Signature verification failed"))
         (fun _ => Some "random") "token" (Some "src") {[ "src" := "random" ]})
    = Some (KeyResolution.AuthenticationFailed msg)
    /\ KeyResolution.fetched
         (KeyResolution.resolve
            (fun _ _ => inl (KeyResolution.DecodeFailure "Signature verification failed"))
            (fun _ => Some "random") "token" (Some "src") {[ "src" := "random" ]})
       = ["random"]
    /\ contains "cached key was correct" msg = true.
Proof.
  destruct (fresh_key_failure_message
              (fun _ _ => inl (KeyResolution.DecodeFailure "Signature verification failed"))
              (fun _ => Some "random") "token" "src" {[ "src" := "random" ]} "random"
              "Signature verification failed" eq_refl eq_refl)
    as (msg & Ho & Hf & _ & _ & Hc).
  - right. exists "random", "Signature verification failed".
    split; [vm_compute; reflexivity|reflexivity].
  - exists msg. split; [exact Ho|]. split; [exact Hf|].
    destruct Hc as (_ & _ & _ & Hm); [vm_compute; reflexivity|exact Hm].
Defined.

Lemma search_parameter_witness :
  exists st' : State,
    process_param Toy.oracles Toy.team (initial_state (all_objects Toy.team))
      ("organization__search", ["x,y"]) = Ok st'
    /\ needs_distinct st' = true
    /\ search_filter_relation st' = AND
    /\ dict_get "y" (search_filters st')
       = Some ["organization__name__icontains"; "organization__description__icontains"].
Proof.
  destruct (search_parameter Toy.oracles Toy.team (initial_state (all_objects Toy.team))
              "organization" ["x,y"]
              [mkField "organization" ForeignKey (Some Toy.organization)]
              "organization"
              (mkField "organization" ForeignKey (Some Toy.organization)))
    as (_ & H & _); try reflexivity.
  destruct (H Toy.organization eq_refl) as (st' & Hp & _ & Hd & Hr & Ht).
  exists st'. split; [exact Hp|]. split; [exact Hd|]. split; [exact Hr|].
  apply (Ht "y"). simpl. right. left. reflexivity.
Defined.


Lemma role_level_filter_witness :
  exists (qs' : QuerySet) (rest : list Q),
    filter_queryset Toy.oracles
      [("name__icontains", ["bob"]); ("role_level", ["admin"])] (all_objects Toy.team)
    = Ok qs'
    /\ List.last (filter_calls qs') []
       = [Q_leaf "name__icontains" (PyStr "bob"); Q_pk_in_accessible "admin"] ++ rest.
Proof.
  destruct (role_level_filter Toy.oracles (all_objects Toy.team)
              [("name__icontains", ["bob"]); ("role_level", ["admin"])]
              (mkState [(false, "name__icontains", PyStr "bob")] [] [] ["admin"] []
                 false OR (all_objects Toy.team)) eq_refl) as (_ & _ & H).
  apply H; [discriminate|reflexivity].
Defined.


Lemma unsupported_suffix_is_field_path_witness :
  (in_tuple (last_segment "name__bogus") SUPPORTED_LOOKUPS = false
   /\ get_fields_from_lookup Toy.oracles Toy.team "name__bogus"
      = resolve_with Toy.oracles Toy.team "name__bogus" "exact")
  /\ get_fields_from_lookup Toy.oracles Toy.team "organization__in__gte"
     = resolve_with Toy.oracles Toy.team "organization__in" "gte".
Proof.
  split; [split; [reflexivity|]|].
  - destruct (unsupported_suffix_is_field_path Toy.oracles Toy.team "name__bogus")
      as [H _].
    apply H. reflexivity.
  - destruct (unsupported_suffix_is_field_path Toy.oracles Toy.team "organization__in__gte")
      as [_ H].
    apply (H "organization__in" "gte"); [|reflexivity].
    simpl. do 11 right. left. reflexivity.
Defined.

Lemma map_user_fields_saves_once_witness :
  UserProvisioner.saves
    (UserProvisioner.map_user_fields UserProvisioner.default_mapped_user_fields
       (UserProvisioner.mock_user
          [("first_name", UserProvisioner.VStr "Cindy");
           ("last_name", UserProvisioner.VStr "Liu")])
       UserProvisioner.cindy_lou) = 1
  /\ UserProvisioner.attrs
       (UserProvisioner.map_user_fields UserProvisioner.default_mapped_user_fields
          (UserProvisioner.mock_user
             [("first_name", UserProvisioner.VStr "Cindy");
              ("last_name", UserProvisioner.VStr "Liu")])
          UserProvisioner.cindy_lou) !! "last_name"
     = Some (UserProvisioner.VStr "Lou").
Proof.
  destruct (map_user_fields_saves_once UserProvisioner.default_mapped_user_fields
              (UserProvisioner.mock_user
                 [("first_name", UserProvisioner.VStr "Cindy");
                  ("last_name", UserProvisioner.VStr "Liu")])
              UserProvisioner.cindy_lou) as (H & _ & _).
  destruct H as [Hs Ha].
  - exists "last_name", (UserProvisioner.VStr "Liu"), (UserProvisioner.VStr "Lou").
    split; [simpl; right; left; reflexivity|].
    split; [vm_compute; reflexivity|]. split; [vm_compute; reflexivity|discriminate].
  - split; [exact Hs|]. apply Ha.
    + simpl. right. left. reflexivity.
    + exists (UserProvisioner.VStr "Liu"). vm_compute. reflexivity.
    + vm_compute. reflexivity.
Defined.

Lemma same_filters_unless_user_or_job_event_witness :
  result_map filter_tree
    (filter_queryset Toy.oracles
       [("created", ["x"]); ("chain__organization__name", ["acme"])] (all_objects Toy.team))
  = result_map filter_tree
      (filter_queryset Toy.oracles
         [("created", ["x"]); ("chain__organization__name", ["acme"])] (all_objects Toy.squad)).
Proof.
  apply (same_filters_unless_user_or_job_event Toy.oracles Toy.team Toy.squad).
  - intros path t. cbn. unfold Toy.get_fields_from_path.
    destruct (split "__" path); reflexivity.
  - reflexivity.
  - reflexivity.
  - reflexivity.
Defined.

Lemma empty_field_path_not_provided_witness :
  filter_queryset Toy.oracles
    ([("name__icontains", ["bob"])] ++ [("chain__not____in", ["x"])]) (all_objects Toy.team)
  = Raise (ParseError FIELD_NAME_NOT_PROVIDED).
Proof.
  apply (empty_field_path_not_provided Toy.oracles (all_objects Toy.team)
           [("name__icontains", ["bob"])] []
           (mkState [(false, "name__icontains", PyStr "bob")] [] [] [] [] false OR
              (all_objects Toy.team))
           "chain__not____in" "x" []).
  - apply in_tuple_In. vm_compute. reflexivity.
  - reflexivity.
  - vm_compute. reflexivity.
Defined.

Lemma underscores_removed_only_for_polymorphic_witness :
  (value_to_python Toy.oracles Toy.team "polymorphic_ctype__model" (QStr "job_template")
   = Ok (PyStr "jobtemplate", Single "polymorphic_ctype__model__exact", true)
   /\ contains "_" "jobtemplate" = false)
  /\ (forall value new_key distinct,
        value_to_python Toy.oracles Toy.team "name__iexact" (QStr "job_template")
        = Ok (value, new_key, distinct) ->
        value = PyStr "job_template"
        \/ (exists b, Toy.to_python_boolean (QStr "job_template") = Ok b
                      /\ value = PyBool b)
        \/ (exists items,
              convert_items Toy.oracles (mkField "name" CharField None)
                (split "," "job_template") = Ok items
              /\ value = PyList items)
        \/ value_to_python_for_field Toy.oracles (mkField "name" CharField None)
             (QStr "job_template") = Ok value).
Proof.
  split.
  - destruct (underscores_removed_only_for_polymorphic Toy.oracles Toy.team
                "polymorphic_ctype__model"
                [mkField "polymorphic_ctype" ForeignKey (Some Toy.content_type);
                 mkField "model" CharField None]
                "polymorphic_ctype__model__exact" (mkField "model" CharField None)
                "job_template" eq_refl eq_refl eq_refl) as [H _].
    exact (H eq_refl).
  - destruct (underscores_removed_only_for_polymorphic Toy.oracles Toy.team
                "name__iexact" [mkField "name" CharField None]
                "name__iexact" (mkField "name" CharField None)
                "job_template" eq_refl eq_refl eq_refl) as [_ H].
    exact (H eq_refl).
Defined.

End Instances.

(** * More of the backend *)

(** ** One turn of the loop, unfolded *)

Section TurnFacts.

Import PyStr FieldLookupBackend Notions.

Variable O : Oracles.

Lemma effective_key_rewritten (model : Model) (key : string) :
  effective_key model key =
    if endswith "__int" (rewritten_key model key)
    then drop_end 5 (rewritten_key model key)
    else rewritten_key model key.
Proof. reflexivity. Qed.

(** A turn is the skip of a reserved key, or the rewrites and the strip of
    [__int] followed by the dispatch on the key that is left. *)
Lemma process_param_unfold (model : Model) (st : State) (key : string)
  (values : list string) :
  process_param O model st (key, values) =
    if in_tuple key (reserved_names O) then Ok st
    else dispatch O model (effective_key model key)
           (endswith "__int" (rewritten_key model key)) values
           (rewritten_state model key st).
Proof.
  unfold process_param, effective_key, rewritten_key, rewritten_state, dispatch.
  destruct (in_tuple key (reserved_names O)); [reflexivity|].
  set (key1 := if String.eqb (object_name model) "User" && startswith "created" key
               then replace "created" "date_joined" key else key).
  destruct (String.eqb (object_name model) "JobEvent" && startswith "hosts__name" key1);
    cbv beta iota zeta;
    match goal with
    | |- context [endswith "__int" ?k] => destruct (endswith "__int" k)
    end;
    match goal with
    | |- context [String.eqb ?k "role_level"] =>
        destruct (String.eqb k "role_level"); [reflexivity|];
        destruct (endswith "__search" k)
    end;
    try (unfold search_terms, search_state;
         destruct values as [|v0 vs]; [reflexivity|];
         destruct (contains "," v0); reflexivity);
    unfold strip_chain_or, strip_not;
    match goal with
    | |- context [startswith "chain__" ?k] =>
        destruct (startswith "chain__" k); [|destruct (startswith "or__" k)]
    end;
    match goal with
    | |- context [startswith "not__" ?k] => destruct (startswith "not__" k)
    end; reflexivity.
Qed.

End TurnFacts.

(** ** What the loop keeps *)

Section Invariants.

Import PyStr FieldLookupBackend Notions.

Variable O : Oracles.
Variable P : State -> Prop.
Hypothesis P_stable : stable P.

Lemma for_each_stable {A : Type} (f : State -> A -> result State) :
  (forall st x st', P st -> f st x = Ok st' -> P st') ->
  forall l st st', P st -> for_each f l st = Ok st' -> P st'.
Proof.
  intros Hf l. induction l as [|x l IH]; intros st st' Hp H; simpl in H.
  - now inversion H; subst.
  - destruct (f st x) as [st1|e] eqn:E; simpl in H; [|discriminate]. eauto.
Qed.

Lemma cast_as_txt_stable (new_key : string) (st st' : State) :
  P st -> cast_as_txt new_key st = Ok st' -> P st'.
Proof.
  destruct P_stable as (_ & _ & _ & _ & _ & _ & _ & Hq).
  unfold cast_as_txt. intros Hp H.
  destruct (contains "_as_txt" new_key); [|now inversion H; subst].
  destruct (find (endswith "_as_txt") (split "__" new_key)) as [fname|] eqn:E;
    [|discriminate].
  apply find_some in E as [_ E]. apply endswith_split in E as [source ->].
  inversion H; subst.
  change 7 with (String.length "_as_txt"). rewrite drop_end_app. now apply Hq.
Qed.

Lemma convert_value_stable (model : Model) (key : string)
  (q_int q_chain q_or q_not : bool) (st : State) (v : string) (st' : State) :
  P st -> convert_value O model key q_int q_chain q_or q_not st v = Ok st' -> P st'.
Proof.
  destruct P_stable as (Ha & Ho & Hc & _ & _ & Hd & _ & _).
  unfold convert_value. intros Hp H.
  destruct (if q_int
            then match py_int O v with
                 | Some z => Ok (QInt z)
                 | None => Raise (ValueError ("invalid literal for int() with base 10: '" +:+ v +:+ "'"))
                 end
            else Ok (QStr v)) as [value|e]; cbn [bind] in H; [|discriminate].
  destruct (value_to_python O model key value) as [[[pv new_key] distinct]|e];
    cbn [bind] in H; [|discriminate].
  destruct new_key as [new_key|new_keys].
  - destruct (cast_as_txt new_key (if distinct then set_needs_distinct st else st))
      as [st1|e] eqn:Ec; cbn [bind] in H; [|discriminate].
    apply cast_as_txt_stable in Ec; [|destruct distinct; auto].
    inversion H; subst. unfold route. destruct q_chain, q_or; auto.
  - destruct (in_tuple "_as_txt" new_keys); discriminate.
Qed.

Lemma search_value_stable (model : Model) (key : string) (st : State)
  (v : string) (st' : State) :
  P st -> search_value O model key st v = Ok st' -> P st'.
Proof.
  destruct P_stable as (_ & _ & _ & _ & Hs & _ & _ & _).
  unfold search_value. intros Hp H.
  destruct (value_to_python O model key (QStr (force_str (QStr v))))
    as [[[pv new_key] distinct]|e]; cbn [bind] in H; [|discriminate].
  destruct new_key as [new_key|new_keys]; [discriminate|].
  destruct pv; try discriminate. inversion H; subst. auto.
Qed.

Lemma dispatch_stable (model : Model) (key : string) (q_int : bool)
  (values : list string) (st st' : State) :
  P st -> dispatch O model key q_int values st = Ok st' -> P st'.
Proof.
  destruct P_stable as (_ & _ & _ & Hr & _ & Hd & Hrel & _).
  unfold dispatch. intros Hp H.
  destruct (String.eqb key "role_level").
  { destruct values; [discriminate|]. inversion H; subst. auto. }
  destruct (endswith "__search" key).
  - destruct (for_each (search_value O model key) (search_terms values)
                (search_state values st)) as [st1|e] eqn:E; cbn [bind] in H; [|discriminate].
    inversion H; subst. apply Hd.
    apply (for_each_stable _ (search_value_stable model key)) in E; [exact E|].
    unfold search_state. destruct values as [|v0 vs]; [exact Hp|].
    destruct (contains "," v0); auto.
  - destruct (strip_chain_or key) as [[k1 q_chain] q_or].
    destruct (strip_not k1) as [k2 q_not].
    now apply (for_each_stable _ (convert_value_stable model k2 q_int q_chain q_or q_not))
      in H.
Qed.

Lemma process_param_stable (model : Model) (st : State)
  (param : string * list string) (st' : State) :
  P st -> process_param O model st param = Ok st' -> P st'.
Proof.
  destruct P_stable as (_ & Ho & _).
  destruct param as [key values]. rewrite process_param_unfold. intros Hp H.
  destruct (in_tuple key (reserved_names O)); [now inversion H; subst|].
  apply dispatch_stable in H; [exact H|].
  unfold rewritten_state.
  match goal with |- P (if ?c then _ else _) => destruct c end; auto.
Qed.

Lemma loop_stable (model : Model) (query_params : list (string * list string))
  (st st' : State) :
  P st -> for_each (process_param O model) query_params st = Ok st' -> P st'.
Proof. apply for_each_stable. intros s x s'. apply process_param_stable. Qed.

End Invariants.

(** ** Invariants of the loop *)

Section LoopInvariants.

Import PyStr FieldLookupBackend Notions.

Variable O : Oracles.

(** X1: the loop only adds to the four lists of filters: what a list
    held before the parameters were read is still there, in front and in the
    same order. *)
Theorem filters_accumulate (model : Model)
  (query_params : list (string * list string)) (st st' : State) :
  for_each (process_param O model) query_params st = Ok st' ->
  (exists added, and_filters st' = and_filters st ++ added)
  /\ (exists added, or_filters st' = or_filters st ++ added)
  /\ (exists added, chain_filters st' = chain_filters st ++ added)
  /\ (exists added, role_filters st' = role_filters st ++ added).
Proof.
  apply (loop_stable O
           (fun s => (exists added, and_filters s = and_filters st ++ added)
                     /\ (exists added, or_filters s = or_filters st ++ added)
                     /\ (exists added, chain_filters s = chain_filters st ++ added)
                     /\ (exists added, role_filters s = role_filters st ++ added))).
  - repeat split; intros; cbn;
      repeat match goal with
             | H : _ /\ _ |- _ => destruct H
             | H : exists _, _ |- _ => destruct H
             end;
      repeat split;
      match goal with
      | H : ?l = _ |- exists added, ?l ++ [?e] = _ ++ added =>
          rewrite H, <- app_assoc; eexists; reflexivity
      | _ => eauto
      end.
  - repeat split; exists []; now rewrite app_nil_r.
Qed.

(** X2: while the parameters are read the queryset is not filtered and
    not made distinct, and its model stays: annotations alone are added, and
    each one is the cast of a name [x] under the name [x_as_txt]. *)
Theorem loop_only_annotates (model : Model)
  (query_params : list (string * list string)) (st st' : State) :
  for_each (process_param O model) query_params st = Ok st' ->
  qs_model (queryset st') = qs_model (queryset st)
  /\ filter_calls (queryset st') = filter_calls (queryset st)
  /\ is_distinct (queryset st') = is_distinct (queryset st)
  /\ exists added,
       annotations (queryset st') = annotations (queryset st) ++ added
       /\ Forall (fun a => fst a = snd a +:+ "_as_txt") added.
Proof.
  apply (loop_stable O
           (fun s => qs_model (queryset s) = qs_model (queryset st)
                     /\ filter_calls (queryset s) = filter_calls (queryset st)
                     /\ is_distinct (queryset s) = is_distinct (queryset st)
                     /\ exists added,
                          annotations (queryset s) = annotations (queryset st) ++ added
                          /\ Forall (fun a => fst a = snd a +:+ "_as_txt") added)).
  - repeat split; intros; cbn; try tauto;
      repeat match goal with
             | H : _ /\ _ |- _ => destruct H
             | H : exists _, _ |- _ => destruct H
             end; try assumption.
    match goal with
    | H : annotations _ = _ ++ ?a |- _ =>
        exists (a ++ [(source +:+ "_as_txt", source)]); split;
        [rewrite H; now rewrite app_assoc|]
    end.
    apply Forall_app. split; [assumption|]. constructor; [reflexivity|constructor].
  - repeat split. exists []. split; [now rewrite app_nil_r|constructor].
Qed.

(** X3: the flag [needs_distinct], once set, is never cleared by a later
    parameter, and the search relation, once AND, never goes back to OR. *)
Theorem flags_never_reset (model : Model)
  (query_params : list (string * list string)) (st st' : State) :
  for_each (process_param O model) query_params st = Ok st' ->
  (needs_distinct st = true -> needs_distinct st' = true)
  /\ (search_filter_relation st = AND -> search_filter_relation st' = AND).
Proof.
  intros H. split; intros H0.
  - apply (loop_stable O (fun s => needs_distinct s = true)) in H; auto.
    repeat split; intros; cbn; auto.
  - apply (loop_stable O (fun s => search_filter_relation s = AND)) in H; auto.
    repeat split; intros; cbn; auto.
Qed.

Lemma dict_set_keys (k : string) (v : list string) (d : list (string * list string)) :
  map fst (dict_set k v d) = if in_tuple k (map fst d) then map fst d
                             else map fst d ++ [k].
Proof.
  unfold in_tuple. induction d as [|[k' v'] d IH]; [reflexivity|].
  cbn [dict_set map fst existsb].
  rewrite (String.eqb_sym k k'). destruct (String.eqb k' k) eqn:E; cbn; [reflexivity|].
  rewrite IH. now destruct (existsb (String.eqb k) (map fst d)).
Qed.

Lemma register_terms_other (lookups : list string) (terms : list string)
  (st : State) (term : string) :
  ~ In term terms ->
  dict_get term (search_filters (register_terms lookups terms st))
  = dict_get term (search_filters st).
Proof.
  revert st. induction terms as [|t terms IH]; intros st H; [reflexivity|].
  change (register_terms lookups (t :: terms) st)
    with (register_terms lookups terms (set_search t lookups st)).
  rewrite IH by (intros Hin; apply H; now right).
  cbn [set_search search_filters]. apply dict_get_set_ne.
  intros ->. apply H. now left.
Qed.

Lemma register_terms_keys (lookups : list string) (terms : list string) (st : State) :
  map fst (search_filters (register_terms lookups terms st))
  = keys_after terms (map fst (search_filters st)).
Proof.
  revert st. induction terms as [|t terms IH]; intros st; [reflexivity|].
  change (register_terms lookups (t :: terms) st)
    with (register_terms lookups terms (set_search t lookups st)).
  rewrite IH. cbn [set_search search_filters]. now rewrite dict_set_keys.
Qed.

Lemma keys_after_nodup (terms keys : list string) :
  List.NoDup keys -> List.NoDup (keys_after terms keys).
Proof.
  revert keys. induction terms as [|t terms IH]; intros keys H; [exact H|].
  cbn [keys_after fold_left]. apply IH.
  destruct (in_tuple t keys) eqn:E; [exact H|].
  apply List.NoDup_app; [exact H|repeat constructor; intros []|].
  intros x Hx [E'|[]]. subst x. apply in_tuple_In in Hx. congruence.
Qed.

(** X4: [search_filters] is a dict keyed by the search term, and a
    search parameter assigns to it once for each of its terms.  After the
    parameter, each of its terms has the lookups of this parameter, also a
    term that an earlier parameter had registered with other lookups: the
    entry is overwritten.  Every other term has the entry it had.  The terms
    stand in the order in which they were first registered: a term that was
    there keeps its place, a new one goes to the end, and so no term is
    there twice. *)
Theorem search_term_overwrites_its_entry (model : Model) (st : State) (path : string)
  (values : list string) (field_list : list Field) (new_path : string)
  (field : Field) (related : Model) :
  in_tuple (path +:+ "__search") (reserved_names O) = false ->
  (String.eqb (object_name model) "User" && startswith "created" (path +:+ "__search")) = false ->
  (String.eqb (object_name model) "JobEvent" && startswith "hosts__name" (path +:+ "__search")) = false ->
  is_empty path = false ->
  is_ascii (path +:+ "__search") = true ->
  get_fields_from_path O model path TREAT_JSONFIELD_AS_TEXT = Ok (field_list, new_path) ->
  last_field field_list = Ok field ->
  startswith "polymorphic_ctype__model" (new_path +:+ "__search") = false ->
  related_model field = Some related ->
  exists st' : State,
    process_param O model st (path +:+ "__search", values) = Ok st'
    /\ (forall term : string,
          In term (search_terms values) ->
          dict_get term (search_filters st') = Some (search_lookups new_path related))
    /\ (forall term : string,
          ~ In term (search_terms values) ->
          dict_get term (search_filters st') = dict_get term (search_filters st))
    /\ map fst (search_filters st')
       = keys_after (search_terms values) (map fst (search_filters st))
    /\ (List.NoDup (map fst (search_filters st)) ->
        List.NoDup (map fst (search_filters st'))).
Proof.
  intros Hr Hu Hj He Ha Hg Hl Hp Hrel.
  rewrite (process_param_search O model st path values Hr Hu Hj).
  rewrite (for_each_search_value O model _ (search_lookups new_path related)).
  - cbn [bind]. eexists. split; [reflexivity|].
    cbn [set_needs_distinct search_filters].
    assert (Hs : search_filters (search_state values st) = search_filters st).
    { unfold search_state. destruct values as [|v0 vs]; [reflexivity|].
      now destruct (contains "," v0). }
    split; [|split; [|split]].
    + intros term Hin. now apply register_terms_get.
    + intros term Hin. now rewrite register_terms_other, Hs.
    + now rewrite register_terms_keys, Hs.
    + intros Hn. rewrite register_terms_keys, Hs. now apply keys_after_nodup.
  - intros term. eexists.
    rewrite (value_to_python_search O model path field_list new_path field (QStr term)
               He Ha Hg Hl Hp), Hrel.
    reflexivity.
Qed.

End LoopInvariants.

(** ** Reserved names, caught exceptions and the rewrites *)

Section WholeRequest.

Import PyStr FieldLookupBackend Notions.

Variable O : Oracles.

(** X5: a parameter whose key is a reserved name has no effect at all:
    the result is that of the request without it, whatever its values and
    wherever it stands. *)
Theorem reserved_key_ignored (queryset : QuerySet)
  (before after : list (string * list string)) (key : string) (values : list string) :
  in_tuple key (reserved_names O) = true ->
  filter_queryset O (before ++ (key, values) :: after) queryset
  = filter_queryset O (before ++ after) queryset.
Proof.
  intros Hr. unfold filter_queryset, compile_params.
  rewrite !for_each_app.
  destruct (for_each (process_param O (qs_model queryset)) before (initial_state queryset))
    as [st|e]; cbn [bind for_each]; [|reflexivity].
  unfold process_param at 1. rewrite Hr. reflexivity.
Qed.

(** X6: the first parameter that raises decides the request, whatever
    stands behind it, and [filter_queryset] raises what the two [except]
    clauses make of its exception: a [FieldError], [FieldDoesNotExist],
    [ValueError] or [TypeError] becomes the [ParseError] with the message of
    the exception, a [ValidationError] the [ParseError] with the JSON of its
    messages, and any other exception leaves as it is.  So none of the five
    caught exceptions ever leaves [filter_queryset]. *)
Theorem caught_exceptions_become_parse_errors (queryset : QuerySet)
  (before after : list (string * list string)) (param : string * list string)
  (st : State) (e0 : exn) :
  compile_params O queryset before = Ok st ->
  process_param O (qs_model queryset) st param = Raise e0 ->
  filter_queryset O (before ++ param :: after) queryset
  = Raise (match e0 with
           | FieldError msg => ParseError msg
           | FieldDoesNotExist msg => ParseError msg
           | ValueError msg => ParseError msg
           | TypeError msg => ParseError msg
           | ValidationError messages => ParseError (json_dumps O messages)
           | ParseError detail => ParseError detail
           | PermissionDenied msg => PermissionDenied msg
           | ReError msg => ReError msg
           | AssertionError => AssertionError
           | IndexError => IndexError
           | AttributeError => AttributeError
           | StopIteration => StopIteration
           | UnboundLocalError => UnboundLocalError
           end)
  /\ (forall (query_params : list (string * list string)) (e : exn),
        filter_queryset O query_params queryset = Raise e -> caught e = false).
Proof.
  intros H1 H2. split.
  - rewrite (filter_queryset_raises O queryset before after param st e0 H1 H2).
    now destruct e0.
  - intros query_params e H. unfold filter_queryset in H.
    destruct (let* st0 := compile_params O queryset query_params in build st0)
      as [qs|e1]; [discriminate|].
    inversion H; subst. now destruct e1.
Qed.

Lemma replace_at_start (c : ascii) (old new s : string) :
  String.prefix (String c old) s = true ->
  exists rest, replace (String c old) new s = new +:+ rest.
Proof.
  intros H. unfold replace. destruct s as [|d s]; [discriminate|].
  cbn [replace_go]. rewrite H. eauto.
Qed.

(** X7: on a model called [User] a key that starts with [created] is
    read as the key with every [created] replaced by [date_joined]: the two
    keys give the same turn of the loop. *)
Theorem user_created_is_date_joined (model : Model) (st : State)
  (key : string) (values : list string) :
  object_name model = "User" ->
  startswith "created" key = true ->
  in_tuple key (reserved_names O) = false ->
  in_tuple (replace "created" "date_joined" key) (reserved_names O) = false ->
  process_param O model st (key, values)
  = process_param O model st (replace "created" "date_joined" key, values).
Proof.
  intros Hn Hs Hr Hr'. rewrite !process_param_unfold, Hr, Hr'.
  destruct (replace_at_start "c" "reated" "date_joined" key Hs) as [rest E].
  unfold effective_key, rewritten_key, rewritten_state.
  rewrite Hn, Hs, E. reflexivity.
Qed.

(** X8: on a model called [JobEvent] a key that starts with [hosts__name]
    is read as the key with [hosts__name] replaced by [or__host__name],
    after the OR filter [host__name__isnull = True] is added. *)
Theorem job_event_hosts_name_is_or_host_name (model : Model) (st : State)
  (key : string) (values : list string) :
  object_name model = "JobEvent" ->
  startswith "hosts__name" key = true ->
  in_tuple key (reserved_names O) = false ->
  in_tuple (replace "hosts__name" "or__host__name" key) (reserved_names O) = false ->
  process_param O model st (key, values)
  = process_param O model (add_or (false, "host__name__isnull", PyBool true) st)
      (replace "hosts__name" "or__host__name" key, values).
Proof.
  intros Hn Hs Hr Hr'. rewrite !process_param_unfold, Hr, Hr'.
  destruct (replace_at_start "h" "osts__name" "or__host__name" key Hs) as [rest E].
  unfold effective_key, rewritten_key, rewritten_state.
  rewrite Hn. change (String.eqb "JobEvent" "User") with false. cbn [andb].
  rewrite Hs, E. reflexivity.
Qed.

End WholeRequest.

(** ** The calls of [filter] *)

Section BuildFacts.

Import PyStr FieldLookupBackend Notions.

Lemma filter_fold_calls {A : Type} (g : A -> list Q) (l : list A) (qs : QuerySet) :
  fold_left (fun q x => qs_filter (g x) q) l qs
  = mkQuerySet (qs_model qs) (annotations qs) (filter_calls qs ++ map g l)
      (is_distinct qs).
Proof.
  revert qs. induction l as [|x l IH]; intros qs; cbn [fold_left map].
  - rewrite app_nil_r. now destruct qs.
  - rewrite IH. cbn. now rewrite <- app_assoc.
Qed.

Lemma search_fold_calls (l : list (string * list string)) (qs : QuerySet) :
  fold_left (fun q '(term, constrains) => qs_filter [q_term term constrains] q) l qs
  = mkQuerySet (qs_model qs) (annotations qs)
      (filter_calls qs ++ map (fun '(term, constrains) => [q_term term constrains]) l)
      (is_distinct qs).
Proof.
  revert qs. induction l as [|[t c] l IH]; intros qs; cbn [fold_left map].
  - rewrite app_nil_r. now destruct qs.
  - rewrite IH. cbn. now rewrite <- app_assoc.
Qed.

(** X9: with no filter of any kind the queryset comes back as it is,
    also when [needs_distinct] is set.  Else, unless a role meets a model
    without [accessible_pk_qs], the queryset gets one [filter] call for each
    search term when the relation is AND, then one for each chain filter in
    their order, and last one call with the AND filters, the roles, the OR
    group and the OR search group; [distinct] is applied when
    [needs_distinct] is set; the annotations are not touched. *)
Theorem build_calls (st : State) :
  (no_filters st = true -> build st = Ok (queryset st))
  /\ (no_filters st = false ->
      is_nil (role_filters st) = true
      \/ accessible_pk_qs (qs_model (queryset st)) = true ->
      build st =
        Ok (mkQuerySet (qs_model (queryset st)) (annotations (queryset st))
              (filter_calls (queryset st) ++ earlier_calls st ++ [final_args st])
              (is_distinct (queryset st) || needs_distinct st))).
Proof.
  unfold no_filters, build. split.
  - intros H. repeat (apply andb_prop in H as [H ?]).
    repeat match goal with X : is_nil _ = true |- _ => rewrite X end.
    reflexivity.
  - intros H Hr.
    assert (Hc : negb (is_nil (and_filters st)) || negb (is_nil (or_filters st))
                 || negb (is_nil (chain_filters st)) || negb (is_nil (role_filters st))
                 || negb (is_nil (search_filters st)) = true).
    { destruct (is_nil (and_filters st)), (is_nil (or_filters st)),
        (is_nil (chain_filters st)), (is_nil (role_filters st)),
        (is_nil (search_filters st)); try reflexivity; discriminate. }
    rewrite Hc.
    assert (Hg : negb (is_nil (role_filters st))
                 && negb (accessible_pk_qs (qs_model (queryset st))) = false).
    { destruct Hr as [-> | ->]; [reflexivity|apply andb_false_r]. }
    rewrite Hg. cbn [bind]. unfold earlier_calls, final_args.
    destruct (is_nil (or_filters st)); destruct (is_nil (search_filters st)) eqn:Es;
      cbn [negb];
      try (destruct (search_filters st); [|discriminate]);
      destruct (search_filter_relation st);
      rewrite ?search_fold_calls, ?filter_fold_calls;
      destruct (needs_distinct st); destruct (queryset st) as [m a f d];
      unfold qs_distinct, qs_filter;
      cbn [qs_model annotations filter_calls is_distinct];
      rewrite ?orb_true_r, ?orb_false_r, ?app_nil_r, <- ?app_assoc;
      cbn [app]; rewrite ?app_nil_r; reflexivity.
Qed.

End BuildFacts.

(** ** More on suffixes *)

Section MoreSuffixFacts.

Import PyStr FieldLookupBackend Notions.

Lemma drop_app_plus (p t : string) (k : nat) :
  drop (String.length p + k) (p +:+ t) = drop k t.
Proof. induction p as [|c p IH]; [reflexivity|exact IH]. Qed.

Lemma append_assoc (a b c : string) : (a +:+ b) +:+ c = a +:+ b +:+ c.
Proof. induction a as [|x a IH]; [reflexivity|]. simpl. now rewrite IH. Qed.

(** A suffix that is no longer than the end of the string is looked for
    in that end alone. *)
Lemma endswith_in_tail (suf p t : string) :
  (String.length suf <= String.length t)%nat ->
  endswith suf (p +:+ t) = endswith suf t.
Proof.
  intros H. unfold endswith. rewrite length_app.
  replace (String.length p + String.length t - String.length suf)%nat
    with (String.length p + (String.length t - String.length suf))%nat by lia.
  rewrite drop_app_plus.
  replace (String.length suf <=? String.length p + String.length t)%nat with true
    by (symmetry; apply Nat.leb_le; lia).
  replace (String.length suf <=? String.length t)%nat with true
    by (symmetry; apply Nat.leb_le; lia).
  reflexivity.
Qed.

(** A longer suffix of the string ends in the end of the string. *)
Lemma endswith_longer (suf p t : string) :
  (String.length t <= String.length suf)%nat ->
  endswith t suf = false ->
  endswith suf (p +:+ t) = false.
Proof.
  intros Hl Hf. destruct (endswith suf (p +:+ t)) eqn:E; [|reflexivity].
  apply endswith_split in E as [q E].
  assert (Ht : drop (String.length (q +:+ suf) - String.length t) (q +:+ suf) = t).
  { rewrite <- E, length_app.
    replace (String.length p + String.length t - String.length t)%nat
      with (String.length p) by lia.
    apply drop_app. }
  rewrite length_app in Ht.
  replace (String.length q + String.length suf - String.length t)%nat
    with (String.length q + (String.length suf - String.length t))%nat in Ht by lia.
  rewrite drop_app_plus in Ht.
  unfold endswith in Hf. rewrite Ht, String.eqb_refl, andb_true_r in Hf.
  apply Nat.leb_gt in Hf. lia.
Qed.

Lemma endswith_tail (suf p t : string) :
  endswith suf t = true -> endswith suf (p +:+ t) = true.
Proof.
  intros H. apply endswith_split in H as [q ->].
  rewrite <- append_assoc. apply endswith_app.
Qed.

Lemma is_ascii_app (a b : string) : is_ascii (a +:+ b) = is_ascii a && is_ascii b.
Proof.
  induction a as [|c a IH]; [reflexivity|]. simpl. rewrite IH. apply andb_assoc.
Qed.

(** Stripping a prefix leaves what the key ends with. *)
Lemma strip_keeps_suffix (key k1 k2 : string) (q_chain q_or q_not : bool) (suf : string) :
  strip_chain_or key = (k1, q_chain, q_or) ->
  strip_not k1 = (k2, q_not) ->
  endswith suf k2 = true -> endswith suf key = true.
Proof.
  unfold strip_chain_or, strip_not, startswith. intros H1 H2 Hs.
  assert (E1 : exists p, key = p +:+ k1).
  { destruct (String.prefix "chain__" key) eqn:Ec.
    - inversion H1; subst. exists "chain__". now apply prefix_split in Ec.
    - destruct (String.prefix "or__" key) eqn:Eo; inversion H1; subst.
      + exists "or__". now apply prefix_split in Eo.
      + now exists EmptyString. }
  assert (E2 : exists p, k1 = p +:+ k2).
  { destruct (String.prefix "not__" k1) eqn:En; inversion H2; subst.
    - exists "not__". now apply prefix_split in En.
    - now exists EmptyString. }
  destruct E1 as [p1 ->]. destruct E2 as [p2 ->].
  now apply endswith_tail, endswith_tail.
Qed.

(** Stripping a prefix leaves a character that is not ASCII. *)
Lemma strip_keeps_non_ascii (key k1 k2 : string) (q_chain q_or q_not : bool) :
  strip_chain_or key = (k1, q_chain, q_or) ->
  strip_not k1 = (k2, q_not) ->
  is_ascii key = false -> is_ascii k2 = false.
Proof.
  unfold strip_chain_or, strip_not, startswith. intros H1 H2 Ha.
  assert (E1 : is_ascii k1 = false).
  { destruct (String.prefix "chain__" key) eqn:Ec.
    - inversion H1; subst. apply prefix_split in Ec. rewrite Ec, is_ascii_app in Ha.
      exact Ha.
    - destruct (String.prefix "or__" key) eqn:Eo; inversion H1; subst; [|exact Ha].
      apply prefix_split in Eo. rewrite Eo, is_ascii_app in Ha. exact Ha. }
  destruct (String.prefix "not__" k1) eqn:En; inversion H2; subst; [|exact E1].
  apply prefix_split in En. rewrite En, is_ascii_app in E1. exact E1.
Qed.

End MoreSuffixFacts.

(** ** What a conversion returns *)

Section ValueShape.

Import PyStr FieldLookupBackend Notions.

Variable O : Oracles.

Lemma lookup_shape (model : Model) (lookup : string)
  (field_list : list Field) (new_lookup : string) :
  get_fields_from_lookup O model lookup = Ok (field_list, new_lookup) ->
  exists path new_path op,
    In op SUPPORTED_LOOKUPS
    /\ is_empty path = false
    /\ get_fields_from_path O model path TREAT_JSONFIELD_AS_TEXT = Ok (field_list, new_path)
    /\ new_lookup = new_path +:+ "__" +:+ op
    /\ (lookup = path +:+ "__" +:+ op \/ (lookup = path /\ op = "exact")).
Proof.
  unfold get_fields_from_lookup, rsplit1. intros H.
  assert (Hcut : exists path op,
             (if contains "__" lookup
                 && in_tuple (List.last match rfind_split "__" lookup with
                                        | Some (p, t) => [p; t]
                                        | None => [lookup]
                                        end EmptyString) SUPPORTED_LOOKUPS
              then match match rfind_split "__" lookup with
                         | Some (p, t) => [p; t]
                         | None => [lookup]
                         end with
                   | [path; suffix] => Ok (path, suffix)
                   | _ => Raise (ValueError "not enough values to unpack")
                   end
              else Ok (lookup, "exact")) = Ok (path, op)
             /\ In op SUPPORTED_LOOKUPS
             /\ (lookup = path +:+ "__" +:+ op \/ (lookup = path /\ op = "exact"))).
  { destruct (contains "__" lookup
              && in_tuple (List.last match rfind_split "__" lookup with
                                     | Some (p, t) => [p; t]
                                     | None => [lookup]
                                     end EmptyString) SUPPORTED_LOOKUPS) eqn:Ec.
    - destruct (rfind_split "__" lookup) as [[p t]|] eqn:Er.
      + exists p, t. split; [reflexivity|].
        apply andb_prop in Ec as [_ Ec]. cbn [List.last] in Ec.
        apply in_tuple_In in Ec. split; [exact Ec|]. left.
        now apply rfind_split_some.
      + apply andb_prop in Ec as [Ec _].
        apply (rfind_split_none "_" "_") in Er. congruence.
    - exists lookup, "exact". split; [reflexivity|].
      split; [simpl; tauto|]. right. now split. }
  destruct Hcut as (path & op & Hcut & Hop & Hl). rewrite Hcut in H. cbn [bind] in H.
  destruct (is_empty path) eqn:He; [discriminate|].
  destruct (get_fields_from_path O model path TREAT_JSONFIELD_AS_TEXT)
    as [[fl np]|e] eqn:Eg; cbn [bind] in H; [|discriminate].
  inversion H; subst. exists path, np, op. repeat split; auto.
Qed.

(** X10: a lookup that resolves always comes back with an operator: the
    resolved path of a field path that is not empty, [__], and the
    supported operator that the lookup ended with, or [exact] when it ended
    with none. *)
Theorem resolved_lookup_has_operator (model : Model) (lookup : string)
  (field_list : list Field) (new_lookup : string) :
  get_fields_from_lookup O model lookup = Ok (field_list, new_lookup) ->
  exists path new_path op,
    In op SUPPORTED_LOOKUPS
    /\ is_empty path = false
    /\ get_fields_from_path O model path TREAT_JSONFIELD_AS_TEXT = Ok (field_list, new_path)
    /\ new_lookup = new_path +:+ "__" +:+ op
    /\ (lookup = path +:+ "__" +:+ op \/ (lookup = path /\ op = "exact")).
Proof. apply lookup_shape. Qed.

Lemma value_to_python_ok (model : Model) (lookup : string) (value : qvalue)
  (pv : pyval) (new_key : NewLookup) (distinct : bool) :
  value_to_python O model lookup value = Ok (pv, new_key, distinct) ->
  exists field_list new_lookup field,
    is_ascii lookup = true
    /\ get_fields_from_lookup O model lookup = Ok (field_list, new_lookup)
    /\ last_field field_list = Ok field.
Proof.
  unfold value_to_python. intros H.
  destruct (is_ascii lookup); cbn [negb] in H; [|discriminate].
  destruct (get_fields_from_lookup O model lookup) as [[fl nl]|e]; cbn [bind] in H;
    [|discriminate].
  destruct (last_field fl) as [f|e] eqn:El; cbn [bind] in H; [|discriminate].
  exists fl, nl, f. repeat split. exact El.
Qed.

(** X11: whatever the operator, a conversion that succeeds says that the
    result needs [distinct] exactly when a field on the path is no
    [CharField], [IntegerField], [BooleanField] or [TextField]. *)
Theorem distinct_flag_is_about_the_fields (model : Model) (lookup : string)
  (value : qvalue) (pv : pyval) (new_key : NewLookup) (distinct : bool) :
  value_to_python O model lookup value = Ok (pv, new_key, distinct) ->
  exists field_list new_lookup,
    get_fields_from_lookup O model lookup = Ok (field_list, new_lookup)
    /\ (distinct = true <->
        exists f, In f field_list /\ NO_DUPLICATES_ALLOW_LIST f = false).
Proof.
  intros H. destruct (value_to_python_ok _ _ _ _ _ _ H) as (fl & nl & f & Ha & Hg & Hl).
  exists fl, nl. split; [exact Hg|].
  assert (Hd : distinct = negb (forallb NO_DUPLICATES_ALLOW_LIST fl)).
  { rewrite (value_to_python_resolved O model lookup fl nl f value Ha Hg Hl) in H.
    cbv zeta in H.
    repeat match type of H with
           | (if ?c then _ else _) = _ => destruct c
           | match ?x with _ => _ end = _ => destruct x; cbn [bind] in H
           | (let* _ := ?x in _) = _ => destruct x; cbn [bind] in H
           end; try discriminate; now inversion H. }
  rewrite Hd, negb_true_iff. split.
  - intros Hf. destruct (forallb_forall NO_DUPLICATES_ALLOW_LIST fl) as [_ Hall].
    destruct (existsb (fun x => negb (NO_DUPLICATES_ALLOW_LIST x)) fl) eqn:Ex.
    + apply existsb_exists in Ex as (x & Hx & Hn). exists x. split; [exact Hx|].
      now apply negb_true_iff.
    + rewrite Hall in Hf; [discriminate|]. intros x Hx.
      destruct (NO_DUPLICATES_ALLOW_LIST x) eqn:En; [reflexivity|].
      assert (existsb (fun x => negb (NO_DUPLICATES_ALLOW_LIST x)) fl = true).
      { apply existsb_exists. exists x. split; [exact Hx|]. now rewrite En. }
      congruence.
  - intros (x & Hx & Hn). destruct (forallb NO_DUPLICATES_ALLOW_LIST fl) eqn:Ef;
      [|reflexivity].
    rewrite forallb_forall in Ef. rewrite (Ef x Hx) in Hn. discriminate.
Qed.

Lemma not_search_operator (new_path op : string) :
  In op SUPPORTED_LOOKUPS -> op <> "search" ->
  endswith "__search" (new_path +:+ "__" +:+ op) = false.
Proof.
  intros H Hne. unfold SUPPORTED_LOOKUPS in H. simpl in H.
  repeat (destruct H as [<-|H];
          [first [ congruence
                 | rewrite endswith_in_tail by (simpl; lia); reflexivity
                 | apply endswith_longer; [simpl; lia|reflexivity] ]|]).
  contradiction.
Qed.

(** X12: a list of lookups comes out of a [__search] lookup alone: on a
    lookup that does not end in [__search] a conversion that succeeds gives
    one lookup; so the values of a key that is no search key never meet the
    list. *)
Theorem only_search_gives_a_list (model : Model) (key k1 k2 : string)
  (q_chain q_or q_not : bool) (value : qvalue) (pv : pyval) (new_key : NewLookup)
  (distinct : bool) :
  endswith "__search" key = false ->
  strip_chain_or key = (k1, q_chain, q_or) ->
  strip_not k1 = (k2, q_not) ->
  value_to_python O model k2 value = Ok (pv, new_key, distinct) ->
  exists new_lookup, new_key = Single new_lookup.
Proof.
  intros Hs H1 H2 H.
  assert (Hk : endswith "__search" k2 = false).
  { destruct (endswith "__search" k2) eqn:E; [|reflexivity].
    rewrite (strip_keeps_suffix key k1 k2 _ _ _ _ H1 H2 E) in Hs. discriminate. }
  destruct (value_to_python_ok _ _ _ _ _ _ H) as (fl & nl & f & Ha & Hg & Hl).
  destruct (lookup_shape _ _ _ _ Hg) as (path & np & op & Hop & _ & _ & -> & Hcase).
  assert (Hn : endswith "__search" (np +:+ "__" +:+ op) = false).
  { apply not_search_operator; [exact Hop|]. intros ->.
    destruct Hcase as [->|[_ E]]; [|discriminate].
    change (path +:+ "__" +:+ "search") with (path +:+ "__search") in Hk.
    now rewrite endswith_app in Hk. }
  rewrite (value_to_python_resolved O model k2 fl _ f value Ha Hg Hl) in H.
  cbv zeta in H. rewrite Hn in H.
  repeat match type of H with
         | (if ?c then _ else _) = _ => destruct c
         | match ?x with _ => _ end = _ => destruct x; cbn [bind] in H
         | (let* _ := ?x in _) = _ => destruct x; cbn [bind] in H
         end; try discriminate; inversion H; eauto.
Qed.

End ValueShape.

(** ** The operators [regex], [iexact] and [isnull], and related fields *)

Section OperatorFacts.

Import PyStr FieldLookupBackend Notions.

Variable O : Oracles.

(** The value of [endswith] on a resolved lookup with a known operator. *)
Ltac endswith_decide :=
  repeat match goal with
         | |- context [endswith ?suf (?p +:+ ?t)] =>
             let b := eval vm_compute in (endswith suf t) in
             let H := fresh in
             assert (H : endswith suf (p +:+ t) = b) by
               first [ rewrite endswith_in_tail by (simpl; lia); reflexivity
                     | apply endswith_longer; [simpl; lia | reflexivity] ];
             rewrite H; clear H
         end.

Lemma resolved_at (model : Model) (path op : string)
  (field_list : list Field) (new_path : string) :
  In op SUPPORTED_LOOKUPS ->
  is_empty path = false ->
  get_fields_from_path O model path TREAT_JSONFIELD_AS_TEXT = Ok (field_list, new_path) ->
  get_fields_from_lookup O model (path +:+ "__" +:+ op)
  = Ok (field_list, new_path +:+ "__" +:+ op).
Proof.
  intros Hop He Hg. rewrite lookup_with_operator by exact Hop.
  now apply resolve_with_ok.
Qed.

(** X13: on a [__regex] or [__iregex] lookup the value must compile as
    a regular expression: the error of [re.compile] fails the conversion
    with its message, which the caller gets as a parse error; a pattern that
    compiles is passed on as it is. *)
Theorem regex_is_validated (model : Model) (path op : string)
  (field_list : list Field) (new_path : string) (field : Field) (value : qvalue) :
  op = "regex" \/ op = "iregex" ->
  is_empty path = false ->
  is_ascii (path +:+ "__" +:+ op) = true ->
  get_fields_from_path O model path TREAT_JSONFIELD_AS_TEXT = Ok (field_list, new_path) ->
  last_field field_list = Ok field ->
  startswith "polymorphic_ctype__model" (new_path +:+ "__" +:+ op) = false ->
  (forall msg : string,
      re_compile O value = Raise (ReError msg) ->
      value_to_python O model (path +:+ "__" +:+ op) value = Raise (ValueError msg)
      /\ handle O (ValueError msg) = ParseError msg)
  /\ (forall u : unit,
        re_compile O value = Ok u ->
        value_to_python O model (path +:+ "__" +:+ op) value
        = Ok (to_py value, Single (new_path +:+ "__" +:+ op),
              negb (forallb NO_DUPLICATES_ALLOW_LIST field_list))).
Proof.
  intros Hop He Ha Hg Hl Hp.
  assert (Hin : In op SUPPORTED_LOOKUPS) by (destruct Hop as [-> | ->]; simpl; tauto).
  rewrite (value_to_python_resolved O model _ field_list _ field value Ha
             (resolved_at model path op field_list new_path Hin He Hg) Hl).
  cbv zeta. rewrite Hp.
  destruct Hop as [-> | ->]; endswith_decide; cbn [orb];
    (split; [intros msg E; rewrite E; now split|intros u E; now rewrite E]).
Qed.

(** X14: an [__iexact] lookup is for a [CharField] or a [TextField]
    alone: on any other field, a [JSONField] too since it is treated as
    text, the conversion fails saying that the field is no text field; on a
    text field the value is passed on as it is. *)
Theorem iexact_needs_text_field (model : Model) (path : string)
  (field_list : list Field) (new_path : string) (field : Field) (value : qvalue) :
  is_empty path = false ->
  is_ascii (path +:+ "__iexact") = true ->
  get_fields_from_path O model path TREAT_JSONFIELD_AS_TEXT = Ok (field_list, new_path) ->
  last_field field_list = Ok field ->
  startswith "polymorphic_ctype__model" (new_path +:+ "__iexact") = false ->
  (is_text field = true ->
   value_to_python O model (path +:+ "__iexact") value
   = Ok (to_py value, Single (new_path +:+ "__iexact"),
         negb (forallb NO_DUPLICATES_ALLOW_LIST field_list)))
  /\ (is_text field = false ->
      value_to_python O model (path +:+ "__iexact") value
      = Raise (ValueError (name field +:+ " is not a text field and cannot be filtered by case-insensitive search"))).
Proof.
  intros He Ha Hg Hl Hp.
  assert (Hin : In "iexact" SUPPORTED_LOOKUPS) by (simpl; tauto).
  change (path +:+ "__iexact") with (path +:+ "__" +:+ "iexact") in *.
  rewrite (value_to_python_resolved O model _ field_list _ field value Ha
             (resolved_at model path "iexact" field_list new_path Hin He Hg) Hl).
  cbv zeta. change (new_path +:+ "__" +:+ "iexact") with (new_path +:+ "__iexact") in *.
  rewrite Hp. endswith_decide. cbn [orb].
  unfold TREAT_JSONFIELD_AS_TEXT. cbn [negb]. rewrite andb_false_r. cbn [negb].
  rewrite andb_true_r. split; intros ->; reflexivity.
Qed.

(** X15: on an [__isnull] lookup the value is read as a boolean,
    whatever the field is: the converter of the field is not asked, and what
    the boolean parser raises is what the conversion raises. *)
Theorem isnull_reads_a_boolean (model : Model) (path : string)
  (field_list : list Field) (new_path : string) (field : Field) (value : qvalue) :
  is_empty path = false ->
  is_ascii (path +:+ "__isnull") = true ->
  get_fields_from_path O model path TREAT_JSONFIELD_AS_TEXT = Ok (field_list, new_path) ->
  last_field field_list = Ok field ->
  startswith "polymorphic_ctype__model" (new_path +:+ "__isnull") = false ->
  (forall b : bool,
      to_python_boolean O value = Ok b ->
      value_to_python O model (path +:+ "__isnull") value
      = Ok (PyBool b, Single (new_path +:+ "__isnull"),
            negb (forallb NO_DUPLICATES_ALLOW_LIST field_list)))
  /\ (forall e : exn,
        to_python_boolean O value = Raise e ->
        value_to_python O model (path +:+ "__isnull") value = Raise e).
Proof.
  intros He Ha Hg Hl Hp.
  assert (Hin : In "isnull" SUPPORTED_LOOKUPS) by (simpl; tauto).
  change (path +:+ "__isnull") with (path +:+ "__" +:+ "isnull") in *.
  rewrite (value_to_python_resolved O model _ field_list _ field value Ha
             (resolved_at model path "isnull" field_list new_path Hin He Hg) Hl).
  cbv zeta. change (new_path +:+ "__" +:+ "isnull") with (new_path +:+ "__isnull") in *.
  rewrite Hp. endswith_decide.
  split; [intros b E|intros e E]; now rewrite E.
Qed.

(** X16: the value of a related field is [None] for [none] and [null]
    in any case of the letters, else the integer that it reads as, and else
    the conversion fails with a parse error that names the field and the
    value: the [ValueError] of [int] does not come out. *)
Theorem related_value_is_none_or_id (field : Field) (value : qvalue) :
  is_related field = true ->
  (in_tuple (lower (force_str value)) ["none"; "null"] = true ->
   value_to_python_for_field O field value = Ok PyNone)
  /\ (in_tuple (lower (force_str value)) ["none"; "null"] = false ->
      forall z : Z,
        py_int O (force_str value) = Some z ->
        value_to_python_for_field O field value = Ok (PyInt z))
  /\ (in_tuple (lower (force_str value)) ["none"; "null"] = false ->
      py_int O (force_str value) = None ->
      value_to_python_for_field O field value
      = Raise (ParseError ("Invalid " +:+ name field +:+ " id: " +:+ force_str value))).
Proof.
  intros Hr. unfold value_to_python_for_field, to_python_related.
  assert (Hb : is_boolean field = false).
  { unfold is_related, is_boolean in *. destruct (kind field); try discriminate; reflexivity. }
  rewrite Hb, Hr. split; [|split].
  - intros ->. reflexivity.
  - intros -> z ->. reflexivity.
  - intros -> ->. reflexivity.
Qed.

End OperatorFacts.

(** ** Keys that are refused, and exceptions that are not caught *)

Section EdgeFacts.

Import PyStr FieldLookupBackend Notions.

Variable O : Oracles.

(** X17: a key with a character that is not ASCII fails the request with
    a parse error that names the key, as it is once its prefixes are off,
    before the schema is asked. *)
Theorem non_ascii_key_refused (queryset : QuerySet)
  (before after : list (string * list string)) (st : State)
  (key k1 k2 : string) (q_chain q_or q_not : bool) (v : string) (vs : list string) :
  plain_key O (qs_model queryset) key = true ->
  strip_chain_or key = (k1, q_chain, q_or) ->
  strip_not k1 = (k2, q_not) ->
  is_ascii key = false ->
  compile_params O queryset before = Ok st ->
  filter_queryset O (before ++ (key, v :: vs) :: after) queryset
  = Raise (ParseError (k2 +:+ " is not an allowed field name. Must be ascii encodable.")).
Proof.
  intros Hp H1 H2 Ha Hb.
  rewrite (filter_queryset_raises O queryset before after _ st
             (ValueError (k2 +:+ " is not an allowed field name. Must be ascii encodable."))
             Hb); [reflexivity|].
  rewrite (process_param_plain O _ st key _ Hp), H1, H2.
  cbn [for_each]. unfold convert_value. cbn [bind]. unfold value_to_python.
  rewrite (strip_keeps_non_ascii key k1 k2 _ _ _ H1 H2 Ha). reflexivity.
Qed.

Lemma process_param_int (model : Model) (st : State) (base : string)
  (values : list string) :
  in_tuple (base +:+ "__int") (reserved_names O) = false ->
  (String.eqb (object_name model) "User" && startswith "created" (base +:+ "__int")) = false ->
  (String.eqb (object_name model) "JobEvent" && startswith "hosts__name" (base +:+ "__int")) = false ->
  process_param O model st (base +:+ "__int", values)
  = dispatch O model base true values st.
Proof.
  intros Hr Hu Hj. rewrite process_param_unfold, Hr.
  unfold effective_key, rewritten_key, rewritten_state. rewrite Hu, Hj.
  rewrite endswith_app. change 5 with (String.length "__int").
  now rewrite drop_end_app.
Qed.

(** X18: the suffix [__int] makes an integer of each value before it is
    converted, and an [__in] lookup cannot take an integer: with
    [__in__int] a value that is no integer is a parse error, the value [0]
    is refused as an empty value, and any other integer ends in an
    [AttributeError], which is none of the exceptions that are caught. *)
Theorem int_suffix_breaks_in (queryset : QuerySet)
  (before after : list (string * list string)) (st : State)
  (base k1 : string) (q_chain q_or q_not : bool) (path : string)
  (field_list : list Field) (new_path : string) (field : Field)
  (v : string) (vs : list string) :
  in_tuple (base +:+ "__int") (reserved_names O) = false ->
  (String.eqb (object_name (qs_model queryset)) "User"
   && startswith "created" (base +:+ "__int")) = false ->
  (String.eqb (object_name (qs_model queryset)) "JobEvent"
   && startswith "hosts__name" (base +:+ "__int")) = false ->
  String.eqb base "role_level" = false ->
  endswith "__search" base = false ->
  strip_chain_or base = (k1, q_chain, q_or) ->
  strip_not k1 = (path +:+ "__in", q_not) ->
  is_empty path = false ->
  is_ascii (path +:+ "__in") = true ->
  get_fields_from_path O (qs_model queryset) path TREAT_JSONFIELD_AS_TEXT
    = Ok (field_list, new_path) ->
  last_field field_list = Ok field ->
  startswith "polymorphic_ctype__model" (new_path +:+ "__in") = false ->
  compile_params O queryset before = Ok st ->
  (py_int O v = None ->
   exists detail,
     filter_queryset O (before ++ (base +:+ "__int", v :: vs) :: after) queryset
     = Raise (ParseError detail))
  /\ (py_int O v = Some 0%Z ->
      filter_queryset O (before ++ (base +:+ "__int", v :: vs) :: after) queryset
      = Raise (ParseError "cannot provide empty value for __in"))
  /\ (forall z : Z,
        py_int O v = Some z -> z <> 0%Z ->
        filter_queryset O (before ++ (base +:+ "__int", v :: vs) :: after) queryset
        = Raise AttributeError).
Proof.
  intros Hr Hu Hj Hrole Hs H1 H2 He Ha Hg Hl Hp Hb.
  assert (Hturn : process_param O (qs_model queryset) st (base +:+ "__int", v :: vs)
                  = let* value := match py_int O v with
                                  | Some z => Ok (QInt z)
                                  | None => Raise (ValueError ("invalid literal for int() with base 10: '" +:+ v +:+ "'"))
                                  end in
                    let* st1 :=
                      (let* (found, distinct) :=
                         value_to_python O (qs_model queryset) (path +:+ "__in") value in
                       let (value, new_key) := (found : pyval * NewLookup) in
                       let st := if distinct then set_needs_distinct st else st in
                       match new_key with
                       | Single new_key =>
                           let* st := cast_as_txt new_key st in
                           Ok (route q_chain q_or (q_not, new_key, value) st)
                       | Multi new_keys =>
                           if in_tuple "_as_txt" new_keys then Raise AttributeError
                           else Raise (TypeError "unhashable type")
                       end) in
                    for_each (convert_value O (qs_model queryset) (path +:+ "__in")
                                true q_chain q_or q_not) vs st1).
  { rewrite (process_param_int _ st base _ Hr Hu Hj). unfold dispatch.
    rewrite Hrole, Hs, H1, H2. cbn [for_each]. unfold convert_value at 1.
    destruct (py_int O v); reflexivity. }
  split; [|split].
  - intros E. exists ("invalid literal for int() with base 10: '" +:+ v +:+ "'").
    rewrite (filter_queryset_raises O queryset before after _ st
               (ValueError ("invalid literal for int() with base 10: '" +:+ v +:+ "'")) Hb);
      [reflexivity|].
    rewrite Hturn, E. reflexivity.
  - intros E.
    rewrite (filter_queryset_raises O queryset before after _ st
               (ValueError "cannot provide empty value for __in") Hb); [reflexivity|].
    rewrite Hturn, E. cbn [bind].
    rewrite (value_to_python_in O _ path field_list new_path field _ He Ha Hg Hl Hp).
    reflexivity.
  - intros z E Hz.
    rewrite (filter_queryset_raises O queryset before after _ st AttributeError Hb);
      [reflexivity|].
    rewrite Hturn, E. cbn [bind].
    rewrite (value_to_python_in O _ path field_list new_path field _ He Ha Hg Hl Hp).
    cbn [falsy]. apply Z.eqb_neq in Hz. rewrite Hz. reflexivity.
Qed.

(** X19: a [__search] key whose resolved path starts with
    [polymorphic_ctype__model] never searches: its value only loses its
    underscores, no list of lookups comes back, and the assertion on that
    list fails with an [AssertionError], which is not caught. *)
Theorem polymorphic_search_asserts (queryset : QuerySet)
  (before after : list (string * list string)) (st : State) (path : string)
  (values : list string) (field_list : list Field) (new_path : string)
  (field : Field) :
  in_tuple (path +:+ "__search") (reserved_names O) = false ->
  (String.eqb (object_name (qs_model queryset)) "User"
   && startswith "created" (path +:+ "__search")) = false ->
  (String.eqb (object_name (qs_model queryset)) "JobEvent"
   && startswith "hosts__name" (path +:+ "__search")) = false ->
  is_empty path = false ->
  is_ascii (path +:+ "__search") = true ->
  get_fields_from_path O (qs_model queryset) path TREAT_JSONFIELD_AS_TEXT
    = Ok (field_list, new_path) ->
  last_field field_list = Ok field ->
  startswith "polymorphic_ctype__model" (new_path +:+ "__search") = true ->
  search_terms values <> [] ->
  compile_params O queryset before = Ok st ->
  filter_queryset O (before ++ (path +:+ "__search", values) :: after) queryset
  = Raise AssertionError.
Proof.
  intros Hr Hu Hj He Ha Hg Hl Hp Hne Hb.
  rewrite (filter_queryset_raises O queryset before after _ st AssertionError Hb);
    [reflexivity|].
  rewrite (process_param_search O _ st path values Hr Hu Hj).
  destruct (search_terms values) as [|t terms]; [contradiction|].
  cbn [for_each]. unfold search_value.
  assert (Hgl : get_fields_from_lookup O (qs_model queryset) (path +:+ "__search")
                = Ok (field_list, new_path +:+ "__search")).
  { change (path +:+ "__search") with (path +:+ "__" +:+ "search").
    rewrite lookup_with_operator by (simpl; tauto).
    now apply resolve_with_ok. }
  rewrite (value_to_python_resolved O _ _ field_list _ field _ Ha Hgl Hl).
  cbv zeta. rewrite Hp. reflexivity.
Qed.

End EdgeFacts.

(** ** JSON fields, and one triple for each value *)

Section FieldOperatorFacts.

Import PyStr FieldLookupBackend Notions.

Variable O : Oracles.

Ltac endswith_decide :=
  repeat match goal with
         | |- context [endswith ?suf (?p +:+ ?t)] =>
             let b := eval vm_compute in (endswith suf t) in
             let H := fresh in
             assert (H : endswith suf (p +:+ t) = b) by
               first [ rewrite endswith_in_tail by (simpl; lia); reflexivity
                     | apply endswith_longer; [simpl; lia | reflexivity] ];
             rewrite H; clear H
         end.

Lemma replace_go_skip (old new a t : string) :
  replace_go old new (String.length a) (a +:+ t) = replace_go old new 0 t.
Proof. induction a as [|c a IH]; [reflexivity|exact IH]. Qed.

Lemma replace_go_absent (c : ascii) (old new t : string) :
  contains (String c old) t = false ->
  replace_go (String c old) new 0 t = t.
Proof.
  induction t as [|d t IH]; [reflexivity|]. intros H.
  cbn [contains] in H. apply orb_false_iff in H as [Hp Hc].
  cbn [replace_go]. rewrite Hp. now rewrite IH.
Qed.

(** [(n + t).replace(n, new)] when [n] does not occur in [t] *)
Lemma replace_leading (n new t : string) :
  is_empty n = false ->
  contains n t = false ->
  replace n new (n +:+ t) = new +:+ t.
Proof.
  intros Hn Hc. destruct n as [|c n]; [discriminate|].
  unfold replace.
  change (String c n +:+ t) with (String c (n +:+ t)). cbn [replace_go].
  change (String c (n +:+ t)) with (String c n +:+ t). rewrite prefix_app.
  cbn [String.length Nat.sub]. rewrite Nat.sub_0_r, replace_go_skip.
  now rewrite replace_go_absent.
Qed.

(** X20: under the operators that compare the value with the field, a
    [JSONField] is filtered as text: the lookup that comes back has every
    occurrence of the name of the field replaced by the name with [_as_txt],
    so that a lookup on the field itself, whose name does not occur behind
    it, becomes [name_as_txt__op]; on a field that is no [JSONField] the
    lookup stays.  The value is what the conversion for the field gives. *)
Theorem json_field_is_filtered_as_text (model : Model) (path op : string)
  (field_list : list Field) (new_path : string) (field : Field) (value : qvalue) :
  In op FIELD_OPERATORS ->
  is_empty path = false ->
  is_ascii (path +:+ "__" +:+ op) = true ->
  get_fields_from_path O model path TREAT_JSONFIELD_AS_TEXT = Ok (field_list, new_path) ->
  last_field field_list = Ok field ->
  startswith "polymorphic_ctype__model" (new_path +:+ "__" +:+ op) = false ->
  (is_json field = true ->
   value_to_python O model (path +:+ "__" +:+ op) value =
     let* v := value_to_python_for_field O field value in
     Ok (v, Single (replace (name field) (name field +:+ "_as_txt")
                      (new_path +:+ "__" +:+ op)),
         negb (forallb NO_DUPLICATES_ALLOW_LIST field_list)))
  /\ (is_json field = true ->
      new_path = name field ->
      is_empty (name field) = false ->
      contains (name field) ("__" +:+ op) = false ->
      replace (name field) (name field +:+ "_as_txt") (new_path +:+ "__" +:+ op)
      = name field +:+ "_as_txt" +:+ "__" +:+ op)
  /\ (is_json field = false ->
      value_to_python O model (path +:+ "__" +:+ op) value =
        let* v := value_to_python_for_field O field value in
        Ok (v, Single (new_path +:+ "__" +:+ op),
            negb (forallb NO_DUPLICATES_ALLOW_LIST field_list))).
Proof.
  intros Hop He Ha Hg Hl Hp.
  assert (Hin : In op SUPPORTED_LOOKUPS).
  { unfold FIELD_OPERATORS in Hop. simpl in Hop. simpl.
    repeat (destruct Hop as [<-|Hop]; [tauto|]). contradiction. }
  rewrite (value_to_python_resolved O model _ field_list _ field value Ha
             (resolved_at O model path op field_list new_path Hin He Hg) Hl).
  cbv zeta. rewrite Hp.
  assert (Hends : endswith "__isnull" (new_path +:+ "__" +:+ op) = false
                  /\ endswith "__in" (new_path +:+ "__" +:+ op) = false
                  /\ endswith "__regex" (new_path +:+ "__" +:+ op) = false
                  /\ endswith "__iregex" (new_path +:+ "__" +:+ op) = false
                  /\ endswith "__iexact" (new_path +:+ "__" +:+ op) = false
                  /\ endswith "__search" (new_path +:+ "__" +:+ op) = false).
  { unfold FIELD_OPERATORS in Hop. simpl in Hop.
    repeat (destruct Hop as [<-|Hop]; [endswith_decide; repeat split|]).
    contradiction. }
  destruct Hends as (-> & -> & -> & -> & -> & ->). cbn [orb].
  unfold TREAT_JSONFIELD_AS_TEXT. cbn [andb].
  split; [|split].
  - intros ->. reflexivity.
  - intros _ -> Hn Hc. rewrite replace_leading by assumption.
    now rewrite append_assoc.
  - intros ->. reflexivity.
Qed.

Lemma route_bucket_of (q_chain q_or : bool) (e : LookupExpression) (st : State) :
  bucket_of q_chain q_or (route q_chain q_or e st) = bucket_of q_chain q_or st ++ [e].
Proof. unfold bucket_of, route. destruct q_chain, q_or; reflexivity. Qed.

(** One value of a key without [__int]: the triple that is added holds
    what [value_to_python] gives for this value. *)
Lemma convert_value_one_triple (model : Model) (key : string)
  (q_chain q_or q_not : bool) (st : State) (v : string) (st' : State) :
  convert_value O model key false q_chain q_or q_not st v = Ok st' ->
  exists new_key value distinct,
    value_to_python O model key (QStr v) = Ok (value, Single new_key, distinct)
    /\ bucket_of q_chain q_or st' = bucket_of q_chain q_or st ++ [(q_not, new_key, value)].
Proof.
  unfold convert_value. cbn [bind]. intros H.
  destruct (value_to_python O model key (QStr v)) as [[[pv new_key] distinct]|e];
    cbn [bind] in H; [|discriminate].
  destruct new_key as [new_key|new_keys];
    [|destruct (in_tuple "_as_txt" new_keys); discriminate].
  destruct (cast_as_txt new_key (if distinct then set_needs_distinct st else st))
    as [st1|e] eqn:Ec; cbn [bind] in H; [|discriminate].
  inversion H; subst. exists new_key, pv, distinct. split; [reflexivity|].
  rewrite route_bucket_of. f_equal.
  unfold cast_as_txt in Ec.
  destruct (contains "_as_txt" new_key);
    [destruct (find (endswith "_as_txt") (split "__" new_key)); [|discriminate]|];
    inversion Ec; subst; unfold bucket_of; destruct q_chain, q_or, distinct; reflexivity.
Qed.

Lemma for_each_one_triple (model : Model) (key : string)
  (q_chain q_or q_not : bool) (values : list string) (st st' : State) :
  for_each (convert_value O model key false q_chain q_or q_not) values st = Ok st' ->
  exists added,
    bucket_of q_chain q_or st' = bucket_of q_chain q_or st ++ added
    /\ Forall2 (fun (v : string) (e : LookupExpression) =>
                  fst (fst e) = q_not
                  /\ exists distinct : bool,
                       value_to_python O model key (QStr v)
                       = Ok (snd e, Single (snd (fst e)), distinct))
               values added.
Proof.
  revert st. induction values as [|v values IH]; intros st H.
  - simpl in H. inversion H; subst. exists []. rewrite app_nil_r. split; constructor.
  - cbn [for_each] in H.
    destruct (convert_value O model key false q_chain q_or q_not st v) as [st1|e] eqn:E;
      cbn [bind] in H; [|discriminate].
    apply convert_value_one_triple in E as (nk & pv & d & Ev & E).
    apply IH in H as (added & Ha & Hall).
    exists ((q_not, nk, pv) :: added). rewrite Ha, E, <- app_assoc.
    split; [reflexivity|]. constructor; [|exact Hall].
    split; [reflexivity|]. now exists d.
Qed.

(** X21: each value of a key that is no role and no search key becomes
    one triple, in the order of the values: the list that the prefixes of
    the key name (chain, OR, or else AND) grows by a list of triples that
    goes along with the values one by one, and the triple of a value holds
    the negation of the key and the lookup and the converted value that
    [value_to_python] gives for that value under the stripped key. *)
Theorem one_triple_for_each_value (model : Model) (st st' : State)
  (key k1 k2 : string) (q_chain q_or q_not : bool) (values : list string) :
  plain_key O model key = true ->
  strip_chain_or key = (k1, q_chain, q_or) ->
  strip_not k1 = (k2, q_not) ->
  process_param O model st (key, values) = Ok st' ->
  exists added,
    bucket_of q_chain q_or st' = bucket_of q_chain q_or st ++ added
    /\ length added = length values
    /\ Forall2 (fun (v : string) (e : LookupExpression) =>
                  fst (fst e) = q_not
                  /\ exists distinct : bool,
                       value_to_python O model k2 (QStr v)
                       = Ok (snd e, Single (snd (fst e)), distinct))
               values added.
Proof.
  intros Hp H1 H2 H.
  rewrite (process_param_plain O model st key values Hp), H1, H2 in H.
  apply for_each_one_triple in H as (added & Ha & Hall).
  exists added. split; [exact Ha|]. split; [|exact Hall].
  symmetry. exact (Forall2_length _ _ _ Hall).
Qed.

End FieldOperatorFacts.

(** * The further theorems at concrete inputs *)

Section MoreInstances.

Import PyStr FieldLookupBackend Notions.

Lemma filters_accumulate_witness :
  exists st' : State,
    for_each (process_param Toy.oracles Toy.team)
      [("or__count", ["1"]); ("name", ["a"])]
      (add_and (false, "id__exact", PyInt 7) (initial_state (all_objects Toy.team)))
    = Ok st'
    /\ (exists added, and_filters st' = [(false, "id__exact", PyInt 7)] ++ added)
    /\ (exists added, or_filters st' = [] ++ added).
Proof.
  eexists. split; [vm_compute; reflexivity|].
  destruct (filters_accumulate Toy.oracles Toy.team
              [("or__count", ["1"]); ("name", ["a"])]
              (add_and (false, "id__exact", PyInt 7) (initial_state (all_objects Toy.team)))
              _ eq_refl) as (Ha & Ho & _).
  split; [exact Ha|exact Ho].
Defined.

Lemma loop_only_annotates_witness :
  exists st' : State,
    for_each (process_param Toy.oracles Toy.host) [("variables__icontains", ["x"])]
      (initial_state (all_objects Toy.host)) = Ok st'
    /\ annotations (queryset st') = [("variables_as_txt", "variables")]
    /\ filter_calls (queryset st') = []
    /\ exists added,
         annotations (queryset st') = [] ++ added
         /\ Forall (fun a => fst a = snd a +:+ "_as_txt") added.
Proof.
  eexists. split; [vm_compute; reflexivity|]. split; [reflexivity|].
  destruct (loop_only_annotates Toy.oracles Toy.host [("variables__icontains", ["x"])]
              (initial_state (all_objects Toy.host)) _ eq_refl) as (_ & Hf & _ & Ha).
  split; [exact Hf|exact Ha].
Defined.

Lemma flags_never_reset_witness :
  exists st' : State,
    for_each (process_param Toy.oracles Toy.team) [("name", ["a"])]
      (set_relation AND (set_needs_distinct (initial_state (all_objects Toy.team))))
    = Ok st'
    /\ needs_distinct st' = true
    /\ search_filter_relation st' = AND.
Proof.
  eexists. split; [vm_compute; reflexivity|].
  destruct (flags_never_reset Toy.oracles Toy.team [("name", ["a"])]
              (set_relation AND (set_needs_distinct (initial_state (all_objects Toy.team))))
              _ eq_refl) as (Hd & Hr).
  split; [apply Hd; reflexivity|apply Hr; reflexivity].
Defined.

Lemma search_term_overwrites_its_entry_witness :
  exists st' : State,
    process_param Toy.oracles Toy.team
      (mkState [] [] [] [] [("x", ["old"]); ("y", ["old"])] true OR (all_objects Toy.team))
      ("organization__search", ["z"; "x"]) = Ok st'
    /\ dict_get "x" (search_filters st')
       = Some ["organization__name__icontains"; "organization__description__icontains"]
    /\ dict_get "y" (search_filters st') = Some ["old"]
    /\ map fst (search_filters st') = ["x"; "y"; "z"].
Proof.
  destruct (search_term_overwrites_its_entry Toy.oracles Toy.team
              (mkState [] [] [] [] [("x", ["old"]); ("y", ["old"])] true OR
                 (all_objects Toy.team))
              "organization" ["z"; "x"]
              [mkField "organization" ForeignKey (Some Toy.organization)]
              "organization"
              (mkField "organization" ForeignKey (Some Toy.organization))
              Toy.organization
              eq_refl eq_refl eq_refl eq_refl eq_refl eq_refl eq_refl eq_refl eq_refl)
    as (st' & Hp & Hin & Hout & Hk & _).
  exists st'. split; [exact Hp|]. split; [|split].
  - apply (Hin "x"). right. left. reflexivity.
  - rewrite (Hout "y"); [reflexivity|].
    intros [H|[H|[]]]; discriminate.
  - exact Hk.
Defined.

Lemma reserved_key_ignored_witness :
  filter_queryset Toy.oracles
    ([("name", ["a"])] ++ ("page", ["2"]) :: [("count", ["1"])]) (all_objects Toy.team)
  = filter_queryset Toy.oracles
      ([("name", ["a"])] ++ [("count", ["1"])]) (all_objects Toy.team).
Proof.
  apply (reserved_key_ignored Toy.oracles (all_objects Toy.team)
           [("name", ["a"])] [("count", ["1"])] "page" ["2"]).
  reflexivity.
Defined.

Lemma caught_exceptions_become_parse_errors_witness :
  filter_queryset Toy.oracles
    ([("name", ["a"])] ++ ("count__in", [EmptyString]) :: [("nothing", ["1"])])
    (all_objects Toy.team)
  = Raise (ParseError "cannot provide empty value for __in").
Proof.
  destruct (caught_exceptions_become_parse_errors Toy.oracles (all_objects Toy.team)
              [("name", ["a"])] [("nothing", ["1"])] ("count__in", [EmptyString])
              (mkState [(false, "name__exact", PyStr "a")] [] [] [] [] false OR
                 (all_objects Toy.team))
              (ValueError "cannot provide empty value for __in") eq_refl eq_refl)
    as [H _].
  exact H.
Defined.

Lemma user_created_is_date_joined_witness :
  process_param Toy.oracles Toy.user (initial_state (all_objects Toy.user))
    ("created__gt", ["2020"])
  = process_param Toy.oracles Toy.user (initial_state (all_objects Toy.user))
      ("date_joined__gt", ["2020"]).
Proof.
  exact (user_created_is_date_joined Toy.oracles Toy.user
           (initial_state (all_objects Toy.user)) "created__gt" ["2020"]
           eq_refl eq_refl eq_refl eq_refl).
Defined.

Lemma job_event_hosts_name_is_or_host_name_witness :
  process_param Toy.oracles Toy.job_event (initial_state (all_objects Toy.job_event))
    ("hosts__name", ["web"])
  = process_param Toy.oracles Toy.job_event
      (add_or (false, "host__name__isnull", PyBool true)
         (initial_state (all_objects Toy.job_event)))
      ("or__host__name", ["web"]).
Proof.
  exact (job_event_hosts_name_is_or_host_name Toy.oracles Toy.job_event
           (initial_state (all_objects Toy.job_event)) "hosts__name" ["web"]
           eq_refl eq_refl eq_refl eq_refl).
Defined.

Lemma build_calls_witness :
  build (mkState [(false, "name__exact", PyStr "a")] [] [(true, "count__exact", PyInt 1)]
           [] [] true OR (all_objects Toy.team))
  = Ok (mkQuerySet Toy.team []
          [ [Q_not (Q_leaf "count__exact" (PyInt 1))];
            [Q_leaf "name__exact" (PyStr "a")] ]
          true).
Proof.
  destruct (build_calls
              (mkState [(false, "name__exact", PyStr "a")] []
                 [(true, "count__exact", PyInt 1)] [] [] true OR (all_objects Toy.team)))
    as [_ H].
  apply H; [reflexivity|left; reflexivity].
Defined.

Lemma resolved_lookup_has_operator_witness :
  exists path new_path op,
    In op SUPPORTED_LOOKUPS
    /\ is_empty path = false
    /\ Toy.get_fields_from_path Toy.team path TREAT_JSONFIELD_AS_TEXT
       = Ok ([mkField "organization" ForeignKey (Some Toy.organization);
              mkField "name" CharField None], new_path)
    /\ "organization__name__icontains" = new_path +:+ "__" +:+ op
    /\ ("organization__name__icontains" = path +:+ "__" +:+ op
        \/ ("organization__name__icontains" = path /\ op = "exact")).
Proof.
  apply (resolved_lookup_has_operator Toy.oracles Toy.team "organization__name__icontains").
  vm_compute. reflexivity.
Defined.

Lemma distinct_flag_is_about_the_fields_witness :
  exists field_list new_lookup,
    get_fields_from_lookup Toy.oracles Toy.team "organization__name"
    = Ok (field_list, new_lookup)
    /\ (true = true <->
        exists f, In f field_list /\ NO_DUPLICATES_ALLOW_LIST f = false).
Proof.
  apply (distinct_flag_is_about_the_fields Toy.oracles Toy.team "organization__name"
           (QStr "acme") (PyStr "acme") (Single "organization__name__exact") true).
  vm_compute. reflexivity.
Defined.

Lemma only_search_gives_a_list_witness :
  exists new_lookup, Single "name__exact" = Single new_lookup.
Proof.
  apply (only_search_gives_a_list Toy.oracles Toy.team "chain__not__name" "not__name"
           "name" true false true (QStr "bob") (PyStr "bob") (Single "name__exact") false).
  - reflexivity.
  - reflexivity.
  - reflexivity.
  - vm_compute. reflexivity.
Defined.

Lemma regex_is_validated_witness :
  value_to_python Toy.oracles Toy.team "name__iregex" (QStr "^a.*")
  = Ok (PyStr "^a.*", Single "name__iregex", false).
Proof.
  destruct (regex_is_validated Toy.oracles Toy.team "name" "iregex"
              [mkField "name" CharField None] "name" (mkField "name" CharField None)
              (QStr "^a.*") (or_intror eq_refl) eq_refl eq_refl eq_refl eq_refl eq_refl)
    as [_ H].
  exact (H tt eq_refl).
Defined.

Lemma iexact_needs_text_field_witness :
  value_to_python Toy.oracles Toy.host "variables__iexact" (QStr "a")
  = Raise (ValueError "variables is not a text field and cannot be filtered by case-insensitive search")
  /\ value_to_python Toy.oracles Toy.host "name__iexact" (QStr "a")
     = Ok (PyStr "a", Single "name__iexact", false).
Proof.
  split.
  - destruct (iexact_needs_text_field Toy.oracles Toy.host "variables"
                [mkField "variables" JSONField None] "variables"
                (mkField "variables" JSONField None) (QStr "a")
                eq_refl eq_refl eq_refl eq_refl eq_refl) as [_ H].
    exact (H eq_refl).
  - destruct (iexact_needs_text_field Toy.oracles Toy.host "name"
                [mkField "name" CharField None] "name"
                (mkField "name" CharField None) (QStr "a")
                eq_refl eq_refl eq_refl eq_refl eq_refl) as [H _].
    exact (H eq_refl).
Defined.

Lemma isnull_reads_a_boolean_witness :
  value_to_python Toy.oracles Toy.team "organization__isnull" (QStr "True")
  = Ok (PyBool true, Single "organization__isnull", true)
  /\ value_to_python Toy.oracles Toy.team "organization__isnull" (QStr "7")
     = Raise (ValueError "Unable to convert '7' to boolean").
Proof.
  destruct (isnull_reads_a_boolean Toy.oracles Toy.team "organization"
              [mkField "organization" ForeignKey (Some Toy.organization)] "organization"
              (mkField "organization" ForeignKey (Some Toy.organization)) (QStr "True")
              eq_refl eq_refl eq_refl eq_refl eq_refl) as [H1 _].
  destruct (isnull_reads_a_boolean Toy.oracles Toy.team "organization"
              [mkField "organization" ForeignKey (Some Toy.organization)] "organization"
              (mkField "organization" ForeignKey (Some Toy.organization)) (QStr "7")
              eq_refl eq_refl eq_refl eq_refl eq_refl) as [_ H2].
  split; [exact (H1 true eq_refl)|exact (H2 _ eq_refl)].
Defined.

Lemma related_value_is_none_or_id_witness :
  value_to_python_for_field Toy.oracles
    (mkField "organization" ForeignKey (Some Toy.organization)) (QStr "NULL") = Ok PyNone
  /\ value_to_python_for_field Toy.oracles
       (mkField "organization" ForeignKey (Some Toy.organization)) (QStr "12")
     = Ok (PyInt 12)
  /\ value_to_python_for_field Toy.oracles
       (mkField "organization" ForeignKey (Some Toy.organization)) (QStr "acme")
     = Raise (ParseError "Invalid organization id: acme").
Proof.
  split; [|split].
  - destruct (related_value_is_none_or_id Toy.oracles
                (mkField "organization" ForeignKey (Some Toy.organization)) (QStr "NULL")
                eq_refl) as (H & _ & _).
    exact (H eq_refl).
  - destruct (related_value_is_none_or_id Toy.oracles
                (mkField "organization" ForeignKey (Some Toy.organization)) (QStr "12")
                eq_refl) as (_ & H & _).
    exact (H eq_refl 12%Z eq_refl).
  - destruct (related_value_is_none_or_id Toy.oracles
                (mkField "organization" ForeignKey (Some Toy.organization)) (QStr "acme")
                eq_refl) as (_ & _ & H).
    exact (H eq_refl eq_refl).
Defined.

Lemma non_ascii_key_refused_witness :
  filter_queryset Toy.oracles ([] ++ [("not__café", ["x"])]) (all_objects Toy.team)
  = Raise (ParseError ("café" +:+ " is not an allowed field name. Must be ascii encodable.")).
Proof.
  apply (non_ascii_key_refused Toy.oracles (all_objects Toy.team) [] []
           (initial_state (all_objects Toy.team)) "not__café" "not__café"
           "café" false false true "x" []); reflexivity.
Defined.

Lemma int_suffix_breaks_in_witness :
  filter_queryset Toy.oracles ([] ++ [("count__in__int", ["5"])]) (all_objects Toy.team)
  = Raise AttributeError
  /\ filter_queryset Toy.oracles ([] ++ [("count__in__int", ["0"])]) (all_objects Toy.team)
     = Raise (ParseError "cannot provide empty value for __in").
Proof.
  split.
  - destruct (int_suffix_breaks_in Toy.oracles (all_objects Toy.team) [] []
                (initial_state (all_objects Toy.team)) "count__in" "count__in"
                false false false "count" [mkField "count" IntegerField None] "count"
                (mkField "count" IntegerField None) "5" []
                eq_refl eq_refl eq_refl eq_refl eq_refl eq_refl eq_refl eq_refl eq_refl
                eq_refl eq_refl eq_refl eq_refl) as (_ & _ & H).
    apply (H 5%Z); [reflexivity|discriminate].
  - destruct (int_suffix_breaks_in Toy.oracles (all_objects Toy.team) [] []
                (initial_state (all_objects Toy.team)) "count__in" "count__in"
                false false false "count" [mkField "count" IntegerField None] "count"
                (mkField "count" IntegerField None) "0" []
                eq_refl eq_refl eq_refl eq_refl eq_refl eq_refl eq_refl eq_refl eq_refl
                eq_refl eq_refl eq_refl eq_refl) as (_ & H & _).
    apply H. reflexivity.
Defined.

Lemma polymorphic_search_asserts_witness :
  filter_queryset Toy.oracles
    ([] ++ [("polymorphic_ctype__model__search", ["job_template"])]) (all_objects Toy.team)
  = Raise AssertionError.
Proof.
  apply (polymorphic_search_asserts Toy.oracles (all_objects Toy.team) [] []
           (initial_state (all_objects Toy.team)) "polymorphic_ctype__model"
           ["job_template"]
           [mkField "polymorphic_ctype" ForeignKey (Some Toy.content_type);
            mkField "model" CharField None]
           "polymorphic_ctype__model" (mkField "model" CharField None));
    try reflexivity.
  discriminate.
Defined.

Lemma json_field_is_filtered_as_text_witness :
  value_to_python Toy.oracles Toy.host "variables__icontains" (QStr "x")
  = Ok (PyStr "x", Single "variables_as_txt__icontains", true)
  /\ replace "variables" "variables_as_txt" "variables__icontains"
     = "variables_as_txt__icontains".
Proof.
  destruct (json_field_is_filtered_as_text Toy.oracles Toy.host "variables" "icontains"
              [mkField "variables" JSONField None] "variables"
              (mkField "variables" JSONField None) (QStr "x")
              (or_intror (or_intror (or_introl eq_refl)))
              eq_refl eq_refl eq_refl eq_refl eq_refl) as (H1 & H2 & _).
  split; [exact (H1 eq_refl)|exact (H2 eq_refl eq_refl eq_refl eq_refl)].
Defined.

Lemma one_triple_for_each_value_witness :
  exists st' : State,
    process_param Toy.oracles Toy.team (initial_state (all_objects Toy.team))
      ("or__not__count", ["1"; "2"]) = Ok st'
    /\ or_filters st' = [(true, "count__exact", PyInt 1); (true, "count__exact", PyInt 2)]
    /\ exists added,
         or_filters st' = [] ++ added
         /\ length added = 2
         /\ Forall2 (fun (v : string) (e : LookupExpression) =>
                       fst (fst e) = true
                       /\ exists distinct : bool,
                            value_to_python Toy.oracles Toy.team "count" (QStr v)
                            = Ok (snd e, Single (snd (fst e)), distinct))
                    ["1"; "2"] added.
Proof.
  eexists. split; [vm_compute; reflexivity|]. split; [reflexivity|].
  apply (one_triple_for_each_value Toy.oracles Toy.team
           (initial_state (all_objects Toy.team)) _ "or__not__count" "not__count" "count"
           false true true ["1"; "2"]); reflexivity.
Defined.

Lemma role_level_without_capability_raises_witness :
  filter_queryset Toy.oracles [("role_level", ["admin"])] (all_objects Toy.log_entry)
  = Raise UnboundLocalError
  /\ filter_queryset Toy.oracles
       [("organization__search", ["x"]); ("role_level", ["admin"])]
       (all_objects Toy.log_entry)
     = Raise (ParseError "'bool' object is not callable").
Proof.
  split.
  - apply (role_level_without_capability_raises Toy.oracles (all_objects Toy.log_entry)
             [("role_level", ["admin"])]
             (mkState [] [] [] ["admin"] [] false OR (all_objects Toy.log_entry))
             eq_refl); [discriminate|reflexivity].
  - apply (role_level_without_capability_raises Toy.oracles (all_objects Toy.log_entry)
             [("organization__search", ["x"]); ("role_level", ["admin"])]
             (mkState [] [] [] ["admin"]
                [("x", ["organization__name__icontains";
                        "organization__description__icontains"])]
                true OR (all_objects Toy.log_entry))
             eq_refl); [discriminate|reflexivity].
Defined.

End MoreInstances.
